(** * KPI scorecard: data integration and KPI computation

    A shallow embedding of the TypeScript sources
      - utils/formatters.ts    (module [Formatters])
      - utils/dateHelpers.ts   (module [DateHelpers])
      - types/index.ts         (module [Types])
      - services/fileParser.ts (module [FileParser])
      - services/dataIntegrator.ts (module [DataIntegrator])
      - services/kpiCalculator.ts  (module [KpiCalculator])
    followed by the properties of the pipeline.

    Conventions of the embedding.
      - A JavaScript string is a sequence of code units; the model keeps the
        code units 0..255 (Rocq's [string]).
      - A JavaScript number is an exact rational ([Q]); rounding, NaN and the
        infinities are outside the model, except where the code itself tests
        for NaN (the result of [parseInt] and [parseFloat] is an [option]).
      - A [Date] object is its time value: milliseconds, or the invalid date.
      - A promise is its outcome: resolved with a value or rejected. *)

From Stdlib Require Import String Ascii List Bool ZArith QArith Lia Lqa.
From Stdlib Require Import Sorted Permutation Qround.
From Stdlib Require Import Decimal DecimalString DecimalNat.
Import ListNotations.

Local Open Scope string_scope.
Local Open Scope list_scope.
Local Open Scope Z_scope.

(** ** JavaScript values used by the sources *)

Module JS.

(** The [number] type. *)
Definition number := Q.
Bind Scope Q_scope with number.

(** [x === y], [x < y] and [x <= y] on numbers. *)
Definition num_eqb (x y : number) : bool := Qeq_bool x y.
Definition num_ltb (x y : number) : bool := negb (Qle_bool y x).
Definition num_leb (x y : number) : bool := Qle_bool x y.
Arguments num_eqb (x y)%_Q.
Arguments num_ltb (x y)%_Q.
Arguments num_leb (x y)%_Q.

(** [arr.length] as a number. *)
Definition length {A} (l : list A) : number := inject_Z (Z.of_nat (List.length l)).

(** [arr.reduce((sum, x) => sum + f(x), 0)]. *)
Definition reduce_sum {A} (f : A -> number) (l : list A) : number :=
  fold_left (fun sum x => (sum + f x)%Q) l (0%Q).

(** Truthiness of a string: only the empty string is falsy. *)
Definition truthy_string (s : string) : bool :=
  match s with EmptyString => false | String _ _ => true end.

(** WhiteSpace and LineTerminator code units below 256: TAB, LF, VT, FF,
    CR, SP and NBSP.  This is what both [String.prototype.trim] and the
    regular expression class [\s] recognise. *)
Definition isWhiteSpace (c : ascii) : bool :=
  let n := N_of_ascii c in
  ((9 <=? n) && (n <=? 13) || (n =? 32) || (n =? 160))%N.

Fixpoint trimStart (s : string) : string :=
  match s with
  | EmptyString => EmptyString
  | String c r => if isWhiteSpace c then trimStart r else s
  end.

Fixpoint trimEnd (s : string) : string :=
  match s with
  | EmptyString => EmptyString
  | String c r =>
      match trimEnd r with
      | EmptyString => if isWhiteSpace c then EmptyString else String c EmptyString
      | r' => String c r'
      end
  end.

(** [s.trim()] *)
Definition trim (s : string) : string := trimEnd (trimStart s).

(** [s.replace(/\s+/g, ' ')]: every maximal run of white space becomes one
    space.  [inRun] tells that the previous code unit was white space. *)
Fixpoint replaceWsRuns (inRun : bool) (s : string) : string :=
  match s with
  | EmptyString => EmptyString
  | String c r =>
      if isWhiteSpace c
      then if inRun then replaceWsRuns true r
           else String " " (replaceWsRuns true r)
      else String c (replaceWsRuns false r)
  end.

(** [s.replace(/[...]/g, '')] for a character class. *)
Fixpoint removeChars (cls : ascii -> bool) (s : string) : string :=
  match s with
  | EmptyString => EmptyString
  | String c r => if cls c then removeChars cls r else String c (removeChars cls r)
  end.

(** [s.toLowerCase()] on code units below 256: A-Z, and the Latin-1
    capitals U+00C0..U+00DE without the multiplication sign U+00D7. *)
Definition toLowerChar (c : ascii) : ascii :=
  let n := N_of_ascii c in
  if ((65 <=? n) && (n <=? 90) || (192 <=? n) && (n <=? 222) && negb (n =? 215))%N
  then ascii_of_N (n + 32) else c.

Fixpoint toLowerCase (s : string) : string :=
  match s with
  | EmptyString => EmptyString
  | String c r => String (toLowerChar c) (toLowerCase r)
  end.

(** [s.includes(sub)] *)
Fixpoint includes (s sub : string) : bool :=
  String.prefix sub s ||
  match s with
  | EmptyString => false
  | String _ r => includes r sub
  end.

Definition isDigit (c : ascii) : bool :=
  let n := N_of_ascii c in ((48 <=? n) && (n <=? 57))%N.

Definition digitValue (c : ascii) : Z := Z.of_N (N_of_ascii c) - 48.

(** The longest prefix of decimal digits of [s], read with accumulator
    [acc], and the rest of the string. *)
Fixpoint readDigits (acc : Z) (s : string) : Z * string :=
  match s with
  | String c r => if isDigit c then readDigits (10 * acc + digitValue c) r else (acc, s)
  | EmptyString => (acc, s)
  end.

Definition startsWithDigit (s : string) : bool :=
  match s with String c _ => isDigit c | EmptyString => false end.

(** [parseInt(s, 10)]: leading white space, an optional sign, then the
    longest run of decimal digits; [None] is NaN. *)
Definition parseInt10 (s : string) : option Z :=
  let t := trimStart s in
  let '(neg, u) :=
    match t with
    | String "-" r => (true, r)
    | String "+" r => (false, r)
    | _ => (false, t)
    end in
  if startsWithDigit u
  then let n := fst (readDigits 0 u) in Some (if neg then - n else n)
  else None.

(** The members a plain object literal inherits from [Object.prototype];
    [obj[key]] finds them when [obj] has no own property [key].  Each is a
    function or an object, hence truthy and not a string. *)
Definition ObjectPrototype_members : list string :=
  [ "constructor"; "__defineGetter__"; "__defineSetter__"; "hasOwnProperty";
    "__lookupGetter__"; "__lookupSetter__"; "isPrototypeOf";
    "propertyIsEnumerable"; "toString"; "valueOf"; "__proto__";
    "toLocaleString" ].

Definition inheritedMember (key : string) : bool :=
  existsb (String.eqb key) ObjectPrototype_members.

(** The result of reading [obj[key]] on an object literal whose own
    properties hold strings. *)
Inductive value : Type :=
| VString (s : string)
| VInherited (key : string).   (* the member [key] of Object.prototype *)

(** The own property [key] of an object literal given by its entries in
    source order (no key is written twice in the literals modelled). *)
Fixpoint ownProperty (obj : list (string * string)) (key : string) : option string :=
  match obj with
  | [] => None
  | (k, v) :: rest => if String.eqb k key then Some v else ownProperty rest key
  end.

(** [obj[key] || dflt] *)
Definition getOr (obj : list (string * string)) (key dflt : string) : value :=
  match ownProperty obj key with
  | Some v => if truthy_string v then VString v else VString dflt
  | None => if inheritedMember key then VInherited key else VString dflt
  end.

(** A promise, by its outcome. *)
Inductive outcome (A : Type) : Type :=
| Resolved (a : A)
| Rejected (reason : string).
Arguments Resolved {A} a.
Arguments Rejected {A} reason.

Definition bind {A B} (p : outcome A) (k : A -> outcome B) : outcome B :=
  match p with
  | Resolved a => k a
  | Rejected e => Rejected e
  end.

(** [new Set<string>()] with [add]; [Array.from(set)] lists the members in
    insertion order, so the set is the list of its members in that order. *)
Definition StringSet := list string.

Definition Set_has (s : StringSet) (x : string) : bool := existsb (String.eqb x) s.

Definition Set_add (s : StringSet) (x : string) : StringSet :=
  if Set_has s x then s else s ++ [x].

(** [arr.forEach(x => set.add(f(x)))] *)
Definition addAll {A} (f : A -> string) (l : list A) (s : StringSet) : StringSet :=
  fold_left (fun acc x => Set_add acc (f x)) l s.

(** [arr.sort()] on strings: ascending code-unit order. *)
Fixpoint insertSorted (x : string) (l : list string) : list string :=
  match l with
  | [] => [x]
  | y :: r => if String.leb x y then x :: l else y :: insertSorted x r
  end.

Definition sort (l : list string) : list string := fold_right insertSorted [] l.

End JS.

Notation "x <- p ;; k" := (JS.bind p (fun x => k))
  (at level 61, p at next level, right associativity).

(** ** utils/dateHelpers.ts *)

Module DateHelpers.

(** A [Date] object, by its time value. *)
Inductive Date : Type :=
| ValidDate (ms : Z)
| InvalidDate.

(** [!date] is false for every [Date] object, the invalid one included. *)
Definition truthy (d : Date) : bool := true.

(** [a >= b] and [a <= b] on dates compare the time values; a comparison
    with NaN is false. *)
Definition date_geb (a b : Date) : bool :=
  match a, b with
  | ValidDate x, ValidDate y => y <=? x
  | _, _ => false
  end.

Definition date_leb (a b : Date) : bool :=
  match a, b with
  | ValidDate x, ValidDate y => x <=? y
  | _, _ => false
  end.

Definition isDateInWeekRange (date weekStart weekEnd : Date) : bool :=
  date_geb date weekStart && date_leb date weekEnd.

End DateHelpers.

(** ** utils/formatters.ts *)

Module Formatters.
Import JS.

Definition sign (s : string) : bool * string :=
  match s with
  | String "-" r => (true, r)
  | String "+" r => (false, r)
  | _ => (false, s)
  end.

(** Decimal digits with their count. *)
Fixpoint readDigitsCount (acc count : Z) (s : string) : Z * Z * string :=
  match s with
  | String c r =>
      if isDigit c then readDigitsCount (10 * acc + digitValue c) (count + 1) r
      else (acc, count, s)
  | EmptyString => (acc, count, s)
  end.

Definition readExponent (s : string) : Z :=
  match s with
  | String c r =>
      if (Ascii.eqb c "e" || Ascii.eqb c "E")%bool
      then let '(neg, u) := sign r in
           if startsWithDigit u
           then let n := fst (readDigits 0 u) in if neg then - n else n
           else 0
      else 0
  | EmptyString => 0
  end.

(** [parseFloat(s)]: leading white space, then the longest prefix that is a
    decimal literal (sign, digits, fraction, exponent); [None] is NaN.  The
    literal [Infinity] denotes no rational and reads as any other
    non-numeric text. *)
Definition parseFloat (s : string) : option number :=
  let '(neg, u) := sign (trimStart s) in
  let '(ip, ni, r1) := readDigitsCount 0 0 u in
  let '(fp, nf, r2) :=
    match r1 with
    | String "." r => readDigitsCount 0 0 r
    | _ => (0, 0, r1)
    end in
  if ((ni =? 0) && (nf =? 0))%bool then None
  else
    let m := (inject_Z ip + inject_Z fp / inject_Z (10 ^ nf))%Q in
    let v := (m * Qpower (inject_Z 10) (readExponent r2))%Q in
    Some (if neg then (- v)%Q else v).

(** [x || 0] for the result of [parseFloat]: NaN and zero are falsy. *)
Definition orZero (x : option number) : number :=
  match x with
  | Some q => if num_eqb q 0 then 0%Q else q
  | None => 0%Q
  end.

Definition isDollarOrComma (c : ascii) : bool :=
  (Ascii.eqb c "$" || Ascii.eqb c ",")%bool.

Definition isPercentOrSpace (c : ascii) : bool :=
  (Ascii.eqb c "%" || isWhiteSpace c)%bool.

(** [None] stands for [null] and [undefined]. *)
Definition parseCurrency (currencyString : option string) : number :=
  match currencyString with
  | None => 0%Q
  | Some s =>
      if negb (truthy_string s) then 0%Q
      else orZero (parseFloat (removeChars isDollarOrComma s))
  end.

Definition parsePercentage (percentageString : option string) : number :=
  match percentageString with
  | None => 0%Q
  | Some s =>
      if negb (truthy_string s) then 0%Q
      else orZero (parseFloat (removeChars isPercentOrSpace s))
  end.

(** A match of [/(\d+)h\s*(\d+)m/] that starts at the head of [s]: the two
    groups, read in base ten. *)
Definition matchHoursMinutes (s : string) : option (Z * Z) :=
  if startsWithDigit s then
    let '(h, r) := readDigits 0 s in
    match r with
    | String "h" r1 =>
        let r2 := trimStart r1 in
        if startsWithDigit r2 then
          let '(m, r3) := readDigits 0 r2 in
          match r3 with
          | String "m" _ => Some (h, m)
          | _ => None
          end
        else None
    | _ => None
    end
  else None.

(** [s.match(re)]: the leftmost match. *)
Fixpoint searchHoursMinutes (s : string) : option (Z * Z) :=
  match matchHoursMinutes s with
  | Some hm => Some hm
  | None =>
      match s with
      | String _ r => searchHoursMinutes r
      | EmptyString => None
      end
  end.

Definition parseTimeToMinutes (timeString : option string) : number :=
  match timeString with
  | None => 0%Q
  | Some s =>
      if negb (truthy_string s) then 0%Q
      else match searchHoursMinutes s with
           | Some (hours, minutes) => inject_Z (hours * 60 + minutes)
           | None => 0%Q
           end
  end.

Definition nameMap : list (string * string) :=
  [ ("Aaron M", "Aaron McDaniel");
    ("Aaron", "Aaron McDaniel");
    ("Jake H", "Jake Harter");
    ("Jake", "Jake Harter");
    ("Steven S", "Steven Springer");
    ("Steven", "Steven Springer");
    ("Colin M", "Colin Myers");
    ("Colin", "Colin Myers");
    ("Brennan E", "Brennan Ebbesmier");
    ("Brennan", "Brennan Ebbesmier");
    ("Justice B", "Justice Burns");
    ("Justice", "Justice Burns");
    ("Alex P", "Alex P") ].

(** [None] stands for [null] and [undefined].  The result is a string,
    except that [nameMap[normalized]] also finds what the literal inherits
    from [Object.prototype]. *)
Definition normalizeTechnicianName (name : option string) : value :=
  match name with
  | None => VString "Unknown Technician"
  | Some s =>
      if negb (truthy_string s) then VString "Unknown Technician"
      else
        let normalized := replaceWsRuns false (trim s) in
        getOr nameMap normalized normalized
  end.

Definition containsServiceKeywords (lineItem : option string) (keywords : list string) : bool :=
  match lineItem with
  | None => false
  | Some s =>
      if negb (truthy_string s) then false
      else
        let lowerLineItem := toLowerCase s in
        existsb (fun keyword => includes lowerLineItem (toLowerCase keyword)) keywords
  end.

Definition getHydroJettingKeywords : list string :=
  ["hydro"; "jetting"; "high pressure"; "pressure wash"].

Definition getDescalingKeywords : list string :=
  ["descal"; "scale removal"; "cast iron pipe descaling"; "descaling"].

Definition getWaterHeaterKeywords : list string :=
  ["water heater"; "hot water"; "heater install"; "heater replacement"].

End Formatters.

(** ** types/index.ts *)

Module Types.
Import JS DateHelpers.

(** A spreadsheet cell as the decoding library hands it over, for the
    columns whose run-time type the parsers test with [typeof]: a number, or
    a value of another type (a missing cell is [undefined]).  The other
    columns have the type that their interface declares. *)
Inductive nonNumber : Type :=
| NString (s : string)
| NBoolean (b : bool)
| NUndefined
| NNull.

Inductive cell : Type :=
| CNumber (n : number)
| COther (v : nonNumber).

Module OpportunityData.
Record t : Type := mk {
  Date_ : string;
  Job : string;
  Customer : string;
  Email : string;
  Phone : string;
  Status : string;
  Opportunity_Owner : option string;
  Membership_Opportunity : string;
  Membership_Sold : string;
  Revenue : cell }.
End OpportunityData.

Module LineItemData.
Record t : Type := mk {
  Invoice_Date : string;
  Customer : string;
  Job : string;
  Opp_Owner : option string;
  Category : string;
  Line_Item : string;
  Quantity : cell;
  Price : cell }.
End LineItemData.

Module JobTimeData.
Record t : Type := mk {
  First_Appointment : string;
  Job : string;
  Job_Status : string;
  Customer : string;
  Opportunity_Owner : option string;
  Opportunity : string;
  Total : option string;
  Total_Time : option string;
  Sold_Time : option string;
  Job_Efficiency : option string }.
End JobTimeData.

Module AppointmentData.
Record t : Type := mk {
  Appointment : string;
  Scheduled_For : string;
  Job : string;
  Customer : string;
  Appt_Status : string;
  Technician : option string;
  Service_Category : string;
  Revenue : cell }.
End AppointmentData.

Module ProcessedOpportunity.
Record t : Type := mk {
  date : Date;
  jobId : string;
  customer : string;
  email : string;
  phone : string;
  status : string;
  technician : string;
  membershipOpportunity : bool;
  membershipSold : bool;
  revenue : number }.
End ProcessedOpportunity.

Module ProcessedLineItem.
Record t : Type := mk {
  invoiceDate : Date;
  customer : string;
  jobId : string;
  technician : string;
  category : string;
  lineItem : string;
  quantity : number;
  price : number }.
End ProcessedLineItem.

Module ProcessedJobTime.
Record t : Type := mk {
  firstAppointment : Date;
  jobId : string;
  jobStatus : string;
  customer : string;
  technician : string;
  opportunity : string;
  total : number;
  totalTime : number;
  soldTime : number;
  jobEfficiency : number }.
End ProcessedJobTime.

Module ProcessedAppointment.
Record t : Type := mk {
  appointmentId : string;
  scheduledFor : Date;
  jobId : string;
  customer : string;
  apptStatus : string;
  technician : string;
  serviceCategory : string;
  revenue : number }.
End ProcessedAppointment.

Module TechnicianKPIs.
Record t : Type := mk {
  technician : string;
  averageTicketValue : number;
  jobCloseRate : number;
  weeklyRevenue : number;
  jobEfficiency : number;
  membershipWinRate : number;
  hydroJettingJobsSold : number;
  descalingJobsSold : number;
  waterHeaterJobsSold : number }.
End TechnicianKPIs.

Module UploadedFiles.
Record t (File : Type) : Type := mk {
  opportunities : option File;
  lineItems : option File;
  jobTimes : option File;
  appointments : option File }.
Arguments mk {File}.
Arguments opportunities {File}.
Arguments lineItems {File}.
Arguments jobTimes {File}.
Arguments appointments {File}.
End UploadedFiles.

End Types.

(** ** services/fileParser.ts *)

Module FileParser.
Import JS DateHelpers Formatters Types.

(** [String(v)] for a value that is not a number. *)
Definition String_ (v : nonNumber) : string :=
  match v with
  | NString s => s
  | NBoolean true => "true"
  | NBoolean false => "false"
  | NUndefined => "undefined"
  | NNull => "null"
  end.

(** [typeof c === 'number' ? c : parseCurrency(String(c))] *)
Definition currencyCell (c : cell) : number :=
  match c with
  | CNumber n => n
  | COther v => parseCurrency (Some (String_ v))
  end.

(** [typeof c === 'number' ? c : parseInt(String(c), 10) || 1] *)
Definition quantityCell (c : cell) : number :=
  match c with
  | CNumber n => n
  | COther v =>
      match parseInt10 (String_ v) with
      | Some n => if n =? 0 then 1%Q else inject_Z n
      | None => 1%Q
      end
  end.

(** The technician of a record is what [normalizeTechnicianName] returns;
    the record has the declared type only when that is a string. *)
Definition technicianField (owner : option string) : option string :=
  match normalizeTechnicianName owner with
  | VString s => Some s
  | VInherited _ => None
  end.

Section Rows.
(** [parseDate] and [parseDateTime] of dateHelpers.ts build the date with
    [new Date(year, month - 1, day)] and [setHours], which read their
    arguments in the time zone of the host. *)
Variable parseDate : string -> Date.
Variable parseDateTime : string -> Date.

(** The arrow functions under [rawData.map] in the four parsers. *)
Definition parseOpportunityRow (row : OpportunityData.t) : option ProcessedOpportunity.t :=
  match technicianField (OpportunityData.Opportunity_Owner row) with
  | None => None
  | Some tech => Some {|
      ProcessedOpportunity.date := parseDate (OpportunityData.Date_ row);
      ProcessedOpportunity.jobId := OpportunityData.Job row;
      ProcessedOpportunity.customer := OpportunityData.Customer row;
      ProcessedOpportunity.email := OpportunityData.Email row;
      ProcessedOpportunity.phone := OpportunityData.Phone row;
      ProcessedOpportunity.status := OpportunityData.Status row;
      ProcessedOpportunity.technician := tech;
      ProcessedOpportunity.membershipOpportunity :=
        String.eqb (OpportunityData.Membership_Opportunity row) "Yes";
      ProcessedOpportunity.membershipSold :=
        String.eqb (OpportunityData.Membership_Sold row) "Yes";
      ProcessedOpportunity.revenue := currencyCell (OpportunityData.Revenue row) |}
  end.

Definition parseLineItemRow (row : LineItemData.t) : option ProcessedLineItem.t :=
  match technicianField (LineItemData.Opp_Owner row) with
  | None => None
  | Some tech => Some {|
      ProcessedLineItem.invoiceDate := parseDate (LineItemData.Invoice_Date row);
      ProcessedLineItem.customer := LineItemData.Customer row;
      ProcessedLineItem.jobId := LineItemData.Job row;
      ProcessedLineItem.technician := tech;
      ProcessedLineItem.category := LineItemData.Category row;
      ProcessedLineItem.lineItem := LineItemData.Line_Item row;
      ProcessedLineItem.quantity := quantityCell (LineItemData.Quantity row);
      ProcessedLineItem.price := currencyCell (LineItemData.Price row) |}
  end.

Definition parseJobTimeRow (row : JobTimeData.t) : option ProcessedJobTime.t :=
  match technicianField (JobTimeData.Opportunity_Owner row) with
  | None => None
  | Some tech => Some {|
      ProcessedJobTime.firstAppointment := parseDate (JobTimeData.First_Appointment row);
      ProcessedJobTime.jobId := JobTimeData.Job row;
      ProcessedJobTime.jobStatus := JobTimeData.Job_Status row;
      ProcessedJobTime.customer := JobTimeData.Customer row;
      ProcessedJobTime.technician := tech;
      ProcessedJobTime.opportunity := JobTimeData.Opportunity row;
      ProcessedJobTime.total := parseCurrency (JobTimeData.Total row);
      ProcessedJobTime.totalTime := parseTimeToMinutes (JobTimeData.Total_Time row);
      ProcessedJobTime.soldTime := parseTimeToMinutes (JobTimeData.Sold_Time row);
      ProcessedJobTime.jobEfficiency := parsePercentage (JobTimeData.Job_Efficiency row) |}
  end.

Definition parseAppointmentRow (row : AppointmentData.t) : option ProcessedAppointment.t :=
  match technicianField (AppointmentData.Technician row) with
  | None => None
  | Some tech => Some {|
      ProcessedAppointment.appointmentId := AppointmentData.Appointment row;
      ProcessedAppointment.scheduledFor := parseDateTime (AppointmentData.Scheduled_For row);
      ProcessedAppointment.jobId := AppointmentData.Job row;
      ProcessedAppointment.customer := AppointmentData.Customer row;
      ProcessedAppointment.apptStatus := AppointmentData.Appt_Status row;
      ProcessedAppointment.technician := tech;
      ProcessedAppointment.serviceCategory := AppointmentData.Service_Category row;
      ProcessedAppointment.revenue := currencyCell (AppointmentData.Revenue row) |}
  end.

End Rows.

End FileParser.

(** ** services/kpiCalculator.ts *)

Module KpiCalculator.
Import JS DateHelpers Formatters Types.

Definition isWon (opp : ProcessedOpportunity.t) : bool :=
  String.eqb (ProcessedOpportunity.status opp) "Won".

Definition isCompleted (appt : ProcessedAppointment.t) : bool :=
  String.eqb (ProcessedAppointment.apptStatus appt) "Completed".

Definition calculateAverageTicketValue
    (opportunities : list ProcessedOpportunity.t)
    (appointments : list ProcessedAppointment.t) : number :=
  let completedJobs :=
    (JS.length (filter isWon opportunities) +
     JS.length (filter isCompleted appointments))%Q in
  if num_eqb completedJobs 0 then 0%Q
  else
    let totalRevenue :=
      (reduce_sum ProcessedOpportunity.revenue opportunities +
       reduce_sum ProcessedAppointment.revenue appointments)%Q in
    (totalRevenue / completedJobs)%Q.

Definition calculateJobCloseRate (opportunities : list ProcessedOpportunity.t) : number :=
  if num_eqb (JS.length opportunities) 0 then 0%Q
  else
    let wonJobs := JS.length (filter isWon opportunities) in
    ((wonJobs / JS.length opportunities) * 100)%Q.

Definition calculateWeeklyRevenue
    (opportunities : list ProcessedOpportunity.t)
    (appointments : list ProcessedAppointment.t) : number :=
  let opportunitiesRevenue := reduce_sum ProcessedOpportunity.revenue opportunities in
  let appointmentsRevenue := reduce_sum ProcessedAppointment.revenue appointments in
  (opportunitiesRevenue + appointmentsRevenue)%Q.

Definition calculateJobEfficiency (jobTimes : list ProcessedJobTime.t) : number :=
  let validEfficiencies :=
    map ProcessedJobTime.jobEfficiency
        (filter (fun job => num_ltb 0 (ProcessedJobTime.jobEfficiency job)) jobTimes) in
  if num_eqb (JS.length validEfficiencies) 0 then 0%Q
  else
    let sum := reduce_sum (fun efficiency => efficiency) validEfficiencies in
    (sum / JS.length validEfficiencies)%Q.

Definition calculateMembershipWinRate (opportunities : list ProcessedOpportunity.t) : number :=
  let membershipOpportunities :=
    filter ProcessedOpportunity.membershipOpportunity opportunities in
  if num_eqb (JS.length membershipOpportunities) 0 then 0%Q
  else
    let membershipsSold :=
      JS.length (filter ProcessedOpportunity.membershipSold membershipOpportunities) in
    ((membershipsSold / JS.length membershipOpportunities) * 100)%Q.

Definition countKeywords (keywords : list string) (lineItems : list ProcessedLineItem.t) : number :=
  JS.length
    (filter (fun item => containsServiceKeywords (Some (ProcessedLineItem.lineItem item)) keywords)
            lineItems).

Definition calculateHydroJettingJobsSold (lineItems : list ProcessedLineItem.t) : number :=
  countKeywords getHydroJettingKeywords lineItems.

Definition calculateDescalingJobsSold (lineItems : list ProcessedLineItem.t) : number :=
  countKeywords getDescalingKeywords lineItems.

Definition calculateWaterHeaterJobsSold (lineItems : list ProcessedLineItem.t) : number :=
  countKeywords getWaterHeaterKeywords lineItems.

(** The four filters at the head of [calculateTechnicianKPIs]. *)
Definition techOpportunities (technician : string) (weekStart weekEnd : Date)
    (opportunities : list ProcessedOpportunity.t) : list ProcessedOpportunity.t :=
  filter (fun opp => String.eqb (ProcessedOpportunity.technician opp) technician
                     && isDateInWeekRange (ProcessedOpportunity.date opp) weekStart weekEnd)
         opportunities.

Definition techLineItems (technician : string) (weekStart weekEnd : Date)
    (lineItems : list ProcessedLineItem.t) : list ProcessedLineItem.t :=
  filter (fun item => String.eqb (ProcessedLineItem.technician item) technician
                      && isDateInWeekRange (ProcessedLineItem.invoiceDate item) weekStart weekEnd)
         lineItems.

Definition techJobTimes (technician : string) (weekStart weekEnd : Date)
    (jobTimes : list ProcessedJobTime.t) : list ProcessedJobTime.t :=
  filter (fun job => String.eqb (ProcessedJobTime.technician job) technician
                     && isDateInWeekRange (ProcessedJobTime.firstAppointment job) weekStart weekEnd)
         jobTimes.

Definition techAppointments (technician : string) (weekStart weekEnd : Date)
    (appointments : list ProcessedAppointment.t) : list ProcessedAppointment.t :=
  filter (fun appt => String.eqb (ProcessedAppointment.technician appt) technician
                      && isDateInWeekRange (ProcessedAppointment.scheduledFor appt) weekStart weekEnd)
         appointments.

Definition calculateTechnicianKPIs
    (technician : string)
    (opportunities : list ProcessedOpportunity.t)
    (lineItems : list ProcessedLineItem.t)
    (jobTimes : list ProcessedJobTime.t)
    (appointments : list ProcessedAppointment.t)
    (weekStart weekEnd : Date) : TechnicianKPIs.t :=
  let techOpportunities := techOpportunities technician weekStart weekEnd opportunities in
  let techLineItems := techLineItems technician weekStart weekEnd lineItems in
  let techJobTimes := techJobTimes technician weekStart weekEnd jobTimes in
  let techAppointments := techAppointments technician weekStart weekEnd appointments in
  {| TechnicianKPIs.technician := technician;
     TechnicianKPIs.averageTicketValue :=
       calculateAverageTicketValue techOpportunities techAppointments;
     TechnicianKPIs.jobCloseRate := calculateJobCloseRate techOpportunities;
     TechnicianKPIs.weeklyRevenue := calculateWeeklyRevenue techOpportunities techAppointments;
     TechnicianKPIs.jobEfficiency := calculateJobEfficiency techJobTimes;
     TechnicianKPIs.membershipWinRate := calculateMembershipWinRate techOpportunities;
     TechnicianKPIs.hydroJettingJobsSold := calculateHydroJettingJobsSold techLineItems;
     TechnicianKPIs.descalingJobsSold := calculateDescalingJobsSold techLineItems;
     TechnicianKPIs.waterHeaterJobsSold := calculateWaterHeaterJobsSold techLineItems |}.

(** The set built at the head of [calculateAllTechnicianKPIs]. *)
Definition technicianNames
    (opportunities : list ProcessedOpportunity.t)
    (lineItems : list ProcessedLineItem.t)
    (jobTimes : list ProcessedJobTime.t)
    (appointments : list ProcessedAppointment.t) : StringSet :=
  addAll ProcessedAppointment.technician appointments
    (addAll ProcessedJobTime.technician jobTimes
      (addAll ProcessedLineItem.technician lineItems
        (addAll ProcessedOpportunity.technician opportunities []))).

Definition calculateAllTechnicianKPIs
    (opportunities : list ProcessedOpportunity.t)
    (lineItems : list ProcessedLineItem.t)
    (jobTimes : list ProcessedJobTime.t)
    (appointments : list ProcessedAppointment.t)
    (weekStart weekEnd : Date) : list TechnicianKPIs.t :=
  map (fun technician =>
         calculateTechnicianKPIs technician opportunities lineItems jobTimes appointments
                                 weekStart weekEnd)
      (technicianNames opportunities lineItems jobTimes appointments).

End KpiCalculator.

(** ** services/dataIntegrator.ts *)

Module DataIntegrator.
Import JS DateHelpers Types.

Module IntegratedData.
Record t : Type := mk {
  opportunities : list ProcessedOpportunity.t;
  lineItems : list ProcessedLineItem.t;
  jobTimes : list ProcessedJobTime.t;
  appointments : list ProcessedAppointment.t;
  technicianNames : list string;
  jobIds : list string }.
End IntegratedData.

(** The predicates under [filter] in the four cleaning functions; each
    [if (...) return false] of the source is one conjunct, negated. *)
Definition keepOpportunity (opp : ProcessedOpportunity.t) : bool :=
  if negb (truthy_string (ProcessedOpportunity.jobId opp))
     || negb (truthy_string (ProcessedOpportunity.technician opp))
     || negb (DateHelpers.truthy (ProcessedOpportunity.date opp))
  then false
  else if num_ltb (ProcessedOpportunity.revenue opp) 0 then false
  else true.

Definition keepLineItem (item : ProcessedLineItem.t) : bool :=
  if negb (truthy_string (ProcessedLineItem.jobId item))
     || negb (truthy_string (ProcessedLineItem.technician item))
     || negb (DateHelpers.truthy (ProcessedLineItem.invoiceDate item))
  then false
  else if num_ltb (ProcessedLineItem.price item) 0 then false
  else if num_leb (ProcessedLineItem.quantity item) 0 then false
  else true.

Definition keepJobTime (job : ProcessedJobTime.t) : bool :=
  if negb (truthy_string (ProcessedJobTime.jobId job))
     || negb (truthy_string (ProcessedJobTime.technician job))
     || negb (DateHelpers.truthy (ProcessedJobTime.firstAppointment job))
  then false
  else if num_ltb (ProcessedJobTime.jobEfficiency job) 0
          || num_ltb 100 (ProcessedJobTime.jobEfficiency job) then false
  else true.

Definition keepAppointment (appt : ProcessedAppointment.t) : bool :=
  if negb (truthy_string (ProcessedAppointment.jobId appt))
     || negb (truthy_string (ProcessedAppointment.technician appt))
     || negb (DateHelpers.truthy (ProcessedAppointment.scheduledFor appt))
  then false
  else if num_ltb (ProcessedAppointment.revenue appt) 0 then false
  else true.

Definition cleanOpportunitiesData (opportunities : list ProcessedOpportunity.t) :=
  filter keepOpportunity opportunities.

Definition cleanLineItemsData (lineItems : list ProcessedLineItem.t) :=
  filter keepLineItem lineItems.

Definition cleanJobTimesData (jobTimes : list ProcessedJobTime.t) :=
  filter keepJobTime jobTimes.

Definition cleanAppointmentsData (appointments : list ProcessedAppointment.t) :=
  filter keepAppointment appointments.

Definition extractTechnicianNames
    (opportunities : list ProcessedOpportunity.t)
    (lineItems : list ProcessedLineItem.t)
    (jobTimes : list ProcessedJobTime.t)
    (appointments : list ProcessedAppointment.t) : list string :=
  let names :=
    addAll ProcessedAppointment.technician appointments
      (addAll ProcessedJobTime.technician jobTimes
        (addAll ProcessedLineItem.technician lineItems
          (addAll ProcessedOpportunity.technician opportunities []))) in
  JS.sort names.

Definition extractJobIds
    (opportunities : list ProcessedOpportunity.t)
    (lineItems : list ProcessedLineItem.t)
    (jobTimes : list ProcessedJobTime.t)
    (appointments : list ProcessedAppointment.t) : list string :=
  let ids :=
    addAll ProcessedAppointment.jobId appointments
      (addAll ProcessedJobTime.jobId jobTimes
        (addAll ProcessedLineItem.jobId lineItems
          (addAll ProcessedOpportunity.jobId opportunities []))) in
  JS.sort ids.

Section Integration.
(** The browser's [File] handles and the four parsers of fileParser.ts,
    which read a handle through [FileReader] and the spreadsheet library
    and reject when the workbook cannot be read. *)
Variable File : Type.
Variable parseOpportunitiesFile : File -> outcome (list ProcessedOpportunity.t).
Variable parseLineItemsFile : File -> outcome (list ProcessedLineItem.t).
Variable parseJobTimesFile : File -> outcome (list ProcessedJobTime.t).
Variable parseAppointmentsFile : File -> outcome (list ProcessedAppointment.t).

(** [handle ? parse(handle) : Promise.resolve([])] *)
Definition parseIfPresent {A} (parse : File -> outcome (list A)) (handle : option File)
  : outcome (list A) :=
  match handle with
  | Some f => parse f
  | None => Resolved []
  end.

(** [await Promise.all([...])] resolves when the four promises do; when
    several reject, the model reports the first of them in array order. *)
Definition processAndIntegrateFiles (files : UploadedFiles.t File)
  : outcome IntegratedData.t :=
  opportunities <- parseIfPresent parseOpportunitiesFile (UploadedFiles.opportunities files) ;;
  lineItems <- parseIfPresent parseLineItemsFile (UploadedFiles.lineItems files) ;;
  jobTimes <- parseIfPresent parseJobTimesFile (UploadedFiles.jobTimes files) ;;
  appointments <- parseIfPresent parseAppointmentsFile (UploadedFiles.appointments files) ;;
  let cleanedOpportunities := cleanOpportunitiesData opportunities in
  let cleanedLineItems := cleanLineItemsData lineItems in
  let cleanedJobTimes := cleanJobTimesData jobTimes in
  let cleanedAppointments := cleanAppointmentsData appointments in
  let technicianNames :=
    extractTechnicianNames cleanedOpportunities cleanedLineItems
                           cleanedJobTimes cleanedAppointments in
  let jobIds :=
    extractJobIds cleanedOpportunities cleanedLineItems
                  cleanedJobTimes cleanedAppointments in
  Resolved {|
    IntegratedData.opportunities := cleanedOpportunities;
    IntegratedData.lineItems := cleanedLineItems;
    IntegratedData.jobTimes := cleanedJobTimes;
    IntegratedData.appointments := cleanedAppointments;
    IntegratedData.technicianNames := technicianNames;
    IntegratedData.jobIds := jobIds |}.

End Integration.

End DataIntegrator.

(** ** Definitions that follow the words of the specification *)

Module Spec.
Import JS DateHelpers Formatters Types.

(** [normalizeTechnicianName(normalizeTechnicianName(s))]: the second call
    throws a TypeError ([name.trim] is not a function) when the first did
    not return a string; [None] is that exception. *)
Definition normalizeTwice (s : string) : option value :=
  match normalizeTechnicianName (Some s) with
  | VString r => Some (normalizeTechnicianName (Some r))
  | VInherited _ => None
  end.

(** A string with a code unit that is not white space. *)
Fixpoint hasNonWhiteSpace (s : string) : bool :=
  match s with
  | EmptyString => false
  | String c r => negb (isWhiteSpace c) || hasNonWhiteSpace r
  end.

(** A string that does not start with white space. *)
Definition headNotWs (s : string) : Prop :=
  match s with
  | EmptyString => True
  | String c _ => isWhiteSpace c = false
  end.

(** The sum of [f] over a list. *)
Fixpoint sumOf {A} (f : A -> number) (l : list A) : number :=
  match l with
  | [] => 0%Q
  | x :: r => (f x + sumOf f r)%Q
  end.

(** The number of members of a list that satisfy [p]. *)
Definition countOf {A} (p : A -> bool) (l : list A) : Z :=
  Z.of_nat (List.length (filter p l)).

(** The arithmetic mean of a list of numbers. *)
Definition mean (xs : list number) : number :=
  (sumOf (fun x => x) xs / inject_Z (Z.of_nat (List.length xs)))%Q.

(** One day, in milliseconds. *)
Definition msPerDay : Z := 24 * 60 * 60 * 1000.

(** The closed interval [[weekStart, weekEnd]] of time values. *)
Definition inClosedInterval (d weekStart weekEnd : Date) : Prop :=
  exists x a b,
    d = ValidDate x /\ weekStart = ValidDate a /\ weekEnd = ValidDate b /\ a <= x <= b.

(** The technician names met when the collections are scanned in the
    sequence opportunities, line items, job times, appointments. *)
Definition scanOrder
    (opportunities : list ProcessedOpportunity.t)
    (lineItems : list ProcessedLineItem.t)
    (jobTimes : list ProcessedJobTime.t)
    (appointments : list ProcessedAppointment.t) : list string :=
  map ProcessedOpportunity.technician opportunities
  ++ map ProcessedLineItem.technician lineItems
  ++ map ProcessedJobTime.technician jobTimes
  ++ map ProcessedAppointment.technician appointments.

(** The members of [l] that are not in [seen], each once, in the order of
    their first occurrence. *)
Fixpoint firstOccurrences (seen l : list string) : list string :=
  match l with
  | [] => []
  | x :: r =>
      if existsb (String.eqb x) seen then firstOccurrences seen r
      else x :: firstOccurrences (seen ++ [x]) r
  end.

(** The position of the first occurrence of [x] in [l]. *)
Fixpoint indexOf (x : string) (l : list string) : nat :=
  match l with
  | [] => O
  | y :: r => if String.eqb y x then O else S (indexOf x r)
  end.

(** The invariants of cleaned data (section 3 of the specification). *)
Definition cleanedInvariants
    (opportunities : list ProcessedOpportunity.t)
    (lineItems : list ProcessedLineItem.t)
    (jobTimes : list ProcessedJobTime.t)
    (appointments : list ProcessedAppointment.t) : Prop :=
  Forall (fun opp => (0 <= ProcessedOpportunity.revenue opp)%Q) opportunities
  /\ Forall (fun item => (0 <= ProcessedLineItem.price item)%Q
                         /\ (0 < ProcessedLineItem.quantity item)%Q) lineItems
  /\ Forall (fun job => (0 <= ProcessedJobTime.jobEfficiency job)%Q
                        /\ (ProcessedJobTime.jobEfficiency job <= 100)%Q) jobTimes
  /\ Forall (fun appt => (0 <= ProcessedAppointment.revenue appt)%Q) appointments.

End Spec.

(** ** Sample records *)

Module Samples.
Import JS DateHelpers Types Spec.

(** Monday 2 June 2025 00:00 UTC and the Sunday that ends the week. *)
Definition weekStart : Date := ValidDate 1748822400000.
Definition weekEnd : Date := ValidDate (1748822400000 + 6 * msPerDay).
Definition midWeek : Date := ValidDate (1748822400000 + 2 * msPerDay).
Definition dayAfterWeekEnd : Date := ValidDate (1748822400000 + 7 * msPerDay).

Definition opportunity (technician status : string) (date : Date) (revenue : number)
  : ProcessedOpportunity.t :=
  {| ProcessedOpportunity.date := date;
     ProcessedOpportunity.jobId := "J-100";
     ProcessedOpportunity.customer := "Customer";
     ProcessedOpportunity.email := "";
     ProcessedOpportunity.phone := "";
     ProcessedOpportunity.status := status;
     ProcessedOpportunity.technician := technician;
     ProcessedOpportunity.membershipOpportunity := true;
     ProcessedOpportunity.membershipSold := false;
     ProcessedOpportunity.revenue := revenue |}.

Definition lineItem (technician text : string) (date : Date) (quantity price : number)
  : ProcessedLineItem.t :=
  {| ProcessedLineItem.invoiceDate := date;
     ProcessedLineItem.customer := "Customer";
     ProcessedLineItem.jobId := "J-100";
     ProcessedLineItem.technician := technician;
     ProcessedLineItem.category := "Drains";
     ProcessedLineItem.lineItem := text;
     ProcessedLineItem.quantity := quantity;
     ProcessedLineItem.price := price |}.

Definition jobTime (technician : string) (date : Date) (efficiency : number)
  : ProcessedJobTime.t :=
  {| ProcessedJobTime.firstAppointment := date;
     ProcessedJobTime.jobId := "J-100";
     ProcessedJobTime.jobStatus := "Completed";
     ProcessedJobTime.customer := "Customer";
     ProcessedJobTime.technician := technician;
     ProcessedJobTime.opportunity := "Won";
     ProcessedJobTime.total := 0%Q;
     ProcessedJobTime.totalTime := 60%Q;
     ProcessedJobTime.soldTime := 30%Q;
     ProcessedJobTime.jobEfficiency := efficiency |}.

Definition appointment (technician status : string) (date : Date) (revenue : number)
  : ProcessedAppointment.t :=
  {| ProcessedAppointment.appointmentId := "A-1";
     ProcessedAppointment.scheduledFor := date;
     ProcessedAppointment.jobId := "J-100";
     ProcessedAppointment.customer := "Customer";
     ProcessedAppointment.apptStatus := status;
     ProcessedAppointment.technician := technician;
     ProcessedAppointment.serviceCategory := "Plumbing";
     ProcessedAppointment.revenue := revenue |}.

(** File handles for the examples: a handle is a file name, and the parsers
    below stand for workbooks with one record each; the workbook
    ["broken.xlsx"] cannot be read. *)
Definition File : Type := string.

Definition parseOpportunitiesFile (f : File) : outcome (list ProcessedOpportunity.t) :=
  if String.eqb f "broken.xlsx" then Rejected "Failed to parse Excel file"
  else Resolved [opportunity "Zoe" "Won" midWeek 100].

Definition parseLineItemsFile (f : File) : outcome (list ProcessedLineItem.t) :=
  if String.eqb f "broken.xlsx" then Rejected "Failed to parse Excel file"
  else Resolved [lineItem "Milo" "Hydro Jetting Service" midWeek 1 450].

Definition parseJobTimesFile (f : File) : outcome (list ProcessedJobTime.t) :=
  if String.eqb f "broken.xlsx" then Rejected "Failed to parse Excel file"
  else Resolved [jobTime "Milo" midWeek 80].

Definition parseAppointmentsFile (f : File) : outcome (list ProcessedAppointment.t) :=
  if String.eqb f "broken.xlsx" then Rejected "Failed to parse Excel file"
  else Resolved [appointment "Adam" "Completed" midWeek 300].

Definition filesWithoutOpportunities : UploadedFiles.t File :=
  {| UploadedFiles.opportunities := None;
     UploadedFiles.lineItems := Some "items.xlsx";
     UploadedFiles.jobTimes := Some "times.xlsx";
     UploadedFiles.appointments := Some "appointments.xlsx" |}.

End Samples.

(** ** utils/formatters.ts and services/kpiCalculator.ts: presentation tiers *)

Module Presentation.
Import JS Types.

Inductive color : Type := success | warning | danger | neutral.

Module Thresholds.
Record t : Type := mk { good : number; warning : number }.
End Thresholds.

Definition getKPIColor (value : number) (thresholds : Thresholds.t) : color :=
  if num_leb (Thresholds.good thresholds) value then success
  else if num_leb (Thresholds.warning thresholds) value then warning
  else if num_ltb 0 value then danger
  else neutral.

(** [KPI_THRESHOLDS], by property name. *)
Definition KPI_THRESHOLDS : list (string * Thresholds.t) :=
  [ ("averageTicketValue", Thresholds.mk 1000 500);
    ("jobCloseRate", Thresholds.mk 80 60);
    ("weeklyRevenue", Thresholds.mk 5000 2500);
    ("jobEfficiency", Thresholds.mk 75 50);
    ("membershipWinRate", Thresholds.mk 50 25);
    ("hydroJettingJobsSold", Thresholds.mk 3 1);
    ("descalingJobsSold", Thresholds.mk 2 1);
    ("waterHeaterJobsSold", Thresholds.mk 2 1) ].

(** [Math.min(a, b)] *)
Definition Math_min (a b : number) : number := if num_leb a b then a else b.

(** [Math.round(x)]: the nearest integer, a tie going up. *)
Definition Math_round (x : number) : number := inject_Z (Qfloor (x + (1 # 2))).

(** components/TechnicianCard.tsx, [calculatePerformanceScore]: [maxValues]
    has an entry for each of the eight metrics, so [maxValues[index]] is read
    by pairing the two arrays. *)
Definition maxValues : list number := [2000; 100; 10000; 100; 100; 10; 5; 5]%Q.

Definition calculatePerformanceScore (technician : TechnicianKPIs.t) : number :=
  let metrics :=
    [ TechnicianKPIs.averageTicketValue technician;
      TechnicianKPIs.jobCloseRate technician;
      TechnicianKPIs.weeklyRevenue technician;
      TechnicianKPIs.jobEfficiency technician;
      TechnicianKPIs.membershipWinRate technician;
      TechnicianKPIs.hydroJettingJobsSold technician;
      TechnicianKPIs.descalingJobsSold technician;
      TechnicianKPIs.waterHeaterJobsSold technician ] in
  let normalizedScores :=
    map (fun vm => Math_min ((fst vm / snd vm) * 100) 100) (combine metrics maxValues) in
  let averageScore :=
    (reduce_sum (fun score => score) normalizedScores / JS.length normalizedScores)%Q in
  Math_round averageScore.

End Presentation.


(** ** Pre-flight validation: services/dataIntegrator.ts, services/fileParser.ts
       and utils/formatters.ts *)

Module Validation.
Import JS Types.

(** What reading a file gives: the [FileReader] fails, or decoding the bytes
    throws with a message, or there is a workbook, given by its sheets in
    the order of [SheetNames], each with the rows that
    [sheet_to_json(worksheet, { header: 1 })] returns (no sheet name occurs
    twice). *)
Inductive FileContent : Type :=
| ReadError
| DecodeError (message : string)
| Workbook (sheets : list (string * list (list cell))).

Module File.
Record t : Type := mk { type : string; size : number; content : FileContent }.
End File.

Module ValidationResult.
Record t : Type := mk { isValid : bool; errors : list string; warnings : list string }.
End ValidationResult.

Inductive FileType : Type := opportunities | lineItems | jobTimes | appointments.

(** The key of a file type, as the template strings print it. *)
Definition fileTypeName (fileType : FileType) : string :=
  match fileType with
  | opportunities => "opportunities"
  | lineItems => "lineItems"
  | jobTimes => "jobTimes"
  | appointments => "appointments"
  end.

Module Requirements.
Record t : Type := mk { sheetName : string; requiredColumns : list string }.
End Requirements.

Definition FILE_VALIDATION_REQUIREMENTS (fileType : FileType) : Requirements.t :=
  match fileType with
  | opportunities =>
      Requirements.mk "Opportunities"
        ["Date"; "Job"; "Customer"; "Status"; "Opportunity Owner"; "Revenue"]
  | lineItems =>
      Requirements.mk "Sold Line Items"
        ["Invoice Date"; "Job"; "Opp. Owner"; "Line Item"; "Price"]
  | jobTimes =>
      Requirements.mk "Job Times"
        ["First Appointment"; "Job"; "Job Status"; "Opportunity Owner"; "Job Efficiency"]
  | appointments =>
      Requirements.mk "Appointments"
        ["Scheduled For"; "Job"; "Technician"; "Appt Status"; "Revenue"]
  end.

Definition isValidExcelFile (file : File.t) : bool :=
  let validTypes :=
    [ "application/vnd.openxmlformats-officedocument.spreadsheetml.sheet";
      "application/vnd.ms-excel" ] in
  existsb (String.eqb (File.type file)) validTypes.

Definition isValidFileSize (file : File.t) (maxSizeMB : number) : bool :=
  num_leb (File.size file) (maxSizeMB * 1024 * 1024).

(** [arr.join(sep)] on strings. *)
Fixpoint join (sep : string) (l : list string) : string :=
  match l with
  | [] => EmptyString
  | [x] => x
  | x :: r => String.append x (String.append sep (join sep r))
  end.

(** [headers.includes(col)] for a string [col]: some cell is that string. *)
Definition headersInclude (headers : list cell) (col : string) : bool :=
  existsb (fun c => match c with
                    | COther (NString s) => String.eqb s col
                    | _ => false
                    end) headers.

(** [workbook.Sheets[name]] for a name of [SheetNames]. *)
Fixpoint sheetRows (sheets : list (string * list (list cell))) (name : string)
  : option (list (list cell)) :=
  match sheets with
  | [] => None
  | (n, rows) :: rest => if String.eqb n name then Some rows else sheetRows rest name
  end.

Definition quoted (s : string) : string :=
  String "034"%char (String.append s (String "034"%char EmptyString)).

Definition validateFileStructure
    (file : File.t) (expectedSheet : string) (requiredColumns : list string)
  : outcome bool :=
  match File.content file with
  | ReadError => Rejected "Failed to read file for validation"
  | DecodeError message => Rejected (String.append "File validation failed: " message)
  | Workbook sheets =>
      match sheetRows sheets expectedSheet with
      | None =>
          Rejected (String.append "Required sheet "
                      (String.append (quoted expectedSheet) " not found"))
      | Some [] => Rejected "File is empty"
      | Some (headers :: _) =>
          let missingColumns :=
            filter (fun col => negb (headersInclude headers col)) requiredColumns in
          if (0 <? Z.of_nat (List.length missingColumns))
          then Rejected (String.append "Missing required columns: "
                           (join ", " missingColumns))
          else Resolved true
      end
  end.

Definition validateFile (file : File.t) (fileType : FileType) : ValidationResult.t :=
  if negb (isValidExcelFile file) then
    ValidationResult.mk false
      [String.append (fileTypeName fileType) " file must be an Excel file (.xlsx or .xls)"]
      []
  else if negb (isValidFileSize file 10) then
    ValidationResult.mk false
      [String.append (fileTypeName fileType) " file size must be under 10MB"] []
  else
    let requirements := FILE_VALIDATION_REQUIREMENTS fileType in
    let errors :=
      match validateFileStructure file (Requirements.sheetName requirements)
              (Requirements.requiredColumns requirements) with
      | Resolved _ => []
      | Rejected message =>
          [String.append (fileTypeName fileType)
             (String.append " file validation failed: " message)]
      end in
    ValidationResult.mk (Nat.eqb (List.length errors) 0) errors [].

(** The errors and warnings that one slot of [validateUploadedFiles] pushes
    after the four presence checks. *)
Definition validatePresent (handle : option File.t) (fileType : FileType)
  : list string * list string :=
  match handle with
  | Some file =>
      let result := validateFile file fileType in
      (ValidationResult.errors result, ValidationResult.warnings result)
  | None => ([], [])
  end.

Definition requiredError (handle : option File.t) (message : string) : list string :=
  match handle with
  | Some _ => []
  | None => [message]
  end.

Definition validateUploadedFiles (files : UploadedFiles.t File.t) : ValidationResult.t :=
  let errors0 :=
    requiredError (UploadedFiles.opportunities files) "Opportunities Report is required"
    ++ requiredError (UploadedFiles.lineItems files) "Line Items Sold Report is required"
    ++ requiredError (UploadedFiles.jobTimes files) "Job Times Report is required"
    ++ requiredError (UploadedFiles.appointments files) "Appointments Report is required" in
  let r1 := validatePresent (UploadedFiles.opportunities files) opportunities in
  let r2 := validatePresent (UploadedFiles.lineItems files) lineItems in
  let r3 := validatePresent (UploadedFiles.jobTimes files) jobTimes in
  let r4 := validatePresent (UploadedFiles.appointments files) appointments in
  let errors := errors0 ++ fst r1 ++ fst r2 ++ fst r3 ++ fst r4 in
  let warnings := snd r1 ++ snd r2 ++ snd r3 ++ snd r4 in
  ValidationResult.mk (Nat.eqb (List.length errors) 0) errors warnings.

End Validation.

(** ** services/dataIntegrator.ts: [getDataSummary] *)

Module DataSummary.
Import JS DateHelpers Types DataIntegrator.

Module DateRange.
Record t : Type := mk { start : option Date; end_ : option Date }.
End DateRange.

Record t : Type := mk {
  totalOpportunities : number;
  totalLineItems : number;
  totalJobTimes : number;
  totalAppointments : number;
  uniqueTechnicians : number;
  uniqueJobs : number;
  dateRange : DateRange.t }.

(** [date instanceof Date && !isNaN(date.getTime())], with the time value. *)
Definition validTime (d : Date) : option Z :=
  match d with
  | ValidDate ms => Some ms
  | InvalidDate => None
  end.

(** [allDates.map(d => d.getTime())] after the filter. *)
Fixpoint validTimes (dates : list Date) : list Z :=
  match dates with
  | [] => []
  | d :: r =>
      match validTime d with
      | Some ms => ms :: validTimes r
      | None => validTimes r
      end
  end.

(** [Math.min(...xs)] and [Math.max(...xs)] for a list with head [x]. *)
Definition Math_min_of (x : Z) (xs : list Z) : Z := fold_left Z.min xs x.
Definition Math_max_of (x : Z) (xs : list Z) : Z := fold_left Z.max xs x.

Definition getDataSummary (data : IntegratedData.t) : t :=
  let allDates :=
    validTimes
      (map ProcessedOpportunity.date (IntegratedData.opportunities data)
       ++ map ProcessedLineItem.invoiceDate (IntegratedData.lineItems data)
       ++ map ProcessedJobTime.firstAppointment (IntegratedData.jobTimes data)
       ++ map ProcessedAppointment.scheduledFor (IntegratedData.appointments data)) in
  let dateRange :=
    match allDates with
    | x :: xs =>
        DateRange.mk (Some (ValidDate (Math_min_of x xs)))
                     (Some (ValidDate (Math_max_of x xs)))
    | [] => DateRange.mk None None
    end in
  {| totalOpportunities := JS.length (IntegratedData.opportunities data);
     totalLineItems := JS.length (IntegratedData.lineItems data);
     totalJobTimes := JS.length (IntegratedData.jobTimes data);
     totalAppointments := JS.length (IntegratedData.appointments data);
     uniqueTechnicians := JS.length (IntegratedData.technicianNames data);
     uniqueJobs := JS.length (IntegratedData.jobIds data);
     dateRange := dateRange |}.

End DataSummary.

(** ** hooks/useAppState.tsx: the reducer, and the dispatches of App.tsx *)

Module AppState.
Import JS DateHelpers Types.

Module Week.
Record t : Type := mk { start : Date; end_ : Date }.
End Week.

Section Reducer.
(** The browser's [File] handles, and the week that [getCurrentWeek()]
    returns when the module is loaded. *)
Variable File : Type.
Variable currentWeek : Week.t.

Record State : Type := mkState {
  uploadedFiles : UploadedFiles.t File;
  selectedWeek : Week.t;
  technicians : list TechnicianKPIs.t;
  isProcessing : bool;
  error : option string;
  isDataLoaded : bool }.

Inductive AppAction : Type :=
| SET_FILES (payload : UploadedFiles.t File)
| SET_WEEK (payload : Week.t)
| SET_TECHNICIANS (payload : list TechnicianKPIs.t)
| SET_PROCESSING (payload : bool)
| SET_ERROR (payload : option string)
| SET_DATA_LOADED (payload : bool)
| RESET_STATE.

Definition initialState : State :=
  {| uploadedFiles := UploadedFiles.mk None None None None;
     selectedWeek := currentWeek;
     technicians := [];
     isProcessing := false;
     error := None;
     isDataLoaded := false |}.

Definition appReducer (state : State) (action : AppAction) : State :=
  match action with
  | SET_FILES payload =>
      {| uploadedFiles := payload;
         selectedWeek := selectedWeek state;
         technicians := [];
         isProcessing := isProcessing state;
         error := None;
         isDataLoaded := false |}
  | SET_WEEK payload =>
      {| uploadedFiles := uploadedFiles state;
         selectedWeek := payload;
         technicians := [];
         isProcessing := isProcessing state;
         error := None;
         isDataLoaded := false |}
  | SET_TECHNICIANS payload =>
      {| uploadedFiles := uploadedFiles state;
         selectedWeek := selectedWeek state;
         technicians := payload;
         isProcessing := isProcessing state;
         error := None;
         isDataLoaded := true |}
  | SET_PROCESSING payload =>
      {| uploadedFiles := uploadedFiles state;
         selectedWeek := selectedWeek state;
         technicians := technicians state;
         isProcessing := payload;
         error := error state;
         isDataLoaded := isDataLoaded state |}
  | SET_ERROR payload =>
      {| uploadedFiles := uploadedFiles state;
         selectedWeek := selectedWeek state;
         technicians := technicians state;
         isProcessing := false;
         error := payload;
         isDataLoaded := isDataLoaded state |}
  | SET_DATA_LOADED payload =>
      {| uploadedFiles := uploadedFiles state;
         selectedWeek := selectedWeek state;
         technicians := technicians state;
         isProcessing := isProcessing state;
         error := error state;
         isDataLoaded := payload |}
  | RESET_STATE => initialState
  end.

(** The actions that the effect [processFiles] of App.tsx dispatches, in
    order, when the integration and the KPI computation succeed, and when
    either throws with a message. *)
Definition processFilesSucceeds (technicianKPIs : list TechnicianKPIs.t) : list AppAction :=
  [ SET_PROCESSING true; SET_ERROR None;
    SET_TECHNICIANS technicianKPIs; SET_DATA_LOADED true;
    SET_PROCESSING false ].

Definition processFilesFails (message : string) : list AppAction :=
  [ SET_PROCESSING true; SET_ERROR None;
    SET_ERROR (Some message); SET_DATA_LOADED false;
    SET_PROCESSING false ].

(** The state after a sequence of dispatches. *)
Definition dispatchAll (state : State) (actions : list AppAction) : State :=
  fold_left appReducer actions state.

End Reducer.

Arguments uploadedFiles {File}.
Arguments selectedWeek {File}.
Arguments technicians {File}.
Arguments isProcessing {File}.
Arguments error {File}.
Arguments isDataLoaded {File}.

End AppState.

(** ** utils/dateHelpers.ts: [parseDate] and [parseDateTime] *)

Module DateParsing.
Import JS DateHelpers.

(** [s.split(sep)] for a separator of one code unit: the pieces between the
    occurrences of [sep]; there is always at least one piece. *)
Fixpoint split (sep : ascii) (s : string) : list string :=
  match s with
  | EmptyString => [EmptyString]
  | String c r =>
      if Ascii.eqb c sep then EmptyString :: split sep r
      else match split sep r with
           | piece :: pieces => String c piece :: pieces
           | [] => [String c EmptyString]
           end
  end.

Section Host.
(** [Number(s)], with [None] for NaN; [new Date(year, monthIndex, day)],
    which reads its arguments in the time zone of the host; and
    [date.setHours(hours, minutes, 0, 0)].  An element that a destructuring
    finds missing is [undefined], which these built-ins convert to NaN. *)
Variable Number_ : string -> option number.
Variable newDate : option number -> option number -> option number -> Date.
Variable setHours : Date -> option number -> option number -> Date.

Definition parseDate (dateString : string) : Date :=
  let parts := map Number_ (split "/" dateString) in
  let month := nth 0 parts None in
  let day := nth 1 parts None in
  let year := nth 2 parts None in
  newDate year (option_map (fun m => (m - 1)%Q) month) day.

(** [hours !== 12] and [hours === 12]; NaN differs from every number. *)
Definition isNot12 (hours : option number) : bool :=
  match hours with
  | Some h => negb (num_eqb h 12)
  | None => true
  end.

Definition is12 (hours : option number) : bool :=
  match hours with
  | Some h => num_eqb h 12
  | None => false
  end.

(** [period === 'PM'], for a period that may be [undefined]. *)
Definition periodIs (period : option string) (name : string) : bool :=
  match period with
  | Some p => String.eqb p name
  | None => false
  end.

Definition parseDateTime (dateTimeString : string) : Date :=
  let parts := split " " dateTimeString in
  let datePart := nth 0 parts EmptyString in
  let timePart := nth_error parts 1 in
  let date := parseDate datePart in
  match timePart with
  | Some timePart =>
      if truthy_string timePart then
        let timeParts := split " " timePart in
        let time := nth 0 timeParts EmptyString in
        let period := nth_error timeParts 1 in
        let hm := map Number_ (split ":" time) in
        let hours := nth 0 hm None in
        let minutes := nth 1 hm None in
        let hour :=
          if periodIs period "PM" && isNot12 hours
          then option_map (fun h => (h + 12)%Q) hours
          else if periodIs period "AM" && is12 hours then Some 0%Q
          else hours in
        setHours date hour minutes
      else date
  | None => date
  end.

End Host.

End DateParsing.

(** ** utils/dateHelpers.ts: [getPreviousWeek] and [getNextWeek] *)

Module WeekNavigation.
Import JS DateHelpers AppState.

Section Host.
(** [d.setDate(d.getDate() + days)] on a copy of [d]: the same time of day
    that many calendar days later, in the time zone of the host. *)
Variable shiftDays : Date -> Z -> Date.

(** [new Date(d.getTime() + ms)] *)
Definition plusMilliseconds (d : Date) (ms : Z) : Date :=
  match d with
  | ValidDate t => ValidDate (t + ms)
  | InvalidDate => InvalidDate
  end.

Definition getPreviousWeek (currentStart : Date) : Week.t :=
  let prevStart := shiftDays currentStart (-7) in
  Week.mk prevStart (plusMilliseconds prevStart (6 * 24 * 60 * 60 * 1000)).

Definition getNextWeek (currentStart : Date) : Week.t :=
  let nextStart := shiftDays currentStart 7 in
  Week.mk nextStart (plusMilliseconds nextStart (6 * 24 * 60 * 60 * 1000)).

End Host.

End WeekNavigation.

(** ** Further definitions that the properties are stated with *)

Module SpecExtra.
Import JS DateHelpers Types Presentation.

(** The tiers in ascending order of merit. *)
Definition rank (c : color) : nat :=
  match c with
  | neutral => 0
  | danger => 1
  | warning => 2
  | success => 3
  end.

(** The eight numeric fields of a [TechnicianKPIs]. *)
Definition metricsOf (k : TechnicianKPIs.t) : list number :=
  [ TechnicianKPIs.averageTicketValue k;
    TechnicianKPIs.jobCloseRate k;
    TechnicianKPIs.weeklyRevenue k;
    TechnicianKPIs.jobEfficiency k;
    TechnicianKPIs.membershipWinRate k;
    TechnicianKPIs.hydroJettingJobsSold k;
    TechnicianKPIs.descalingJobsSold k;
    TechnicianKPIs.waterHeaterJobsSold k ].

(** A file whose workbook has the expected sheet, with a first row that
    holds every required column as a string cell. *)
Definition structureOk (file : Validation.File.t) (expectedSheet : string)
    (requiredColumns : list string) : Prop :=
  exists sheets headers rows,
    Validation.File.content file = Validation.Workbook sheets
    /\ Validation.sheetRows sheets expectedSheet = Some (headers :: rows)
    /\ forall col, In col requiredColumns -> In (COther (NString col)) headers.

(** A file that passes the three checks of [validateFile]. *)
Definition fileAccepted (file : Validation.File.t) (fileType : Validation.FileType) : Prop :=
  Validation.isValidExcelFile file = true
  /\ (Validation.File.size file <= 10 * 1024 * 1024)%Q
  /\ structureOk file
       (Validation.Requirements.sheetName (Validation.FILE_VALIDATION_REQUIREMENTS fileType))
       (Validation.Requirements.requiredColumns
          (Validation.FILE_VALIDATION_REQUIREMENTS fileType)).

(** A handle that is present and whose file passes. *)
Definition slotAccepted (handle : option Validation.File.t)
    (fileType : Validation.FileType) : Prop :=
  exists file, handle = Some file /\ fileAccepted file fileType.

(** The primary dates of all records of an integrated data set. *)
Definition recordDates (data : DataIntegrator.IntegratedData.t) : list Date :=
  map ProcessedOpportunity.date (DataIntegrator.IntegratedData.opportunities data)
  ++ map ProcessedLineItem.invoiceDate (DataIntegrator.IntegratedData.lineItems data)
  ++ map ProcessedJobTime.firstAppointment (DataIntegrator.IntegratedData.jobTimes data)
  ++ map ProcessedAppointment.scheduledFor (DataIntegrator.IntegratedData.appointments data).

(** The KPIs of a technician without any record: every metric is 0. *)
Definition zeroKPIs (technician : string) : TechnicianKPIs.t :=
  {| TechnicianKPIs.technician := technician;
     TechnicianKPIs.averageTicketValue := 0;
     TechnicianKPIs.jobCloseRate := 0;
     TechnicianKPIs.weeklyRevenue := 0;
     TechnicianKPIs.jobEfficiency := 0;
     TechnicianKPIs.membershipWinRate := 0;
     TechnicianKPIs.hydroJettingJobsSold := 0;
     TechnicianKPIs.descalingJobsSold := 0;
     TechnicianKPIs.waterHeaterJobsSold := 0 |}.

(** Every metric at least 0, and the three percentages at most 100. *)
Definition withinBounds (k : TechnicianKPIs.t) : Prop :=
  Forall (fun metric => (0 <= metric)%Q) (metricsOf k)
  /\ (TechnicianKPIs.jobCloseRate k <= 100)%Q
  /\ (TechnicianKPIs.membershipWinRate k <= 100)%Q
  /\ (TechnicianKPIs.jobEfficiency k <= 100)%Q.

(** The job ids met when the four collections are scanned in sequence. *)
Definition jobIdScan
    (opportunities : list ProcessedOpportunity.t)
    (lineItems : list ProcessedLineItem.t)
    (jobTimes : list ProcessedJobTime.t)
    (appointments : list ProcessedAppointment.t) : list string :=
  map ProcessedOpportunity.jobId opportunities
  ++ map ProcessedLineItem.jobId lineItems
  ++ map ProcessedJobTime.jobId jobTimes
  ++ map ProcessedAppointment.jobId appointments.


(** A string in which the code unit [c] does not occur. *)
Fixpoint free (c : ascii) (s : string) : bool :=
  match s with
  | EmptyString => true
  | String d r => negb (Ascii.eqb d c) && free c r
  end.

(** A host for the examples of date parsing: [Number] reads an integer
    numeral, every date is midnight at time value 0, and [setHours] moves it
    to the given time of that day. *)
Definition sampleNumber (s : string) : option number :=
  option_map inject_Z (parseInt10 s).

Definition sampleNewDate (year month day : option number) : Date :=
  match year, month, day with
  | Some _, Some _, Some _ => ValidDate 0
  | _, _, _ => InvalidDate
  end.

Definition sampleSetHours (date : Date) (hours minutes : option number) : Date :=
  match date, hours, minutes with
  | ValidDate ms, Some h, Some m =>
      ValidDate (ms + Qfloor h * 3600000 + Qfloor m * 60000)
  | _, _, _ => InvalidDate
  end.

(** Files whose line-item workbook cannot be read. *)
Definition filesWithBrokenLineItems : UploadedFiles.t Samples.File :=
  {| UploadedFiles.opportunities := Some "opportunities.xlsx";
     UploadedFiles.lineItems := Some "broken.xlsx";
     UploadedFiles.jobTimes := None;
     UploadedFiles.appointments := Some "appointments.xlsx" |}.

End SpecExtra.

(** * Properties *)

Import JS DateHelpers Formatters Types Spec.

(** ** White space *)

Section WhiteSpace.

Lemma trimStart_head s : headNotWs (trimStart s).
Proof.
  induction s as [|c r IH]; simpl; [exact I|].
  destruct (isWhiteSpace c) eqn:E; [exact IH | simpl; exact E].
Qed.

Lemma trimStart_fixed s : headNotWs s -> trimStart s = s.
Proof. destruct s as [|c r]; simpl; [reflexivity|]. now intros ->. Qed.

Lemma trimEnd_head s : headNotWs s -> headNotWs (trimEnd s).
Proof.
  destruct s as [|c r]; simpl; [trivial|]. intros E.
  destruct (trimEnd r); [rewrite E|]; simpl; exact E.
Qed.

Lemma trimEnd_cons c r :
  trimEnd r <> EmptyString -> trimEnd (String c r) = String c (trimEnd r).
Proof. simpl. destruct (trimEnd r); [congruence | reflexivity]. Qed.

Lemma trimEnd_idem s : trimEnd (trimEnd s) = trimEnd s.
Proof.
  induction s as [|c r IH]; [reflexivity|].
  simpl. destruct (trimEnd r) as [|d u] eqn:E.
  - destruct (isWhiteSpace c) eqn:W; simpl; [reflexivity | now rewrite W].
  - rewrite trimEnd_cons by (rewrite IH; discriminate). now rewrite IH.
Qed.

Lemma trimEnd_empty_hasNonWhiteSpace s :
  trimEnd s = EmptyString <-> hasNonWhiteSpace s = false.
Proof.
  induction s as [|c r IH]; simpl; [tauto|].
  destruct (trimEnd r) as [|d u].
  - destruct (isWhiteSpace c); simpl; [tauto | split; discriminate].
  - split; [discriminate|]. intros H. apply orb_false_iff in H.
    destruct H as [_ H]. apply IH in H. discriminate.
Qed.

Lemma trimStart_hasNonWhiteSpace s :
  hasNonWhiteSpace (trimStart s) = hasNonWhiteSpace s.
Proof.
  induction s as [|c r IH]; simpl; [reflexivity|].
  destruct (isWhiteSpace c) eqn:W; simpl; [exact IH | now rewrite W].
Qed.

Lemma trimEnd_hasNonWhiteSpace s :
  hasNonWhiteSpace (trimEnd s) = hasNonWhiteSpace s.
Proof.
  induction s as [|c r IH]; simpl; [reflexivity|].
  destruct (trimEnd r) as [|d u] eqn:E.
  - assert (N : hasNonWhiteSpace r = false)
      by (apply trimEnd_empty_hasNonWhiteSpace; exact E).
    rewrite N. destruct (isWhiteSpace c) eqn:W; simpl; [reflexivity | now rewrite W].
  - simpl in *. now rewrite IH.
Qed.

Lemma replaceWsRuns_hasNonWhiteSpace s b :
  hasNonWhiteSpace (replaceWsRuns b s) = hasNonWhiteSpace s.
Proof.
  revert b. induction s as [|c r IH]; intros b; simpl; [reflexivity|].
  destruct (isWhiteSpace c) eqn:W; simpl.
  - destruct b; simpl; apply IH.
  - now rewrite W, IH.
Qed.

Lemma replaceWsRuns_idem s :
  forall b, replaceWsRuns b (replaceWsRuns b s) = replaceWsRuns b s
            /\ replaceWsRuns false (replaceWsRuns true s) = replaceWsRuns true s.
Proof.
  induction s as [|c r IH]; intros b; simpl; [split; reflexivity|].
  destruct (isWhiteSpace c) eqn:W.
  - destruct b; simpl.
    + split; apply (IH true).
    + split; [f_equal; apply (IH true) | apply (IH true)].
  - simpl. rewrite W. split; f_equal; apply (IH false).
Qed.

Lemma replaceWsRuns_head s : headNotWs s -> headNotWs (replaceWsRuns false s).
Proof. destruct s as [|c r]; simpl; [trivial|]. intros E. rewrite E. exact E. Qed.

Lemma hasNonWhiteSpace_nonempty s : hasNonWhiteSpace s = true -> s <> EmptyString.
Proof. destruct s; simpl; [discriminate | discriminate]. Qed.

Lemma trimEnd_fixed_hasNonWhiteSpace s :
  trimEnd s = s -> s <> EmptyString -> hasNonWhiteSpace s = true.
Proof.
  intros F N. destruct (hasNonWhiteSpace s) eqn:E; [reflexivity|].
  apply trimEnd_empty_hasNonWhiteSpace in E. congruence.
Qed.

Lemma trimEnd_replaceWsRuns s :
  trimEnd s = s -> forall b, trimEnd (replaceWsRuns b s) = replaceWsRuns b s.
Proof.
  induction s as [|c r IH]; intros F b; [reflexivity|].
  simpl in F. destruct (trimEnd r) as [|d u] eqn:E.
  - destruct (isWhiteSpace c) eqn:W; [discriminate|].
    injection F as <-. simpl. rewrite W. simpl. now rewrite W.
  - injection F as F. assert (Fr : trimEnd r = r) by congruence.
    assert (NE : forall b', replaceWsRuns b' r <> EmptyString).
    { intros b'. apply hasNonWhiteSpace_nonempty.
      rewrite replaceWsRuns_hasNonWhiteSpace.
      apply trimEnd_fixed_hasNonWhiteSpace; [exact Fr | rewrite <- F; discriminate]. }
    assert (K : forall b' x, trimEnd (String x (replaceWsRuns b' r))
                             = String x (replaceWsRuns b' r)).
    { intros b' x. rewrite trimEnd_cons; rewrite (IH F b'); [reflexivity | apply NE]. }
    simpl. destruct (isWhiteSpace c); [destruct b|]; auto.
Qed.

(** The trimmed, collapsed form of a string is a fixed point of trimming
    and collapsing. *)
Lemma normal_form_fixed s :
  let n := replaceWsRuns false (trim s) in
  replaceWsRuns false (trim n) = n.
Proof.
  intros n. unfold n, trim.
  assert (H : headNotWs (replaceWsRuns false (trimEnd (trimStart s))))
    by (apply replaceWsRuns_head, trimEnd_head, trimStart_head).
  rewrite (trimStart_fixed _ H).
  rewrite trimEnd_replaceWsRuns by apply trimEnd_idem.
  apply (replaceWsRuns_idem _ false).
Qed.

Lemma normal_form_hasNonWhiteSpace s :
  hasNonWhiteSpace (replaceWsRuns false (trim s)) = hasNonWhiteSpace s.
Proof.
  unfold trim.
  now rewrite replaceWsRuns_hasNonWhiteSpace, trimEnd_hasNonWhiteSpace,
    trimStart_hasNonWhiteSpace.
Qed.

End WhiteSpace.

(** ** normalizeTechnicianName *)

Section TechnicianNames.

Lemma truthy_string_nonempty s : truthy_string s = true <-> s <> EmptyString.
Proof. destruct s; simpl; split; congruence. Qed.

Lemma ownProperty_In obj key v :
  ownProperty obj key = Some v -> In (key, v) obj.
Proof.
  induction obj as [|[k w] rest IH]; simpl; [discriminate|].
  destruct (String.eqb_spec k key) as [->|_].
  - intros [= ->]. now left.
  - intros H. right. auto.
Qed.

Lemma normalizeTechnicianName_nonempty s :
  truthy_string s = true ->
  normalizeTechnicianName (Some s)
  = getOr nameMap (replaceWsRuns false (trim s)) (replaceWsRuns false (trim s)).
Proof. intros T. unfold normalizeTechnicianName. now rewrite T. Qed.

(** What the function returns, case by case. *)
Lemma normalizeTechnicianName_cases :
  normalizeTechnicianName None = VString "Unknown Technician"
  /\ normalizeTechnicianName (Some "") = VString "Unknown Technician"
  /\ forall s, s <> "" ->
       let normalized := replaceWsRuns false (trim s) in
       match ownProperty nameMap normalized with
       | Some canonical => normalizeTechnicianName (Some s) = VString canonical
       | None =>
           normalizeTechnicianName (Some s)
           = if inheritedMember normalized then VInherited normalized
             else VString normalized
       end.
Proof.
  repeat split. intros s NE normalized.
  rewrite normalizeTechnicianName_nonempty by (now apply truthy_string_nonempty).
  fold normalized. unfold getOr.
  destruct (ownProperty nameMap normalized) as [v|] eqn:O; [|reflexivity].
  apply ownProperty_In in O. simpl in O.
  repeat (destruct O as [O|O]; [injection O as _ <-; reflexivity|]).
  contradiction.
Qed.

Example normalize_Aaron :
  normalizeTechnicianName (Some "Aaron") = VString "Aaron McDaniel".
Proof. reflexivity. Qed.

Example normalize_Jake_H :
  normalizeTechnicianName (Some "  Jake   H ") = VString "Jake Harter".
Proof. reflexivity. Qed.

Example normalize_unmapped :
  normalizeTechnicianName (Some " Dana   Scott ") = VString "Dana Scott".
Proof. reflexivity. Qed.

(** Outside the names of [Object.prototype], an unmapped name comes back
    trimmed and collapsed, otherwise unchanged. *)
Lemma normalizeTechnicianName_unmapped s :
  s <> "" ->
  let normalized := replaceWsRuns false (trim s) in
  ownProperty nameMap normalized = None ->
  inheritedMember normalized = false ->
  normalizeTechnicianName (Some s) = VString normalized.
Proof.
  intros NE normalized O I.
  destruct normalizeTechnicianName_cases as (_ & _ & H).
  specialize (H s NE). subst normalized. cbv zeta in H. now rewrite O, I in H.
Qed.

(** C7, at the input ["constructor"]: the name is no key of the alias
    table, yet the function does not return it; [nameMap[normalized]] finds
    the member [constructor] that the object literal inherits, and returns
    that function in place of a string. *)
Theorem normalizeTechnicianName_inherited_name :
  ownProperty nameMap "constructor" = None
  /\ normalizeTechnicianName (Some "constructor") = VInherited "constructor"
  /\ normalizeTechnicianName (Some "constructor") <> VString "constructor".
Proof. repeat split. discriminate. Qed.

Lemma getOr_nameMap_fixed n r :
  replaceWsRuns false (trim n) = n ->
  n <> "" ->
  getOr nameMap n n = VString r ->
  normalizeTechnicianName (Some r) = VString r.
Proof.
  intros F NE. unfold getOr.
  destruct (ownProperty nameMap n) as [v|] eqn:O.
  - apply ownProperty_In in O. simpl in O.
    repeat (destruct O as [O|O];
            [injection O as _ <-; simpl; intros [= <-]; reflexivity|]).
    contradiction.
  - destruct (inheritedMember n) eqn:I; [discriminate|]. intros [= <-].
    rewrite normalizeTechnicianName_nonempty by (now apply truthy_string_nonempty).
    rewrite F. unfold getOr. now rewrite O, I.
Qed.

(** Every non-empty string that the function returns is a fixed point. *)
Lemma normalizeTechnicianName_fixed_point s r :
  normalizeTechnicianName (Some s) = VString r ->
  r <> "" ->
  normalizeTechnicianName (Some r) = VString r.
Proof.
  intros H NE. destruct s as [|c u].
  - injection H as <-. reflexivity.
  - rewrite normalizeTechnicianName_nonempty in H by reflexivity.
    destruct (string_dec (replaceWsRuns false (trim (String c u))) "") as [Z|NZ].
    + rewrite Z in H. simpl in H. injection H as <-. congruence.
    + eapply getOr_nameMap_fixed; [apply normal_form_fixed | exact NZ | exact H].
Qed.

(** C8, as stated, fails: a string of white space only is sent to the
    empty string, and the empty string to the sentinel. *)
Lemma normalizeTechnicianName_not_idempotent :
  ~ (forall s, normalizeTwice s = Some (normalizeTechnicianName (Some s))).
Proof. intros H. specialize (H " "). discriminate H. Qed.

Example normalizeTwice_white_space :
  normalizeTechnicianName (Some "   ") = VString ""
  /\ normalizeTwice "   " = Some (VString "Unknown Technician").
Proof. split; reflexivity. Qed.

Example normalizeTwice_inherited_name : normalizeTwice "toString" = None.
Proof. reflexivity. Qed.

(** C8, amended: for every input string that is empty or has a code unit
    that is not white space, and whose trimmed and collapsed form is not
    the name of a member inherited from [Object.prototype], applying
    normalizeTechnicianName twice gives what applying it once gives. *)
Theorem normalizeTechnicianName_idempotent s :
  s = "" \/ hasNonWhiteSpace s = true ->
  inheritedMember (replaceWsRuns false (trim s)) = false ->
  normalizeTwice s = Some (normalizeTechnicianName (Some s)).
Proof.
  intros [->|W] I; [reflexivity|].
  assert (T : truthy_string s = true) by (destruct s; [discriminate | reflexivity]).
  set (n := replaceWsRuns false (trim s)) in *.
  assert (NE : n <> "").
  { apply hasNonWhiteSpace_nonempty. unfold n.
    now rewrite normal_form_hasNonWhiteSpace. }
  unfold normalizeTwice.
  destruct (normalizeTechnicianName (Some s)) as [r|k] eqn:E.
  - f_equal. apply (normalizeTechnicianName_fixed_point s r E).
    rewrite normalizeTechnicianName_nonempty in E by exact T. fold n in E.
    unfold getOr in E. destruct (ownProperty nameMap n) as [v|] eqn:O.
    + destruct (truthy_string v) eqn:Tv; injection E as <-;
        [now apply truthy_string_nonempty | exact NE].
    + rewrite I in E. injection E as <-. exact NE.
  - rewrite normalizeTechnicianName_nonempty in E by exact T. fold n in E.
    unfold getOr in E. destruct (ownProperty nameMap n) as [v|] eqn:O.
    + destruct (truthy_string v); discriminate.
    + rewrite I in E. discriminate.
Qed.

Lemma normalizeTechnicianName_idempotent_witness :
  ("  Jake   H " = "" \/ hasNonWhiteSpace "  Jake   H " = true)
  /\ inheritedMember (replaceWsRuns false (trim "  Jake   H ")) = false
  /\ normalizeTwice "  Jake   H "
     = Some (normalizeTechnicianName (Some "  Jake   H ")).
Proof.
  split; [right; reflexivity|]. split; [reflexivity|].
  apply normalizeTechnicianName_idempotent; [right; reflexivity | reflexivity].
Defined.

End TechnicianNames.

(** ** Numbers *)

Section Numbers.

Lemma num_ltb_lt x y : num_ltb x y = true <-> (x < y)%Q.
Proof.
  unfold num_ltb. rewrite negb_true_iff. split.
  - intros H. apply Qnot_le_lt. intros L. apply Qle_bool_iff in L. congruence.
  - intros H. destruct (Qle_bool y x) eqn:E; [|reflexivity].
    apply Qle_bool_iff in E. exfalso. exact (Qlt_not_le _ _ H E).
Qed.

Lemma num_ltb_ge x y : num_ltb x y = false <-> (y <= x)%Q.
Proof. unfold num_ltb. rewrite negb_false_iff. apply Qle_bool_iff. Qed.

Lemma num_leb_le x y : num_leb x y = true <-> (x <= y)%Q.
Proof. apply Qle_bool_iff. Qed.

Lemma num_leb_gt x y : num_leb x y = false <-> (y < x)%Q.
Proof.
  unfold num_leb. split.
  - intros H. apply Qnot_le_lt. intros L. apply Qle_bool_iff in L. congruence.
  - intros H. destruct (Qle_bool x y) eqn:E; [|reflexivity].
    apply Qle_bool_iff in E. exfalso. exact (Qlt_not_le _ _ H E).
Qed.

End Numbers.

(** ** The cleaning functions *)

Section Cleaning.
Import DataIntegrator.

Lemma keepOpportunity_iff opp :
  keepOpportunity opp = true <->
  ProcessedOpportunity.jobId opp <> ""
  /\ ProcessedOpportunity.technician opp <> ""
  /\ DateHelpers.truthy (ProcessedOpportunity.date opp) = true
  /\ (0 <= ProcessedOpportunity.revenue opp)%Q.
Proof.
  unfold keepOpportunity, DateHelpers.truthy.
  rewrite <- !truthy_string_nonempty, <- num_ltb_ge.
  destruct (truthy_string _), (truthy_string _), (num_ltb _ _); simpl; intuition congruence.
Qed.

Lemma keepLineItem_iff item :
  keepLineItem item = true <->
  ProcessedLineItem.jobId item <> ""
  /\ ProcessedLineItem.technician item <> ""
  /\ DateHelpers.truthy (ProcessedLineItem.invoiceDate item) = true
  /\ (0 <= ProcessedLineItem.price item)%Q
  /\ (0 < ProcessedLineItem.quantity item)%Q.
Proof.
  unfold keepLineItem, DateHelpers.truthy.
  rewrite <- !truthy_string_nonempty, <- num_ltb_ge, <- num_leb_gt.
  destruct (truthy_string _), (truthy_string _), (num_ltb _ _), (num_leb _ _);
    simpl; intuition congruence.
Qed.

Lemma keepJobTime_iff job :
  keepJobTime job = true <->
  ProcessedJobTime.jobId job <> ""
  /\ ProcessedJobTime.technician job <> ""
  /\ DateHelpers.truthy (ProcessedJobTime.firstAppointment job) = true
  /\ (0 <= ProcessedJobTime.jobEfficiency job)%Q
  /\ (ProcessedJobTime.jobEfficiency job <= 100)%Q.
Proof.
  unfold keepJobTime, DateHelpers.truthy.
  rewrite <- !truthy_string_nonempty, <- !num_ltb_ge.
  destruct (truthy_string _), (truthy_string _), (num_ltb _ _), (num_ltb _ _);
    simpl; intuition congruence.
Qed.

Lemma keepAppointment_iff appt :
  keepAppointment appt = true <->
  ProcessedAppointment.jobId appt <> ""
  /\ ProcessedAppointment.technician appt <> ""
  /\ DateHelpers.truthy (ProcessedAppointment.scheduledFor appt) = true
  /\ (0 <= ProcessedAppointment.revenue appt)%Q.
Proof.
  unfold keepAppointment, DateHelpers.truthy.
  rewrite <- !truthy_string_nonempty, <- num_ltb_ge.
  destruct (truthy_string _), (truthy_string _), (num_ltb _ _); simpl; intuition congruence.
Qed.

Lemma cleanOpportunitiesData_In l opp :
  In opp (cleanOpportunitiesData l) <->
  In opp l
  /\ ProcessedOpportunity.jobId opp <> ""
  /\ ProcessedOpportunity.technician opp <> ""
  /\ DateHelpers.truthy (ProcessedOpportunity.date opp) = true
  /\ (0 <= ProcessedOpportunity.revenue opp)%Q.
Proof. unfold cleanOpportunitiesData. now rewrite filter_In, keepOpportunity_iff. Qed.

Lemma cleanLineItemsData_In l item :
  In item (cleanLineItemsData l) <->
  In item l
  /\ ProcessedLineItem.jobId item <> ""
  /\ ProcessedLineItem.technician item <> ""
  /\ DateHelpers.truthy (ProcessedLineItem.invoiceDate item) = true
  /\ (0 <= ProcessedLineItem.price item)%Q
  /\ (0 < ProcessedLineItem.quantity item)%Q.
Proof. unfold cleanLineItemsData. now rewrite filter_In, keepLineItem_iff. Qed.

Lemma cleanJobTimesData_In l job :
  In job (cleanJobTimesData l) <->
  In job l
  /\ ProcessedJobTime.jobId job <> ""
  /\ ProcessedJobTime.technician job <> ""
  /\ DateHelpers.truthy (ProcessedJobTime.firstAppointment job) = true
  /\ (0 <= ProcessedJobTime.jobEfficiency job)%Q
  /\ (ProcessedJobTime.jobEfficiency job <= 100)%Q.
Proof. unfold cleanJobTimesData. now rewrite filter_In, keepJobTime_iff. Qed.

Lemma cleanAppointmentsData_In l appt :
  In appt (cleanAppointmentsData l) <->
  In appt l
  /\ ProcessedAppointment.jobId appt <> ""
  /\ ProcessedAppointment.technician appt <> ""
  /\ DateHelpers.truthy (ProcessedAppointment.scheduledFor appt) = true
  /\ (0 <= ProcessedAppointment.revenue appt)%Q.
Proof. unfold cleanAppointmentsData. now rewrite filter_In, keepAppointment_iff. Qed.

(** C2: each cleaning function retains a record exactly when its job id and
    technician are non-empty, its date field is truthy, and its numeric ranges
    hold (revenue and price at least 0, quantity above 0, job efficiency
    between 0 and 100); so a record with negative revenue or price, a line
    item with quantity at most 0, and a job time with efficiency outside
    [0, 100] are all dropped. *)
Theorem cleaning_retains_iff :
  (forall l opp, In opp (cleanOpportunitiesData l) <->
     In opp l
     /\ ProcessedOpportunity.jobId opp <> ""
     /\ ProcessedOpportunity.technician opp <> ""
     /\ DateHelpers.truthy (ProcessedOpportunity.date opp) = true
     /\ (0 <= ProcessedOpportunity.revenue opp)%Q)
  /\ (forall l item, In item (cleanLineItemsData l) <->
     In item l
     /\ ProcessedLineItem.jobId item <> ""
     /\ ProcessedLineItem.technician item <> ""
     /\ DateHelpers.truthy (ProcessedLineItem.invoiceDate item) = true
     /\ (0 <= ProcessedLineItem.price item)%Q
     /\ (0 < ProcessedLineItem.quantity item)%Q)
  /\ (forall l job, In job (cleanJobTimesData l) <->
     In job l
     /\ ProcessedJobTime.jobId job <> ""
     /\ ProcessedJobTime.technician job <> ""
     /\ DateHelpers.truthy (ProcessedJobTime.firstAppointment job) = true
     /\ (0 <= ProcessedJobTime.jobEfficiency job)%Q
     /\ (ProcessedJobTime.jobEfficiency job <= 100)%Q)
  /\ (forall l appt, In appt (cleanAppointmentsData l) <->
     In appt l
     /\ ProcessedAppointment.jobId appt <> ""
     /\ ProcessedAppointment.technician appt <> ""
     /\ DateHelpers.truthy (ProcessedAppointment.scheduledFor appt) = true
     /\ (0 <= ProcessedAppointment.revenue appt)%Q)
  /\ (forall l opp, (ProcessedOpportunity.revenue opp < 0)%Q ->
        ~ In opp (cleanOpportunitiesData l))
  /\ (forall l appt, (ProcessedAppointment.revenue appt < 0)%Q ->
        ~ In appt (cleanAppointmentsData l))
  /\ (forall l item, (ProcessedLineItem.price item < 0)%Q ->
        ~ In item (cleanLineItemsData l))
  /\ (forall l item, (ProcessedLineItem.quantity item <= 0)%Q ->
        ~ In item (cleanLineItemsData l))
  /\ (forall l job, (ProcessedJobTime.jobEfficiency job < 0)%Q
                    \/ (100 < ProcessedJobTime.jobEfficiency job)%Q ->
        ~ In job (cleanJobTimesData l)).
Proof.
  split; [exact cleanOpportunitiesData_In|].
  split; [exact cleanLineItemsData_In|].
  split; [exact cleanJobTimesData_In|].
  split; [exact cleanAppointmentsData_In|].
  split; [|split; [|split; [|split]]].
  - intros l opp N H. apply cleanOpportunitiesData_In in H.
    destruct H as (_ & _ & _ & _ & H). exact (Qlt_not_le _ _ N H).
  - intros l appt N H. apply cleanAppointmentsData_In in H.
    destruct H as (_ & _ & _ & _ & H). exact (Qlt_not_le _ _ N H).
  - intros l item N H. apply cleanLineItemsData_In in H.
    destruct H as (_ & _ & _ & _ & H & _). exact (Qlt_not_le _ _ N H).
  - intros l item N H. apply cleanLineItemsData_In in H.
    destruct H as (_ & _ & _ & _ & _ & H). exact (Qlt_not_le _ _ H N).
  - intros l job N H. apply cleanJobTimesData_In in H.
    destruct H as (_ & _ & _ & _ & H0 & H100).
    destruct N as [N|N]; [exact (Qlt_not_le _ _ N H0) | exact (Qlt_not_le _ _ N H100)].
Qed.

(** The date check of the cleaners is the truthiness of a [Date] object, so
    a record with an invalid date is kept. *)
Example invalid_date_is_kept :
  cleanOpportunitiesData [Samples.opportunity "Jake Harter" "Won" InvalidDate 100]
  = [Samples.opportunity "Jake Harter" "Won" InvalidDate 100].
Proof. reflexivity. Qed.

Example negative_revenue_is_dropped :
  cleanOpportunitiesData [Samples.opportunity "Jake Harter" "Won" Samples.midWeek (-1)] = [].
Proof. reflexivity. Qed.

End Cleaning.

(** ** The week filter *)

Section WeekFilter.
Import KpiCalculator.

Lemma isDateInWeekRange_iff d weekStart weekEnd :
  isDateInWeekRange d weekStart weekEnd = true <-> inClosedInterval d weekStart weekEnd.
Proof.
  unfold isDateInWeekRange, inClosedInterval, date_geb, date_leb. split.
  - destruct d as [x|], weekStart as [a|], weekEnd as [b|]; simpl;
      try discriminate; try (rewrite andb_false_r; discriminate).
    intros H. apply andb_true_iff in H. destruct H as [H1 H2].
    exists x, a, b. repeat split; lia.
  - intros (x & a & b & -> & -> & -> & H1 & H2).
    apply andb_true_iff. split; lia.
Qed.

Lemma techOpportunities_In technician weekStart weekEnd l opp :
  In opp (techOpportunities technician weekStart weekEnd l) <->
  In opp l
  /\ ProcessedOpportunity.technician opp = technician
  /\ inClosedInterval (ProcessedOpportunity.date opp) weekStart weekEnd.
Proof.
  unfold techOpportunities.
  now rewrite filter_In, andb_true_iff, String.eqb_eq, isDateInWeekRange_iff.
Qed.

Lemma techLineItems_In technician weekStart weekEnd l item :
  In item (techLineItems technician weekStart weekEnd l) <->
  In item l
  /\ ProcessedLineItem.technician item = technician
  /\ inClosedInterval (ProcessedLineItem.invoiceDate item) weekStart weekEnd.
Proof.
  unfold techLineItems.
  now rewrite filter_In, andb_true_iff, String.eqb_eq, isDateInWeekRange_iff.
Qed.

Lemma techJobTimes_In technician weekStart weekEnd l job :
  In job (techJobTimes technician weekStart weekEnd l) <->
  In job l
  /\ ProcessedJobTime.technician job = technician
  /\ inClosedInterval (ProcessedJobTime.firstAppointment job) weekStart weekEnd.
Proof.
  unfold techJobTimes.
  now rewrite filter_In, andb_true_iff, String.eqb_eq, isDateInWeekRange_iff.
Qed.

Lemma techAppointments_In technician weekStart weekEnd l appt :
  In appt (techAppointments technician weekStart weekEnd l) <->
  In appt l
  /\ ProcessedAppointment.technician appt = technician
  /\ inClosedInterval (ProcessedAppointment.scheduledFor appt) weekStart weekEnd.
Proof.
  unfold techAppointments.
  now rewrite filter_In, andb_true_iff, String.eqb_eq, isDateInWeekRange_iff.
Qed.

(** C3: for each of the four collections, the records that
    calculateTechnicianKPIs keeps are those of the technician whose primary
    date lies in the closed interval from weekStart to weekEnd; a date equal
    to weekEnd is in the range, as is one equal to weekStart, and a date
    after weekEnd (one day later, for instance) or before weekStart is not. *)
Theorem week_filter_closed_interval technician weekStart weekEnd :
  (forall l opp, In opp (techOpportunities technician weekStart weekEnd l) <->
     In opp l
     /\ ProcessedOpportunity.technician opp = technician
     /\ inClosedInterval (ProcessedOpportunity.date opp) weekStart weekEnd)
  /\ (forall l item, In item (techLineItems technician weekStart weekEnd l) <->
     In item l
     /\ ProcessedLineItem.technician item = technician
     /\ inClosedInterval (ProcessedLineItem.invoiceDate item) weekStart weekEnd)
  /\ (forall l job, In job (techJobTimes technician weekStart weekEnd l) <->
     In job l
     /\ ProcessedJobTime.technician job = technician
     /\ inClosedInterval (ProcessedJobTime.firstAppointment job) weekStart weekEnd)
  /\ (forall l appt, In appt (techAppointments technician weekStart weekEnd l) <->
     In appt l
     /\ ProcessedAppointment.technician appt = technician
     /\ inClosedInterval (ProcessedAppointment.scheduledFor appt) weekStart weekEnd)
  /\ (forall a e, a <= e ->
        isDateInWeekRange (ValidDate e) (ValidDate a) (ValidDate e) = true)
  /\ (forall a e, a <= e ->
        isDateInWeekRange (ValidDate a) (ValidDate a) (ValidDate e) = true)
  /\ (forall a e x, e < x ->
        isDateInWeekRange (ValidDate x) (ValidDate a) (ValidDate e) = false)
  /\ (forall a e,
        isDateInWeekRange (ValidDate (e + msPerDay)) (ValidDate a) (ValidDate e) = false)
  /\ (forall a e x, x < a ->
        isDateInWeekRange (ValidDate x) (ValidDate a) (ValidDate e) = false).
Proof.
  split; [intros; apply techOpportunities_In|].
  split; [intros; apply techLineItems_In|].
  split; [intros; apply techJobTimes_In|].
  split; [intros; apply techAppointments_In|].
  unfold isDateInWeekRange, date_geb, date_leb, msPerDay.
  repeat split; intros.
  - apply andb_true_iff; split; lia.
  - apply andb_true_iff; split; lia.
  - apply andb_false_iff; right; lia.
  - apply andb_false_iff; right; lia.
  - apply andb_false_iff; left; lia.
Qed.

Example weekEnd_record_is_kept :
  techOpportunities "Jake Harter" Samples.weekStart Samples.weekEnd
    [ Samples.opportunity "Jake Harter" "Won" Samples.weekEnd 1200;
      Samples.opportunity "Jake Harter" "Won" Samples.dayAfterWeekEnd 500 ]
  = [ Samples.opportunity "Jake Harter" "Won" Samples.weekEnd 1200 ].
Proof. reflexivity. Qed.

End WeekFilter.

(** ** Sums, counts and ratios *)

Section Sums.

Lemma fold_sum {A} (f : A -> number) l a :
  (fold_left (fun sum x => sum + f x) l a == a + sumOf f l)%Q.
Proof.
  revert a. induction l as [|x r IH]; intros a; simpl.
  - ring.
  - rewrite IH. ring.
Qed.

Lemma reduce_sum_sumOf {A} (f : A -> number) l : (reduce_sum f l == sumOf f l)%Q.
Proof. unfold reduce_sum. rewrite fold_sum. ring. Qed.

Lemma sumOf_nonneg {A} (f : A -> number) l :
  Forall (fun x => 0 <= f x)%Q l -> (0 <= sumOf f l)%Q.
Proof.
  induction 1 as [|x r Hx _ IH]; simpl; [apply Qle_refl|].
  apply Qle_trans with (0 + 0)%Q; [apply Qle_refl|]. now apply Qplus_le_compat.
Qed.

Lemma length_cons {A} (x : A) r : (JS.length (x :: r) == 1 + JS.length r)%Q.
Proof.
  unfold JS.length. simpl List.length. rewrite Nat2Z.inj_succ.
  unfold Z.succ. rewrite inject_Z_plus. ring.
Qed.

Lemma length_nonneg {A} (l : list A) : (0 <= JS.length l)%Q.
Proof.
  unfold JS.length. change 0%Q with (inject_Z 0). rewrite <- Zle_Qle. lia.
Qed.

Lemma length_pos {A} (l : list A) : l <> [] -> (0 < JS.length l)%Q.
Proof.
  intros N. unfold JS.length. change 0%Q with (inject_Z 0). rewrite <- Zlt_Qlt.
  destruct l; [congruence | simpl; lia].
Qed.

Lemma length_eq0 {A} (l : list A) : num_eqb (JS.length l) 0 = true <-> l = [].
Proof.
  unfold num_eqb, JS.length. rewrite Qeq_bool_iff.
  change 0%Q with (inject_Z 0). rewrite inject_Z_injective.
  destruct l; simpl; split; intros H; try reflexivity; try discriminate; lia.
Qed.

Lemma length_filter_le {A} (p : A -> bool) l :
  (JS.length (filter p l) <= JS.length l)%Q.
Proof.
  unfold JS.length. rewrite <- Zle_Qle. apply Nat2Z.inj_le, filter_length_le.
Qed.

Lemma sumOf_le {A} (f : A -> number) (c : number) l :
  Forall (fun x => f x <= c)%Q l -> (sumOf f l <= c * JS.length l)%Q.
Proof.
  induction 1 as [|x r Hx _ IH].
  - simpl. unfold JS.length. simpl. rewrite Qmult_0_r. apply Qle_refl.
  - rewrite length_cons. simpl sumOf.
    apply Qle_trans with (c + c * JS.length r)%Q.
    + now apply Qplus_le_compat.
    + apply Qle_lteq. right. ring.
Qed.

Lemma quotient_nonneg (a b : number) : (0 <= a)%Q -> (0 < b)%Q -> (0 <= a / b)%Q.
Proof.
  intros Ha Hb. apply Qle_shift_div_l; [exact Hb|]. now rewrite Qmult_0_l.
Qed.

Lemma quotient_le (a b c : number) : (a <= c * b)%Q -> (0 < b)%Q -> (a / b <= c)%Q.
Proof. intros Ha Hb. now apply Qle_shift_div_r. Qed.

Lemma rate_bounds (a b : number) :
  (0 <= a)%Q -> (a <= b)%Q -> (0 < b)%Q ->
  (0 <= a / b * 100)%Q /\ (a / b * 100 <= 100)%Q.
Proof.
  intros Ha Hab Hb.
  assert (L : (0 <= a / b)%Q) by now apply quotient_nonneg.
  assert (U : (a / b <= 1)%Q) by (apply quotient_le; [now rewrite Qmult_1_l | exact Hb]).
  split; lra.
Qed.

Lemma Forall_filter_keep {A} (P : A -> Prop) (p : A -> bool) l :
  Forall P l -> Forall P (filter p l).
Proof.
  rewrite !Forall_forall. intros H x Hx. apply filter_In in Hx. now apply H.
Qed.

Lemma map_filter_commute {A B} (f : A -> B) (p : B -> bool) l :
  map f (filter (fun x => p (f x)) l) = filter p (map f l).
Proof.
  induction l as [|x r IH]; simpl; [reflexivity|].
  destruct (p (f x)); simpl; now rewrite IH.
Qed.

Lemma sumOf_map {A} (f : A -> number) l : sumOf (fun x => x) (map f l) = sumOf f l.
Proof. induction l as [|x r IH]; simpl; [reflexivity | now rewrite IH]. Qed.

End Sums.

(** ** The KPIs of one technician *)

Section Kpis.
Import KpiCalculator.

Lemma completedJobs_count opps appts :
  (JS.length (filter isWon opps) + JS.length (filter isCompleted appts)
   == inject_Z (countOf isWon opps + countOf isCompleted appts))%Q.
Proof. unfold JS.length, countOf. now rewrite inject_Z_plus. Qed.

Lemma calculateAverageTicketValue_spec opps appts :
  let denominator := countOf isWon opps + countOf isCompleted appts in
  (denominator = 0 -> calculateAverageTicketValue opps appts = 0%Q)
  /\ (denominator <> 0 ->
      (calculateAverageTicketValue opps appts
       == (sumOf ProcessedOpportunity.revenue opps
           + sumOf ProcessedAppointment.revenue appts) / inject_Z denominator)%Q).
Proof.
  intros denominator. unfold calculateAverageTicketValue.
  pose proof (completedJobs_count opps appts) as C. fold denominator in C.
  destruct (num_eqb _ 0) eqn:E.
  - split; [reflexivity|]. intros N. exfalso. apply N.
    apply Qeq_bool_iff in E. rewrite C in E.
    apply inject_Z_injective. exact E.
  - split.
    + intros Z. exfalso. apply Qeq_bool_neq in E. apply E. rewrite C, Z. reflexivity.
    + intros _. now rewrite C, !reduce_sum_sumOf.
Qed.

(** C1: averageTicketValue is the sum of the revenues of the technician's
    opportunities and appointments of the week, divided by the number of
    those opportunities with status "Won" plus the number of those
    appointments with apptStatus "Completed"; it is 0 when that number is
    0. *)
Theorem averageTicketValue_formula
    technician opportunities lineItems jobTimes appointments weekStart weekEnd :
  let opps := techOpportunities technician weekStart weekEnd opportunities in
  let appts := techAppointments technician weekStart weekEnd appointments in
  let denominator := countOf isWon opps + countOf isCompleted appts in
  let kpis := calculateTechnicianKPIs technician opportunities lineItems jobTimes
                appointments weekStart weekEnd in
  (denominator = 0 -> TechnicianKPIs.averageTicketValue kpis = 0%Q)
  /\ (denominator <> 0 ->
      (TechnicianKPIs.averageTicketValue kpis
       == (sumOf ProcessedOpportunity.revenue opps
           + sumOf ProcessedAppointment.revenue appts) / inject_Z denominator)%Q).
Proof. intros opps appts denominator kpis. apply calculateAverageTicketValue_spec. Qed.

Example averageTicketValue_end_to_end :
  let kpis :=
    calculateTechnicianKPIs "Jake Harter"
      [Samples.opportunity "Jake Harter" "Won" Samples.midWeek 1200] [] []
      [Samples.appointment "Jake Harter" "Completed" Samples.midWeek 300]
      Samples.weekStart Samples.weekEnd in
  (TechnicianKPIs.averageTicketValue kpis == 750)%Q
  /\ (TechnicianKPIs.weeklyRevenue kpis == 1500)%Q
  /\ (TechnicianKPIs.jobCloseRate kpis == 100)%Q.
Proof. repeat split. Qed.

Example averageTicketValue_no_completed_job :
  TechnicianKPIs.averageTicketValue
    (calculateTechnicianKPIs "Jake Harter"
       [Samples.opportunity "Jake Harter" "Lost" Samples.midWeek 1200] [] []
       [Samples.appointment "Jake Harter" "Pending" Samples.midWeek 300]
       Samples.weekStart Samples.weekEnd)
  = 0%Q.
Proof. reflexivity. Qed.

Lemma calculateJobEfficiency_spec jobs :
  let positive :=
    filter (fun e => num_ltb 0 e) (map ProcessedJobTime.jobEfficiency jobs) in
  (positive = [] -> calculateJobEfficiency jobs = 0%Q)
  /\ (positive <> [] -> (calculateJobEfficiency jobs == mean positive)%Q).
Proof.
  intros positive. unfold calculateJobEfficiency.
  rewrite (map_filter_commute ProcessedJobTime.jobEfficiency (fun e => num_ltb 0 e)).
  fold positive. destruct (num_eqb _ 0) eqn:E.
  - split; [reflexivity|]. intros N. apply length_eq0 in E. contradiction.
  - split.
    + intros Z. rewrite Z in E. discriminate.
    + intros _. unfold mean. now rewrite reduce_sum_sumOf.
Qed.

(** C5: the jobEfficiency KPI is the arithmetic mean of the jobEfficiency
    values above 0 among the technician's job times of the week, and 0 when
    there is none; a record with efficiency 0 counts neither in the sum nor
    in the number of records, so the efficiencies 0, 50 and 100 give 75 and
    not 50. *)
Theorem jobEfficiency_mean_of_positive
    technician opportunities lineItems jobTimes appointments weekStart weekEnd :
  let jobs := techJobTimes technician weekStart weekEnd jobTimes in
  let positive :=
    filter (fun e => num_ltb 0 e) (map ProcessedJobTime.jobEfficiency jobs) in
  let kpis := calculateTechnicianKPIs technician opportunities lineItems jobTimes
                appointments weekStart weekEnd in
  (positive = [] -> TechnicianKPIs.jobEfficiency kpis = 0%Q)
  /\ (positive <> [] -> (TechnicianKPIs.jobEfficiency kpis == mean positive)%Q)
  /\ (forall e, In e positive <-> (0 < e)%Q /\ In e (map ProcessedJobTime.jobEfficiency jobs))
  /\ (let sample :=
        calculateTechnicianKPIs "Jake Harter" [] []
          [ Samples.jobTime "Jake Harter" Samples.midWeek 0;
            Samples.jobTime "Jake Harter" Samples.midWeek 50;
            Samples.jobTime "Jake Harter" Samples.midWeek 100 ] []
          Samples.weekStart Samples.weekEnd in
      (TechnicianKPIs.jobEfficiency sample == 75)%Q
      /\ ~ (TechnicianKPIs.jobEfficiency sample == 50)%Q).
Proof.
  intros jobs positive kpis.
  destruct (calculateJobEfficiency_spec jobs) as [Z N].
  split; [exact Z|]. split; [exact N|]. split.
  - intros e. unfold positive. rewrite filter_In, num_ltb_lt. tauto.
  - split; [reflexivity | discriminate].
Qed.

Lemma calculateJobCloseRate_bounds opps :
  (0 <= calculateJobCloseRate opps)%Q /\ (calculateJobCloseRate opps <= 100)%Q.
Proof.
  unfold calculateJobCloseRate. destruct (num_eqb _ 0) eqn:E.
  - split; [apply Qle_refl | discriminate].
  - apply rate_bounds;
      [apply length_nonneg | apply length_filter_le | apply length_pos].
    intros ->. discriminate.
Qed.

Lemma calculateMembershipWinRate_bounds opps :
  (0 <= calculateMembershipWinRate opps)%Q /\ (calculateMembershipWinRate opps <= 100)%Q.
Proof.
  unfold calculateMembershipWinRate. destruct (num_eqb _ 0) eqn:E.
  - split; [apply Qle_refl | discriminate].
  - apply rate_bounds;
      [apply length_nonneg | apply length_filter_le | apply length_pos].
    intros Z. rewrite Z in E. discriminate.
Qed.

Lemma calculateJobEfficiency_bounds jobs :
  Forall (fun job => (0 <= ProcessedJobTime.jobEfficiency job)%Q
                     /\ (ProcessedJobTime.jobEfficiency job <= 100)%Q) jobs ->
  (0 <= calculateJobEfficiency jobs)%Q /\ (calculateJobEfficiency jobs <= 100)%Q.
Proof.
  intros F. unfold calculateJobEfficiency.
  set (valid := map _ (filter _ jobs)).
  assert (B : Forall (fun e => 0 <= e /\ e <= 100)%Q valid).
  { unfold valid. apply Forall_forall. intros e He.
    apply in_map_iff in He. destruct He as (job & <- & Hj).
    apply filter_In in Hj. rewrite Forall_forall in F. apply F, Hj. }
  destruct (num_eqb _ 0) eqn:E.
  - split; [apply Qle_refl | discriminate].
  - assert (P : (0 < JS.length valid)%Q).
    { apply length_pos. intros Z. rewrite Z in E. discriminate. }
    rewrite reduce_sum_sumOf. split.
    + apply quotient_nonneg; [|exact P]. apply sumOf_nonneg.
      eapply Forall_impl; [|exact B]. simpl. tauto.
    + apply quotient_le; [|exact P]. apply sumOf_le.
      eapply Forall_impl; [|exact B]. simpl. tauto.
Qed.

Lemma calculateWeeklyRevenue_nonneg opps appts :
  Forall (fun opp => (0 <= ProcessedOpportunity.revenue opp)%Q) opps ->
  Forall (fun appt => (0 <= ProcessedAppointment.revenue appt)%Q) appts ->
  (0 <= calculateWeeklyRevenue opps appts)%Q.
Proof.
  intros Fo Fa. unfold calculateWeeklyRevenue. rewrite !reduce_sum_sumOf.
  apply Qle_trans with (0 + 0)%Q; [apply Qle_refl|].
  apply Qplus_le_compat; now apply sumOf_nonneg.
Qed.

Lemma calculateAverageTicketValue_nonneg opps appts :
  Forall (fun opp => (0 <= ProcessedOpportunity.revenue opp)%Q) opps ->
  Forall (fun appt => (0 <= ProcessedAppointment.revenue appt)%Q) appts ->
  (0 <= calculateAverageTicketValue opps appts)%Q.
Proof.
  intros Fo Fa. unfold calculateAverageTicketValue.
  destruct (num_eqb _ 0) eqn:E; [apply Qle_refl|].
  apply quotient_nonneg.
  - rewrite !reduce_sum_sumOf.
    apply Qle_trans with (0 + 0)%Q; [apply Qle_refl|].
    apply Qplus_le_compat; now apply sumOf_nonneg.
  - apply Qeq_bool_neq in E.
    assert (L : (0 <= JS.length (filter isWon opps)
                      + JS.length (filter isCompleted appts))%Q).
    { apply Qle_trans with (0 + 0)%Q; [apply Qle_refl|].
      apply Qplus_le_compat; apply length_nonneg. }
    apply Qle_lteq in L. destruct L as [L|L]; [exact L|].
    exfalso. apply E. now symmetry.
Qed.

(** C10: when the four collections satisfy the invariants of cleaned data
    (revenues and prices at least 0, quantities above 0, job efficiencies
    between 0 and 100), every numeric field of the TechnicianKPIs that
    calculateTechnicianKPIs returns is at least 0, and jobCloseRate,
    membershipWinRate and jobEfficiency are at most 100. *)
Theorem kpis_within_bounds
    technician opportunities lineItems jobTimes appointments weekStart weekEnd :
  cleanedInvariants opportunities lineItems jobTimes appointments ->
  let kpis := calculateTechnicianKPIs technician opportunities lineItems jobTimes
                appointments weekStart weekEnd in
  (0 <= TechnicianKPIs.averageTicketValue kpis)%Q
  /\ (0 <= TechnicianKPIs.jobCloseRate kpis)%Q
  /\ (0 <= TechnicianKPIs.weeklyRevenue kpis)%Q
  /\ (0 <= TechnicianKPIs.jobEfficiency kpis)%Q
  /\ (0 <= TechnicianKPIs.membershipWinRate kpis)%Q
  /\ (0 <= TechnicianKPIs.hydroJettingJobsSold kpis)%Q
  /\ (0 <= TechnicianKPIs.descalingJobsSold kpis)%Q
  /\ (0 <= TechnicianKPIs.waterHeaterJobsSold kpis)%Q
  /\ (TechnicianKPIs.jobCloseRate kpis <= 100)%Q
  /\ (TechnicianKPIs.membershipWinRate kpis <= 100)%Q
  /\ (TechnicianKPIs.jobEfficiency kpis <= 100)%Q.
Proof.
  intros (Fo & _ & Fj & Fa) kpis. unfold kpis, calculateTechnicianKPIs. simpl.
  assert (Fo' := Forall_filter_keep _
    (fun opp => String.eqb (ProcessedOpportunity.technician opp) technician
                && isDateInWeekRange (ProcessedOpportunity.date opp) weekStart weekEnd)
    _ Fo).
  assert (Fa' := Forall_filter_keep _
    (fun appt => String.eqb (ProcessedAppointment.technician appt) technician
                 && isDateInWeekRange (ProcessedAppointment.scheduledFor appt) weekStart weekEnd)
    _ Fa).
  assert (Fj' := Forall_filter_keep _
    (fun job => String.eqb (ProcessedJobTime.technician job) technician
                && isDateInWeekRange (ProcessedJobTime.firstAppointment job) weekStart weekEnd)
    _ Fj).
  fold (techOpportunities technician weekStart weekEnd opportunities) in Fo'.
  fold (techAppointments technician weekStart weekEnd appointments) in Fa'.
  fold (techJobTimes technician weekStart weekEnd jobTimes) in Fj'.
  pose proof (calculateJobCloseRate_bounds
                (techOpportunities technician weekStart weekEnd opportunities)) as [C0 C100].
  pose proof (calculateMembershipWinRate_bounds
                (techOpportunities technician weekStart weekEnd opportunities)) as [M0 M100].
  pose proof (calculateJobEfficiency_bounds _ Fj') as [E0 E100].
  repeat split; try assumption.
  - now apply calculateAverageTicketValue_nonneg.
  - now apply calculateWeeklyRevenue_nonneg.
  - apply length_nonneg.
  - apply length_nonneg.
  - apply length_nonneg.
Qed.

Lemma kpis_within_bounds_witness :
  let opportunities := [Samples.opportunity "Jake Harter" "Won" Samples.midWeek 1200] in
  let lineItems :=
    [Samples.lineItem "Jake Harter" "Hydro Jetting Service" Samples.midWeek 1 450] in
  let jobTimes := [Samples.jobTime "Jake Harter" Samples.midWeek 80] in
  let appointments := [Samples.appointment "Jake Harter" "Completed" Samples.midWeek 300] in
  let kpis := calculateTechnicianKPIs "Jake Harter" opportunities lineItems jobTimes
                appointments Samples.weekStart Samples.weekEnd in
  cleanedInvariants opportunities lineItems jobTimes appointments
  /\ (0 <= TechnicianKPIs.averageTicketValue kpis)%Q
  /\ (0 <= TechnicianKPIs.jobCloseRate kpis)%Q
  /\ (0 <= TechnicianKPIs.weeklyRevenue kpis)%Q
  /\ (0 <= TechnicianKPIs.jobEfficiency kpis)%Q
  /\ (0 <= TechnicianKPIs.membershipWinRate kpis)%Q
  /\ (0 <= TechnicianKPIs.hydroJettingJobsSold kpis)%Q
  /\ (0 <= TechnicianKPIs.descalingJobsSold kpis)%Q
  /\ (0 <= TechnicianKPIs.waterHeaterJobsSold kpis)%Q
  /\ (TechnicianKPIs.jobCloseRate kpis <= 100)%Q
  /\ (TechnicianKPIs.membershipWinRate kpis <= 100)%Q
  /\ (TechnicianKPIs.jobEfficiency kpis <= 100)%Q.
Proof.
  intros opportunities lineItems jobTimes appointments kpis.
  assert (I : cleanedInvariants opportunities lineItems jobTimes appointments).
  { unfold cleanedInvariants; repeat split;
      repeat constructor; simpl; discriminate. }
  split; [exact I|].
  exact (kpis_within_bounds "Jake Harter" opportunities lineItems jobTimes appointments
           Samples.weekStart Samples.weekEnd I).
Defined.

End Kpis.

(** ** Sets of names in insertion order *)

Section InsertionOrder.

Lemma existsb_eqb_In x l : existsb (String.eqb x) l = true <-> In x l.
Proof.
  rewrite existsb_exists. split.
  - intros (y & Hy & E). apply String.eqb_eq in E. now subst.
  - intros H. exists x. split; [exact H | apply String.eqb_refl].
Qed.

Lemma existsb_eqb_not_In x l : existsb (String.eqb x) l = false <-> ~ In x l.
Proof.
  rewrite <- existsb_eqb_In. destruct (existsb _ l); split; congruence.
Qed.

Lemma addAll_map {A} (f : A -> string) l s :
  addAll f l s = fold_left Set_add (map f l) s.
Proof.
  unfold addAll. revert s. induction l as [|x r IH]; intros s; simpl; [reflexivity|].
  apply IH.
Qed.

Lemma fold_Set_add l : forall s, fold_left Set_add l s = s ++ firstOccurrences s l.
Proof.
  induction l as [|x r IH]; intros s; simpl.
  - now rewrite app_nil_r.
  - unfold Set_add at 2. unfold Set_has.
    destruct (existsb (String.eqb x) s); rewrite IH; [reflexivity|].
    now rewrite <- app_assoc.
Qed.

Lemma firstOccurrences_In l : forall seen x,
  In x (firstOccurrences seen l) <-> In x l /\ ~ In x seen.
Proof.
  induction l as [|y r IH]; intros seen x; simpl; [tauto|].
  destruct (existsb (String.eqb y) seen) eqn:E.
  - apply existsb_eqb_In in E. rewrite IH. split; [tauto|].
    intros [[->|H] N]; [contradiction | tauto].
  - apply existsb_eqb_not_In in E. simpl. rewrite IH, in_app_iff. simpl. split.
    + intros [->|[H N]]; [tauto|]. split; [tauto|]. intros K. apply N. now left.
    + intros [[->|H] N]; [now left|].
      destruct (string_dec y x) as [->|D]; [now left|]. right. split; [exact H|].
      intros [K|[K|[]]]; [contradiction | contradiction].
Qed.

Lemma firstOccurrences_NoDup l : forall seen, NoDup (firstOccurrences seen l).
Proof.
  induction l as [|y r IH]; intros seen; simpl; [constructor|].
  destruct (existsb (String.eqb y) seen); [apply IH|].
  constructor; [|apply IH]. rewrite firstOccurrences_In, in_app_iff. simpl. tauto.
Qed.

Lemma StronglySorted_transfer {A} (R R' : A -> A -> Prop) l :
  StronglySorted R l ->
  (forall a b, In a l -> In b l -> R a b -> R' a b) ->
  StronglySorted R' l.
Proof.
  induction 1 as [|a l S IH F]; intros T; constructor.
  - apply IH. intros x y Hx Hy. apply T; now right.
  - rewrite Forall_forall in *. intros b Hb. apply T; [now left | now right | now apply F].
Qed.

Lemma indexOf_cons_other x y r : y <> x -> indexOf x (y :: r) = S (indexOf x r).
Proof. intros N. simpl. apply String.eqb_neq in N. now rewrite N. Qed.

Lemma firstOccurrences_ordered l : forall seen,
  StronglySorted (fun a b => (indexOf a l < indexOf b l)%nat) (firstOccurrences seen l).
Proof.
  induction l as [|y r IH]; intros seen; [constructor|].
  change (firstOccurrences seen (y :: r)) with
    (if existsb (String.eqb y) seen then firstOccurrences seen r
     else y :: firstOccurrences (seen ++ [y]) r).
  destruct (existsb (String.eqb y) seen) eqn:E.
  - apply existsb_eqb_In in E.
    apply (StronglySorted_transfer _ _ _ (IH seen)). intros a b Ha Hb L.
    apply firstOccurrences_In in Ha, Hb.
    rewrite !indexOf_cons_other; [lia | | ]; intros ->; tauto.
  - constructor.
    + apply (StronglySorted_transfer _ _ _ (IH (seen ++ [y]))). intros a b Ha Hb L.
      apply firstOccurrences_In in Ha, Hb. rewrite in_app_iff in Ha, Hb. simpl in Ha, Hb.
      rewrite !indexOf_cons_other; [lia | | ]; intros ->; tauto.
    + apply Forall_forall. intros b Hb.
      apply firstOccurrences_In in Hb. rewrite in_app_iff in Hb. simpl in Hb.
      rewrite (indexOf_cons_other b y) by (intros ->; tauto).
      simpl. rewrite String.eqb_refl. lia.
Qed.

Lemma names_firstOccurrences opps items jobs appts :
  addAll ProcessedAppointment.technician appts
    (addAll ProcessedJobTime.technician jobs
      (addAll ProcessedLineItem.technician items
        (addAll ProcessedOpportunity.technician opps [])))
  = firstOccurrences [] (scanOrder opps items jobs appts).
Proof.
  rewrite !addAll_map, <- !fold_left_app.
  now rewrite fold_Set_add.
Qed.

Lemma insertSorted_In x y l : In x (insertSorted y l) <-> x = y \/ In x l.
Proof.
  induction l as [|z r IH]; simpl; [intuition congruence|].
  destruct (String.leb y z); simpl; [intuition congruence|].
  rewrite IH. intuition congruence.
Qed.

Lemma sort_In x l : In x (JS.sort l) <-> In x l.
Proof.
  unfold JS.sort. induction l as [|y r IH]; simpl; [tauto|].
  rewrite insertSorted_In, IH. intuition congruence.
Qed.

Lemma insertSorted_HdRel x y l :
  String.leb y x = true ->
  HdRel (fun a b => String.leb a b = true) y l ->
  HdRel (fun a b => String.leb a b = true) y (insertSorted x l).
Proof.
  intros L H. destruct l as [|z r]; simpl; [now constructor|].
  destruct (String.leb x z); constructor; [exact L | now inversion H].
Qed.

Lemma insertSorted_Sorted x l :
  Sorted (fun a b => String.leb a b = true) l ->
  Sorted (fun a b => String.leb a b = true) (insertSorted x l).
Proof.
  induction 1 as [|y r S IH H]; simpl; [repeat constructor|].
  destruct (String.leb x y) eqn:E.
  - constructor; [now constructor | now constructor].
  - constructor; [exact IH|]. apply insertSorted_HdRel; [|exact H].
    destruct (String.leb_total x y) as [K|K]; [congruence | exact K].
Qed.

Lemma sort_Sorted l : Sorted (fun a b => String.leb a b = true) (JS.sort l).
Proof.
  unfold JS.sort. induction l as [|x r IH]; simpl; [constructor|].
  now apply insertSorted_Sorted.
Qed.

End InsertionOrder.

(** ** The KPIs of all technicians *)

Section AllKpis.
Import KpiCalculator DataIntegrator.

Lemma technicianNames_firstOccurrences opps items jobs appts :
  technicianNames opps items jobs appts
  = firstOccurrences [] (scanOrder opps items jobs appts).
Proof. apply names_firstOccurrences. Qed.

Lemma extractTechnicianNames_sorted opps items jobs appts :
  Sorted (fun a b => String.leb a b = true)
         (extractTechnicianNames opps items jobs appts)
  /\ forall t, In t (extractTechnicianNames opps items jobs appts) <->
               In t (technicianNames opps items jobs appts).
Proof.
  unfold extractTechnicianNames, technicianNames. split; [apply sort_Sorted|].
  intros t. apply sort_In.
Qed.

Lemma calculateAllTechnicianKPIs_names opps items jobs appts weekStart weekEnd :
  map TechnicianKPIs.technician
      (calculateAllTechnicianKPIs opps items jobs appts weekStart weekEnd)
  = technicianNames opps items jobs appts.
Proof.
  unfold calculateAllTechnicianKPIs. rewrite map_map. simpl. apply map_id.
Qed.

(** C4: calculateAllTechnicianKPIs returns one TechnicianKPIs per distinct
    technician name, the KPIs of that technician, in the order in which the
    names first occur when the opportunities, then the line items, then the
    job times, then the appointments are scanned; this is not the sorted
    order of the integrator's technicianNames. *)
Theorem calculateAllTechnicianKPIs_first_seen_order
    opportunities lineItems jobTimes appointments weekStart weekEnd :
  let result := calculateAllTechnicianKPIs opportunities lineItems jobTimes
                  appointments weekStart weekEnd in
  let names := map TechnicianKPIs.technician result in
  let scan := scanOrder opportunities lineItems jobTimes appointments in
  names = firstOccurrences [] scan
  /\ NoDup names
  /\ (forall t, In t names <-> In t scan)
  /\ StronglySorted (fun a b => (indexOf a scan < indexOf b scan)%nat) names
  /\ result = map (fun t => calculateTechnicianKPIs t opportunities lineItems
                              jobTimes appointments weekStart weekEnd) names
  /\ Sorted (fun a b => String.leb a b = true)
            (extractTechnicianNames opportunities lineItems jobTimes appointments)
  /\ (forall t, In t (extractTechnicianNames opportunities lineItems jobTimes appointments)
                <-> In t names)
  /\ (let opps := [ Samples.opportunity "Zoe" "Won" Samples.midWeek 100;
                    Samples.opportunity "Adam" "Won" Samples.midWeek 100 ] in
      let items := [ Samples.lineItem "Milo" "Hydro Jetting" Samples.midWeek 1 50;
                     Samples.lineItem "Zoe" "Descaling" Samples.midWeek 1 50 ] in
      map TechnicianKPIs.technician
          (calculateAllTechnicianKPIs opps items [] [] Samples.weekStart Samples.weekEnd)
      = ["Zoe"; "Adam"; "Milo"]
      /\ extractTechnicianNames opps items [] [] = ["Adam"; "Milo"; "Zoe"]).
Proof.
  intros result names scan.
  assert (N : names = firstOccurrences [] scan).
  { unfold names, result. rewrite calculateAllTechnicianKPIs_names.
    apply technicianNames_firstOccurrences. }
  split; [exact N|]. rewrite N.
  split; [apply firstOccurrences_NoDup|].
  split; [intros t; rewrite firstOccurrences_In; simpl; tauto|].
  split; [apply firstOccurrences_ordered|].
  split.
  { rewrite <- N. unfold names, result. now rewrite calculateAllTechnicianKPIs_names. }
  destruct (extractTechnicianNames_sorted opportunities lineItems jobTimes appointments)
    as [S M].
  split; [exact S|]. split.
  { intros t. rewrite M, technicianNames_firstOccurrences. reflexivity. }
  split; reflexivity.
Qed.

End AllKpis.

(** ** Integration of the uploaded files *)

Section Integration.
Import KpiCalculator DataIntegrator.

Variable File : Type.
Variable parseOpportunitiesFile : File -> outcome (list ProcessedOpportunity.t).
Variable parseLineItemsFile : File -> outcome (list ProcessedLineItem.t).
Variable parseJobTimesFile : File -> outcome (list ProcessedJobTime.t).
Variable parseAppointmentsFile : File -> outcome (list ProcessedAppointment.t).

Lemma parseIfPresent_resolves {A} (parse : File -> outcome (list A)) handle :
  (forall f, handle = Some f -> exists l, parse f = Resolved l) ->
  exists l,
    parseIfPresent File parse handle = Resolved l
    /\ (handle = None -> l = [])
    /\ (forall f l', handle = Some f -> parse f = Resolved l' -> l = l').
Proof.
  intros H. destruct handle as [f|]; simpl.
  - destruct (H f eq_refl) as [l E]. exists l. rewrite E.
    split; [reflexivity|]. split; [discriminate|].
    intros f' l' [= <-] E'. congruence.
  - exists []. split; [reflexivity|]. split; [reflexivity | discriminate].
Qed.

Lemma extractTechnicianNames_In opps items jobs appts t :
  In t (extractTechnicianNames opps items jobs appts) <->
  In t (scanOrder opps items jobs appts).
Proof.
  unfold extractTechnicianNames.
  rewrite sort_In, names_firstOccurrences, firstOccurrences_In. simpl. tauto.
Qed.

Lemma calculateAllTechnicianKPIs_In opps items jobs appts weekStart weekEnd t :
  In t (map TechnicianKPIs.technician
            (calculateAllTechnicianKPIs opps items jobs appts weekStart weekEnd)) <->
  In t (scanOrder opps items jobs appts).
Proof.
  rewrite calculateAllTechnicianKPIs_names, technicianNames_firstOccurrences,
    firstOccurrences_In. simpl. tauto.
Qed.

(** C6: when every handle that is present parses, processAndIntegrateFiles
    resolves, whichever handles are absent; each absent source gives an empty
    cleaned collection; and a technician who is in no cleaned record of a
    source that is present is neither in technicianNames nor among the
    results of calculateAllTechnicianKPIs on the integrated data. *)
Theorem processAndIntegrateFiles_absent_handles (files : UploadedFiles.t File) :
  (forall f, UploadedFiles.opportunities files = Some f ->
             exists l, parseOpportunitiesFile f = Resolved l) ->
  (forall f, UploadedFiles.lineItems files = Some f ->
             exists l, parseLineItemsFile f = Resolved l) ->
  (forall f, UploadedFiles.jobTimes files = Some f ->
             exists l, parseJobTimesFile f = Resolved l) ->
  (forall f, UploadedFiles.appointments files = Some f ->
             exists l, parseAppointmentsFile f = Resolved l) ->
  exists data,
    processAndIntegrateFiles File parseOpportunitiesFile parseLineItemsFile
      parseJobTimesFile parseAppointmentsFile files = Resolved data
    /\ (UploadedFiles.opportunities files = None -> IntegratedData.opportunities data = [])
    /\ (UploadedFiles.lineItems files = None -> IntegratedData.lineItems data = [])
    /\ (UploadedFiles.jobTimes files = None -> IntegratedData.jobTimes data = [])
    /\ (UploadedFiles.appointments files = None -> IntegratedData.appointments data = [])
    /\ forall t,
         (forall f l, UploadedFiles.opportunities files = Some f ->
                      parseOpportunitiesFile f = Resolved l ->
                      ~ In t (map ProcessedOpportunity.technician (cleanOpportunitiesData l))) ->
         (forall f l, UploadedFiles.lineItems files = Some f ->
                      parseLineItemsFile f = Resolved l ->
                      ~ In t (map ProcessedLineItem.technician (cleanLineItemsData l))) ->
         (forall f l, UploadedFiles.jobTimes files = Some f ->
                      parseJobTimesFile f = Resolved l ->
                      ~ In t (map ProcessedJobTime.technician (cleanJobTimesData l))) ->
         (forall f l, UploadedFiles.appointments files = Some f ->
                      parseAppointmentsFile f = Resolved l ->
                      ~ In t (map ProcessedAppointment.technician (cleanAppointmentsData l))) ->
         ~ In t (IntegratedData.technicianNames data)
         /\ forall weekStart weekEnd,
              ~ In t (map TechnicianKPIs.technician
                        (calculateAllTechnicianKPIs
                           (IntegratedData.opportunities data)
                           (IntegratedData.lineItems data)
                           (IntegratedData.jobTimes data)
                           (IntegratedData.appointments data) weekStart weekEnd)).
Proof.
  intros HO HL HJ HA.
  destruct (parseIfPresent_resolves parseOpportunitiesFile _ HO) as (lo & EO & NO & SO).
  destruct (parseIfPresent_resolves parseLineItemsFile _ HL) as (ll & EL & NL & SL).
  destruct (parseIfPresent_resolves parseJobTimesFile _ HJ) as (lj & EJ & NJ & SJ).
  destruct (parseIfPresent_resolves parseAppointmentsFile _ HA) as (la & EA & NA & SA).
  unfold processAndIntegrateFiles. rewrite EO, EL, EJ, EA. simpl.
  eexists. split; [reflexivity|]. simpl.
  split; [intros N; now rewrite (NO N)|].
  split; [intros N; now rewrite (NL N)|].
  split; [intros N; now rewrite (NJ N)|].
  split; [intros N; now rewrite (NA N)|].
  intros t TO TL TJ TA.
  assert (S : ~ In t (scanOrder (cleanOpportunitiesData lo) (cleanLineItemsData ll)
                                (cleanJobTimesData lj) (cleanAppointmentsData la))).
  { unfold scanOrder. rewrite !in_app_iff. intros [H|[H|[H|H]]].
    - destruct (UploadedFiles.opportunities files) as [f|] eqn:E.
      + destruct (HO f eq_refl) as [l' E']. rewrite (SO f l' eq_refl E') in H.
        exact (TO f l' eq_refl E' H).
      + rewrite (NO eq_refl) in H. exact H.
    - destruct (UploadedFiles.lineItems files) as [f|] eqn:E.
      + destruct (HL f eq_refl) as [l' E']. rewrite (SL f l' eq_refl E') in H.
        exact (TL f l' eq_refl E' H).
      + rewrite (NL eq_refl) in H. exact H.
    - destruct (UploadedFiles.jobTimes files) as [f|] eqn:E.
      + destruct (HJ f eq_refl) as [l' E']. rewrite (SJ f l' eq_refl E') in H.
        exact (TJ f l' eq_refl E' H).
      + rewrite (NJ eq_refl) in H. exact H.
    - destruct (UploadedFiles.appointments files) as [f|] eqn:E.
      + destruct (HA f eq_refl) as [l' E']. rewrite (SA f l' eq_refl E') in H.
        exact (TA f l' eq_refl E' H).
      + rewrite (NA eq_refl) in H. exact H. }
  split.
  - now rewrite extractTechnicianNames_In.
  - intros weekStart weekEnd. now rewrite calculateAllTechnicianKPIs_In.
Qed.

(** X27: the integration rejects only when the parse of a handle that is
    present rejects, and then with the reason of such a parse. *)
Lemma processAndIntegrateFiles_rejected (files : UploadedFiles.t File) reason :
  processAndIntegrateFiles File parseOpportunitiesFile parseLineItemsFile
    parseJobTimesFile parseAppointmentsFile files = Rejected reason ->
  (exists f, UploadedFiles.opportunities files = Some f
             /\ parseOpportunitiesFile f = Rejected reason)
  \/ (exists f, UploadedFiles.lineItems files = Some f
                /\ parseLineItemsFile f = Rejected reason)
  \/ (exists f, UploadedFiles.jobTimes files = Some f
                /\ parseJobTimesFile f = Rejected reason)
  \/ (exists f, UploadedFiles.appointments files = Some f
                /\ parseAppointmentsFile f = Rejected reason).
Proof.
  unfold processAndIntegrateFiles, parseIfPresent.
  destruct files as [[fo|] [fl|] [fj|] [fa|]]; simpl;
    repeat match goal with
           | |- context [bind (?p ?f) _] =>
               let E := fresh "E" in destruct (p f) eqn:E; simpl
           end;
    intros H; try discriminate H; injection H as <-; eauto 6.
Qed.

End Integration.

Lemma processAndIntegrateFiles_absent_handles_witness :
  exists data,
    DataIntegrator.processAndIntegrateFiles Samples.File
      Samples.parseOpportunitiesFile Samples.parseLineItemsFile
      Samples.parseJobTimesFile Samples.parseAppointmentsFile
      Samples.filesWithoutOpportunities = Resolved data
    /\ DataIntegrator.IntegratedData.opportunities data = []
    /\ ~ In "Zoe" (DataIntegrator.IntegratedData.technicianNames data).
Proof.
  destruct (processAndIntegrateFiles_absent_handles Samples.File
              Samples.parseOpportunitiesFile Samples.parseLineItemsFile
              Samples.parseJobTimesFile Samples.parseAppointmentsFile
              Samples.filesWithoutOpportunities)
    as (data & E & NO & _ & _ & _ & T).
  - intros f H. discriminate H.
  - intros f H. injection H as <-. eexists. reflexivity.
  - intros f H. injection H as <-. eexists. reflexivity.
  - intros f H. injection H as <-. eexists. reflexivity.
  - exists data. split; [exact E|]. split; [apply NO; reflexivity|].
    apply (T "Zoe").
    + intros f l H. discriminate H.
    + intros f l H. injection H as <-. intros P. injection P as <-.
      simpl. intros [K|[]]. discriminate K.
    + intros f l H. injection H as <-. intros P. injection P as <-.
      simpl. intros [K|[]]. discriminate K.
    + intros f l H. injection H as <-. intros P. injection P as <-.
      simpl. intros [K|[]]. discriminate K.
Defined.

(** ** The quantity of a line item *)

Section Quantity.
Import FileParser DataIntegrator.

Variable parseDate : string -> Date.

Lemma quantityCell_default v :
  parseInt10 (String_ v) = None \/ parseInt10 (String_ v) = Some 0 ->
  quantityCell (COther v) = 1%Q.
Proof. intros P. unfold quantityCell. destruct P as [-> | ->]; reflexivity. Qed.

Lemma currencyCell_unparsable v :
  parseFloat (removeChars isDollarOrComma (String_ v)) = None ->
  currencyCell (COther v) = 0%Q.
Proof.
  intros P. unfold currencyCell, parseCurrency. rewrite P.
  destruct (negb (truthy_string _)); reflexivity.
Qed.

Lemma parseCurrency_unparsable s :
  parseFloat (removeChars isDollarOrComma s) = None -> parseCurrency (Some s) = 0%Q.
Proof. intros P. unfold parseCurrency. rewrite P. now destruct (negb _). Qed.

Lemma parsePercentage_unparsable s :
  parseFloat (removeChars isPercentOrSpace s) = None -> parsePercentage (Some s) = 0%Q.
Proof. intros P. unfold parsePercentage. rewrite P. now destruct (negb _). Qed.

Lemma parseTimeToMinutes_unparsable s :
  searchHoursMinutes s = None -> parseTimeToMinutes (Some s) = 0%Q.
Proof. intros P. unfold parseTimeToMinutes. rewrite P. now destruct (negb _). Qed.

(** C9: when the Quantity cell of a line-item row is not a native number
    and its string form parses to NaN or to 0 (a missing cell and the string
    "0" are such cells), the parsed record has quantity 1; the cleaner's test
    [quantity <= 0] then does not reject it, and it is kept exactly when its
    job id, technician, date and price pass.  A currency, percentage or
    duration text that does not parse gives 0 instead. *)
Theorem quantity_defaults_to_one (row : LineItemData.t) (v : nonNumber) :
  LineItemData.Quantity row = COther v ->
  parseInt10 (String_ v) = None \/ parseInt10 (String_ v) = Some 0 ->
  quantityCell (LineItemData.Quantity row) = 1%Q
  /\ (forall tech, technicianField (LineItemData.Opp_Owner row) = Some tech ->
        exists item, parseLineItemRow parseDate row = Some item)
  /\ (forall item, parseLineItemRow parseDate row = Some item ->
        ProcessedLineItem.quantity item = 1%Q
        /\ num_leb (ProcessedLineItem.quantity item) 0 = false
        /\ (keepLineItem item = true <->
            ProcessedLineItem.jobId item <> ""
            /\ ProcessedLineItem.technician item <> ""
            /\ DateHelpers.truthy (ProcessedLineItem.invoiceDate item) = true
            /\ (0 <= ProcessedLineItem.price item)%Q))
  /\ quantityCell (COther NUndefined) = 1%Q
  /\ quantityCell (COther (NString "0")) = 1%Q
  /\ (forall w, parseFloat (removeChars isDollarOrComma (String_ w)) = None ->
        currencyCell (COther w) = 0%Q)
  /\ (forall s, parseFloat (removeChars isDollarOrComma s) = None ->
        parseCurrency (Some s) = 0%Q)
  /\ (forall s, parseFloat (removeChars isPercentOrSpace s) = None ->
        parsePercentage (Some s) = 0%Q)
  /\ (forall s, searchHoursMinutes s = None -> parseTimeToMinutes (Some s) = 0%Q).
Proof.
  intros N P. pose proof (quantityCell_default _ P) as Q1. rewrite <- N in Q1.
  split; [exact Q1|]. split.
  { intros tech T. unfold parseLineItemRow. rewrite T. eexists. reflexivity. }
  split.
  { intros item. unfold parseLineItemRow.
    destruct (technicianField _) as [tech|]; [|discriminate].
    intros [= <-]. rewrite keepLineItem_iff.
    cbn [ProcessedLineItem.quantity ProcessedLineItem.jobId ProcessedLineItem.technician
         ProcessedLineItem.invoiceDate ProcessedLineItem.price].
    rewrite Q1. split; [reflexivity|]. split; [reflexivity|].
    split; [tauto|]. intros H. repeat split; try tauto. }
  split; [reflexivity|]. split; [reflexivity|].
  split; [exact currencyCell_unparsable|].
  split; [exact parseCurrency_unparsable|].
  split; [exact parsePercentage_unparsable | exact parseTimeToMinutes_unparsable].
Qed.

End Quantity.

Lemma quantity_defaults_to_one_witness :
  let row := {| LineItemData.Invoice_Date := "06/03/2025";
                LineItemData.Customer := "Customer";
                LineItemData.Job := "J-100";
                LineItemData.Opp_Owner := Some "Jake";
                LineItemData.Category := "Drains";
                LineItemData.Line_Item := "Hydro Jetting Service";
                LineItemData.Quantity := COther NUndefined;
                LineItemData.Price := COther (NString "$450.00") |} in
  LineItemData.Quantity row = COther NUndefined
  /\ (parseInt10 (FileParser.String_ NUndefined) = None
      \/ parseInt10 (FileParser.String_ NUndefined) = Some 0)
  /\ FileParser.quantityCell (LineItemData.Quantity row) = 1%Q
  /\ exists item,
       FileParser.parseLineItemRow (fun _ => Samples.midWeek) row = Some item
       /\ ProcessedLineItem.quantity item = 1%Q
       /\ DataIntegrator.keepLineItem item = true.
Proof.
  intros row.
  assert (N : LineItemData.Quantity row = COther NUndefined) by reflexivity.
  assert (P : parseInt10 (FileParser.String_ NUndefined) = None
              \/ parseInt10 (FileParser.String_ NUndefined) = Some 0)
    by (left; reflexivity).
  destruct (quantity_defaults_to_one (fun _ => Samples.midWeek) row NUndefined N P)
    as (Q1 & _ & K & _).
  split; [exact N|]. split; [exact P|]. split; [exact Q1|].
  eexists. split; [reflexivity|]. split; reflexivity.
Defined.

(** ** The testable properties of the scalar parsers *)

Section ScalarParsers.
Import KpiCalculator.

Example parseCurrency_dollars : (parseCurrency (Some "$1,234.56") == 1234.56)%Q.
Proof. reflexivity. Qed.

Example parseCurrency_empty : parseCurrency (Some "") = 0%Q /\ parseCurrency None = 0%Q.
Proof. split; reflexivity. Qed.

Example parseTimeToMinutes_288 : parseTimeToMinutes (Some "4h 48m (288 mins)") = 288%Q.
Proof. reflexivity. Qed.

Example parseTimeToMinutes_zero :
  parseTimeToMinutes (Some "0h 0m (0 mins)") = 0%Q /\ parseTimeToMinutes None = 0%Q.
Proof. split; reflexivity. Qed.

Example parsePercentage_85 : (parsePercentage (Some "85.5 %") == 85.5)%Q.
Proof. reflexivity. Qed.

Example hydroJetting_keywords :
  calculateHydroJettingJobsSold
    [ Samples.lineItem "Jake Harter" "Hydro Jetting Service" Samples.midWeek 1 450;
      Samples.lineItem "Jake Harter" "Standard Drain Cleaning" Samples.midWeek 1 150 ]
  = 1%Q.
Proof. reflexivity. Qed.

Example membershipWinRate_half :
  let sold :=
    {| ProcessedOpportunity.date := Samples.midWeek;
       ProcessedOpportunity.jobId := "J-1";
       ProcessedOpportunity.customer := "Customer";
       ProcessedOpportunity.email := "";
       ProcessedOpportunity.phone := "";
       ProcessedOpportunity.status := "Won";
       ProcessedOpportunity.technician := "Jake Harter";
       ProcessedOpportunity.membershipOpportunity := true;
       ProcessedOpportunity.membershipSold := true;
       ProcessedOpportunity.revenue := 100 |} in
  (calculateMembershipWinRate
     [sold; Samples.opportunity "Jake Harter" "Lost" Samples.midWeek 0] == 50)%Q.
Proof. reflexivity. Qed.

End ScalarParsers.

(** ** Presentation tiers *)

Section PresentationFacts.
Import Presentation SpecExtra.

(** The tiers in ascending order of merit. *)
Lemma getKPIColor_cases value thresholds :
  match getKPIColor value thresholds with
  | success => (Thresholds.good thresholds <= value)%Q
  | warning => (value < Thresholds.good thresholds)%Q
               /\ (Thresholds.warning thresholds <= value)%Q
  | danger => (value < Thresholds.good thresholds)%Q
              /\ (value < Thresholds.warning thresholds)%Q /\ (0 < value)%Q
  | neutral => (value < Thresholds.good thresholds)%Q
               /\ (value < Thresholds.warning thresholds)%Q /\ (value <= 0)%Q
  end.
Proof.
  unfold getKPIColor.
  destruct (num_leb (Thresholds.good thresholds) value) eqn:G.
  - now apply num_leb_le.
  - apply num_leb_gt in G.
    destruct (num_leb (Thresholds.warning thresholds) value) eqn:W.
    + split; [exact G | now apply num_leb_le].
    + apply num_leb_gt in W. destruct (num_ltb 0 value) eqn:P.
      * repeat split; try assumption. now apply num_ltb_lt.
      * repeat split; try assumption. now apply num_ltb_ge.
Qed.

(** X1: getKPIColor is monotone: a larger value never gets a lower tier
    (neutral, danger, warning, success in ascending order), whatever the
    thresholds. *)
Theorem getKPIColor_monotone thresholds v1 v2 :
  (v1 <= v2)%Q ->
  (rank (getKPIColor v1 thresholds) <= rank (getKPIColor v2 thresholds))%nat.
Proof.
  intros L.
  pose proof (getKPIColor_cases v1 thresholds) as C1.
  pose proof (getKPIColor_cases v2 thresholds) as C2.
  destruct (getKPIColor v1 thresholds), (getKPIColor v2 thresholds); simpl; try lia;
    exfalso; lra.
Qed.

Lemma getKPIColor_monotone_witness :
  (400 <= 600)%Q
  /\ (rank (getKPIColor 400 (Thresholds.mk 1000 500))
      <= rank (getKPIColor 600 (Thresholds.mk 1000 500)))%nat.
Proof.
  split; [discriminate|]. apply getKPIColor_monotone. discriminate.
Defined.

(** X2: with any pair of thresholds of KPI_THRESHOLDS, a value is shown
    neutral exactly when it is at most 0, danger when it is above 0 and below
    the warning threshold, warning from the warning threshold up to the good
    one, and success from the good threshold on. *)
Theorem getKPIColor_table name thresholds value :
  In (name, thresholds) KPI_THRESHOLDS ->
  (getKPIColor value thresholds = neutral <-> (value <= 0)%Q)
  /\ (getKPIColor value thresholds = danger <->
        (0 < value)%Q /\ (value < Thresholds.warning thresholds)%Q)
  /\ (getKPIColor value thresholds = warning <->
        (Thresholds.warning thresholds <= value)%Q
        /\ (value < Thresholds.good thresholds)%Q)
  /\ (getKPIColor value thresholds = success <->
        (Thresholds.good thresholds <= value)%Q).
Proof.
  intros H.
  assert (B : (0 < Thresholds.warning thresholds)%Q
              /\ (Thresholds.warning thresholds <= Thresholds.good thresholds)%Q).
  { simpl in H.
    repeat (destruct H as [H|H]; [injection H as _ <-; simpl; split; [reflexivity | discriminate]|]).
    contradiction. }
  destruct B as [B1 B2].
  pose proof (getKPIColor_cases value thresholds) as C.
  destruct (getKPIColor value thresholds); repeat split; intros;
    try discriminate; try reflexivity; try lra; exfalso; lra.
Qed.

Lemma getKPIColor_table_witness :
  In ("jobCloseRate", Thresholds.mk 80 60) KPI_THRESHOLDS
  /\ (getKPIColor 0 (Thresholds.mk 80 60) = neutral <-> (0 <= 0)%Q).
Proof.
  split; [right; left; reflexivity|].
  apply (getKPIColor_table "jobCloseRate" (Thresholds.mk 80 60) 0).
  right; left; reflexivity.
Defined.

Lemma Math_min_le a b : (Math_min a b <= b)%Q.
Proof.
  unfold Math_min. destruct (num_leb a b) eqn:E.
  - now apply num_leb_le.
  - apply Qle_refl.
Qed.

Lemma Math_min_nonneg a b : (0 <= a)%Q -> (0 <= b)%Q -> (0 <= Math_min a b)%Q.
Proof. intros A B. unfold Math_min. now destruct (num_leb a b). Qed.

Lemma Math_round_bounds x lo hi :
  (inject_Z lo <= x)%Q -> (x <= inject_Z hi)%Q ->
  exists n, Math_round x = inject_Z n /\ lo <= n <= hi.
Proof.
  intros L H. unfold Math_round. eexists. split; [reflexivity|]. split.
  - rewrite <- (Qfloor_Z lo). apply Qfloor_resp_le. lra.
  - assert (K : (x + (1 # 2) < inject_Z (hi + 1))%Q).
    { rewrite inject_Z_plus. change (inject_Z 1) with 1%Q. lra. }
    pose proof (Qfloor_le (x + (1 # 2))) as F.
    assert (T : (inject_Z (Qfloor (x + (1 # 2))) < inject_Z (hi + 1))%Q) by lra.
    rewrite <- Zlt_Qlt in T. lia.
Qed.

(** X3: the performance score of a technician card is an integer, at most
    100, and at least 0 when no metric of the technician is negative. *)
Theorem calculatePerformanceScore_bounds technician :
  Forall (fun metric => (0 <= metric)%Q) (metricsOf technician) ->
  exists n, calculatePerformanceScore technician = inject_Z n /\ 0 <= n <= 100.
Proof.
  intros F. unfold metricsOf in F.
  repeat match goal with
         | H : Forall _ (_ :: _) |- _ => inversion H; subst; clear H
         end.
  unfold calculatePerformanceScore. apply Math_round_bounds.
  - apply quotient_nonneg; [|reflexivity]. rewrite reduce_sum_sumOf.
    apply sumOf_nonneg. simpl.
    repeat (constructor;
            [apply Math_min_nonneg; [|discriminate];
             apply Qmult_le_0_compat; [|discriminate];
             apply quotient_nonneg; [assumption | reflexivity]|]).
    constructor.
  - apply quotient_le; [|reflexivity]. rewrite reduce_sum_sumOf.
    apply (Qle_trans _ (100 * JS.length
      (map (fun vm => Math_min (fst vm / snd vm * 100) 100)
           (combine
              [TechnicianKPIs.averageTicketValue technician;
               TechnicianKPIs.jobCloseRate technician;
               TechnicianKPIs.weeklyRevenue technician;
               TechnicianKPIs.jobEfficiency technician;
               TechnicianKPIs.membershipWinRate technician;
               TechnicianKPIs.hydroJettingJobsSold technician;
               TechnicianKPIs.descalingJobsSold technician;
               TechnicianKPIs.waterHeaterJobsSold technician] maxValues)))).
    + apply sumOf_le. simpl. repeat (constructor; [apply Math_min_le|]). constructor.
    + apply Qle_refl.
Qed.

Lemma calculatePerformanceScore_bounds_witness :
  let technician :=
    {| TechnicianKPIs.technician := "Jake Harter";
       TechnicianKPIs.averageTicketValue := 750;
       TechnicianKPIs.jobCloseRate := 100;
       TechnicianKPIs.weeklyRevenue := 1500;
       TechnicianKPIs.jobEfficiency := 80;
       TechnicianKPIs.membershipWinRate := 50;
       TechnicianKPIs.hydroJettingJobsSold := 1;
       TechnicianKPIs.descalingJobsSold := 0;
       TechnicianKPIs.waterHeaterJobsSold := 0 |} in
  Forall (fun metric => (0 <= metric)%Q) (metricsOf technician)
  /\ exists n, calculatePerformanceScore technician = inject_Z n /\ 0 <= n <= 100.
Proof.
  intros technician.
  assert (F : Forall (fun metric => (0 <= metric)%Q) (metricsOf technician))
    by (repeat constructor; discriminate).
  split; [exact F | exact (calculatePerformanceScore_bounds technician F)].
Defined.

End PresentationFacts.

(** ** Pre-flight validation *)

Section ValidationFacts.
Import Validation SpecExtra.

Lemma headersInclude_In headers col :
  headersInclude headers col = true <-> In (COther (NString col)) headers.
Proof.
  unfold headersInclude. rewrite existsb_exists. split.
  - intros (c & Hc & E). destruct c as [n|[s|b| |]]; try discriminate.
    apply String.eqb_eq in E. now subst.
  - intros H. eexists. split; [exact H|]. apply String.eqb_refl.
Qed.

Lemma filter_nil_iff {A} (p : A -> bool) l :
  filter p l = [] <-> forall x, In x l -> p x = false.
Proof.
  induction l as [|y r IH]; simpl; [tauto|].
  destruct (p y) eqn:E; split.
  - discriminate.
  - intros H. specialize (H y (or_introl eq_refl)). congruence.
  - intros H x [<-|Hx]; [exact E | now apply IH].
  - intros H. apply IH. intros x Hx. apply H. now right.
Qed.

(** X4: validateFileStructure resolves exactly when the file decodes to a
    workbook that has the expected sheet, the sheet has a first row, and
    every required column is a string cell of that row; it resolves with
    true and never with false. *)
Theorem validateFileStructure_resolves file expectedSheet requiredColumns :
  (validateFileStructure file expectedSheet requiredColumns = Resolved true
   <-> structureOk file expectedSheet requiredColumns)
  /\ validateFileStructure file expectedSheet requiredColumns <> Resolved false.
Proof.
  unfold validateFileStructure, structureOk.
  destruct (File.content file) as [|message|sheets].
  - split; [|discriminate]. split; [discriminate|]. intros (? & ? & ? & H & _). discriminate.
  - split; [|discriminate]. split; [discriminate|]. intros (? & ? & ? & H & _). discriminate.
  - destruct (sheetRows sheets expectedSheet) as [[|headers rows]|] eqn:S.
    + split; [|discriminate]. split; [discriminate|].
      intros (? & ? & ? & [= <-] & H & _). congruence.
    + set (missing := filter _ requiredColumns).
      destruct (0 <? Z.of_nat (List.length missing)) eqn:L.
      * split; [|discriminate]. split; [discriminate|].
        intros (? & h & ? & [= <-] & H & C). rewrite S in H. injection H as <- <-.
        assert (M : missing = []).
        { apply filter_nil_iff. intros col Hc. apply negb_false_iff.
          apply headersInclude_In. now apply C. }
        rewrite M in L. discriminate.
      * split; [|discriminate]. split; [intros _ | intros _; reflexivity].
        exists sheets, headers, rows. split; [reflexivity|]. split; [exact S|].
        intros col Hc. apply headersInclude_In.
        assert (M : missing = []) by (destruct missing; [reflexivity | apply Z.ltb_ge in L; simpl in L; lia]).
        pose proof (proj1 (filter_nil_iff _ _) M col Hc) as K.
        now apply negb_false_iff in K.
    + split; [|discriminate]. split; [discriminate|].
      intros (? & ? & ? & [= <-] & H & _). congruence.
Qed.

Lemma validateFile_shape file fileType :
  ValidationResult.warnings (validateFile file fileType) = []
  /\ (List.length (ValidationResult.errors (validateFile file fileType)) <= 1)%nat
  /\ (ValidationResult.errors (validateFile file fileType) = []
      <-> fileAccepted file fileType).
Proof.
  unfold validateFile, fileAccepted.
  destruct (isValidExcelFile file) eqn:T; simpl.
  2:{ split; [reflexivity|]. split; [simpl; lia|]. split; [discriminate|].
      intros (H & _). discriminate. }
  unfold isValidFileSize.
  destruct (num_leb (File.size file) (10 * 1024 * 1024)) eqn:Z; simpl.
  2:{ split; [reflexivity|]. split; [simpl; lia|]. split; [discriminate|].
      intros (_ & H & _). apply num_leb_le in H. congruence. }
  apply num_leb_le in Z.
  destruct (validateFileStructure_resolves file
              (Requirements.sheetName (FILE_VALIDATION_REQUIREMENTS fileType))
              (Requirements.requiredColumns (FILE_VALIDATION_REQUIREMENTS fileType)))
    as [R NF].
  destruct (validateFileStructure file _ _) as [[|]|message] eqn:V; simpl.
  - split; [reflexivity|]. split; [simpl; lia|]. split; [intros _ | reflexivity].
    split; [reflexivity|]. split; [exact Z | now apply R].
  - congruence.
  - split; [reflexivity|]. split; [simpl; lia|]. split; [discriminate|].
    intros (_ & _ & H). apply R in H. discriminate.
Qed.

Lemma length_zero_nil {A} (l : list A) : Nat.eqb (List.length l) 0 = true <-> l = [].
Proof. destruct l; simpl; split; congruence. Qed.

Lemma slot_errors handle fileType message :
  snd (validatePresent handle fileType) = []
  /\ (List.length (requiredError handle message
                   ++ fst (validatePresent handle fileType)) <= 1)%nat
  /\ (requiredError handle message = [] /\ fst (validatePresent handle fileType) = []
      <-> slotAccepted handle fileType).
Proof.
  unfold slotAccepted. destruct handle as [file|]; simpl.
  - destruct (validateFile_shape file fileType) as (W & L & A).
    split; [exact W|]. split; [exact L|]. rewrite A. split.
    + intros [_ H]. now exists file.
    + intros (f & [= <-] & H). now split.
  - split; [reflexivity|]. split; [lia|]. split.
    + intros [H _]. discriminate.
    + intros (f & H & _). discriminate.
Qed.

(** X5: validateUploadedFiles reports valid exactly when all four handles
    are present and each file has an Excel type, is at most 10 MB and has the
    structure required of its source; it reports at most four errors, valid
    means no error, and it never reports a warning. *)
Theorem validateUploadedFiles_valid_iff (files : UploadedFiles.t File.t) :
  let result := validateUploadedFiles files in
  (ValidationResult.isValid result = true <->
     slotAccepted (UploadedFiles.opportunities files) opportunities
     /\ slotAccepted (UploadedFiles.lineItems files) lineItems
     /\ slotAccepted (UploadedFiles.jobTimes files) jobTimes
     /\ slotAccepted (UploadedFiles.appointments files) appointments)
  /\ (ValidationResult.isValid result = true <-> ValidationResult.errors result = [])
  /\ (List.length (ValidationResult.errors result) <= 4)%nat
  /\ ValidationResult.warnings result = [].
Proof.
  intros result. unfold result, validateUploadedFiles. simpl.
  destruct (slot_errors (UploadedFiles.opportunities files) opportunities
              "Opportunities Report is required") as (W1 & L1 & A1).
  destruct (slot_errors (UploadedFiles.lineItems files) lineItems
              "Line Items Sold Report is required") as (W2 & L2 & A2).
  destruct (slot_errors (UploadedFiles.jobTimes files) jobTimes
              "Job Times Report is required") as (W3 & L3 & A3).
  destruct (slot_errors (UploadedFiles.appointments files) appointments
              "Appointments Report is required") as (W4 & L4 & A4).
  rewrite W1, W2, W3, W4. rewrite length_zero_nil.
  rewrite <- A1, <- A2, <- A3, <- A4.
  repeat rewrite length_app in *.
  split; [|split; [reflexivity | split; [|reflexivity]]].
  - split.
    + intros H. apply app_eq_nil in H. destruct H as [R E].
      apply app_eq_nil in R. destruct R as [R1 R].
      apply app_eq_nil in R. destruct R as [R2 R].
      apply app_eq_nil in R. destruct R as [R3 R4].
      apply app_eq_nil in E. destruct E as [E1 E].
      apply app_eq_nil in E. destruct E as [E2 E].
      apply app_eq_nil in E. destruct E as [E3 E4].
      tauto.
    + intros ((-> & ->) & (-> & ->) & (-> & ->) & (-> & ->)). reflexivity.
  - repeat rewrite length_app. lia.
Qed.

End ValidationFacts.

(** ** The KPIs of a technician depend on that technician's records of the week *)

Section KpiLocality.
Import KpiCalculator SpecExtra.

Lemma filter_filter_and {A} (p q : A -> bool) l :
  filter (fun x => p x && q x) (filter p l) = filter (fun x => p x && q x) l.
Proof.
  induction l as [|x r IH]; simpl; [reflexivity|].
  destruct (p x) eqn:P; simpl; [rewrite P; simpl|]; now rewrite IH.
Qed.

(** X6: the KPIs of a technician are those computed from the technician's
    own records alone: the records of other technicians, wherever they stand
    in the four collections, have no effect. *)
Theorem calculateTechnicianKPIs_own_records
    technician opportunities lineItems jobTimes appointments weekStart weekEnd :
  calculateTechnicianKPIs technician opportunities lineItems jobTimes appointments
    weekStart weekEnd
  = calculateTechnicianKPIs technician
      (filter (fun opp => String.eqb (ProcessedOpportunity.technician opp) technician)
              opportunities)
      (filter (fun item => String.eqb (ProcessedLineItem.technician item) technician)
              lineItems)
      (filter (fun job => String.eqb (ProcessedJobTime.technician job) technician)
              jobTimes)
      (filter (fun appt => String.eqb (ProcessedAppointment.technician appt) technician)
              appointments)
      weekStart weekEnd.
Proof.
  unfold calculateTechnicianKPIs, techOpportunities, techLineItems, techJobTimes,
    techAppointments.
  rewrite (filter_filter_and
             (fun opp => String.eqb (ProcessedOpportunity.technician opp) technician)
             (fun opp => isDateInWeekRange (ProcessedOpportunity.date opp) weekStart weekEnd)).
  rewrite (filter_filter_and
             (fun item => String.eqb (ProcessedLineItem.technician item) technician)
             (fun item => isDateInWeekRange (ProcessedLineItem.invoiceDate item)
                            weekStart weekEnd)).
  rewrite (filter_filter_and
             (fun job => String.eqb (ProcessedJobTime.technician job) technician)
             (fun job => isDateInWeekRange (ProcessedJobTime.firstAppointment job)
                           weekStart weekEnd)).
  rewrite (filter_filter_and
             (fun appt => String.eqb (ProcessedAppointment.technician appt) technician)
             (fun appt => isDateInWeekRange (ProcessedAppointment.scheduledFor appt)
                            weekStart weekEnd)).
  reflexivity.
Qed.

Lemma calculateTechnicianKPIs_empty technician opps items jobs appts weekStart weekEnd :
  techOpportunities technician weekStart weekEnd opps = [] ->
  techLineItems technician weekStart weekEnd items = [] ->
  techJobTimes technician weekStart weekEnd jobs = [] ->
  techAppointments technician weekStart weekEnd appts = [] ->
  calculateTechnicianKPIs technician opps items jobs appts weekStart weekEnd
  = zeroKPIs technician.
Proof.
  intros O I J A. unfold calculateTechnicianKPIs. rewrite O, I, J, A. reflexivity.
Qed.

Lemma filter_nil_when {A} (p : A -> bool) l :
  (forall x, In x l -> p x = false) -> filter p l = [].
Proof. apply filter_nil_iff. Qed.

(** X7: a technician who has, in each of the four collections, no record
    dated within the week gets 0 for every KPI. *)
Theorem calculateTechnicianKPIs_no_record
    technician opportunities lineItems jobTimes appointments weekStart weekEnd :
  (forall opp, In opp opportunities ->
     ProcessedOpportunity.technician opp = technician ->
     ~ inClosedInterval (ProcessedOpportunity.date opp) weekStart weekEnd) ->
  (forall item, In item lineItems ->
     ProcessedLineItem.technician item = technician ->
     ~ inClosedInterval (ProcessedLineItem.invoiceDate item) weekStart weekEnd) ->
  (forall job, In job jobTimes ->
     ProcessedJobTime.technician job = technician ->
     ~ inClosedInterval (ProcessedJobTime.firstAppointment job) weekStart weekEnd) ->
  (forall appt, In appt appointments ->
     ProcessedAppointment.technician appt = technician ->
     ~ inClosedInterval (ProcessedAppointment.scheduledFor appt) weekStart weekEnd) ->
  calculateTechnicianKPIs technician opportunities lineItems jobTimes appointments
    weekStart weekEnd
  = zeroKPIs technician.
Proof.
  intros O I J A. apply calculateTechnicianKPIs_empty.
  - apply filter_nil_when. intros x Hx. apply not_true_is_false. intros H.
    apply andb_true_iff in H. destruct H as [H1 H2].
    apply String.eqb_eq in H1. apply isDateInWeekRange_iff in H2. exact (O x Hx H1 H2).
  - apply filter_nil_when. intros x Hx. apply not_true_is_false. intros H.
    apply andb_true_iff in H. destruct H as [H1 H2].
    apply String.eqb_eq in H1. apply isDateInWeekRange_iff in H2. exact (I x Hx H1 H2).
  - apply filter_nil_when. intros x Hx. apply not_true_is_false. intros H.
    apply andb_true_iff in H. destruct H as [H1 H2].
    apply String.eqb_eq in H1. apply isDateInWeekRange_iff in H2. exact (J x Hx H1 H2).
  - apply filter_nil_when. intros x Hx. apply not_true_is_false. intros H.
    apply andb_true_iff in H. destruct H as [H1 H2].
    apply String.eqb_eq in H1. apply isDateInWeekRange_iff in H2. exact (A x Hx H1 H2).
Qed.

Lemma calculateTechnicianKPIs_no_record_witness :
  calculateTechnicianKPIs "Jake Harter"
    [Samples.opportunity "Jake Harter" "Won" Samples.dayAfterWeekEnd 1200]
    [] []
    [Samples.appointment "Adam" "Completed" Samples.midWeek 300]
    Samples.weekStart Samples.weekEnd
  = zeroKPIs "Jake Harter".
Proof.
  apply calculateTechnicianKPIs_no_record.
  - intros opp [<-|[]] _ (x & a & b & X & A & B & H).
    injection X as <-. injection A as <-. injection B as <-.
    unfold msPerDay in H. lia.
  - intros item [].
  - intros job [].
  - intros appt [<-|[]] T. discriminate T.
Defined.

End KpiLocality.

(** ** The summary of the integrated data *)

Section SummaryFacts.
Import KpiCalculator DataIntegrator DataSummary SpecExtra.

Lemma validTimes_In x dates : In x (validTimes dates) <-> In (ValidDate x) dates.
Proof.
  induction dates as [|d r IH]; simpl; [tauto|].
  destruct d as [ms|]; simpl; rewrite IH; split.
  - intros [->|H]; [now left | now right].
  - intros [[= ->]|H]; [now left | now right].
  - now right.
  - intros [H|H]; [discriminate | exact H].
Qed.

Lemma Math_min_of_spec xs : forall x,
  In (Math_min_of x xs) (x :: xs) /\ forall y, In y (x :: xs) -> Math_min_of x xs <= y.
Proof.
  unfold Math_min_of. induction xs as [|z r IH]; intros x; simpl.
  - split; [now left|]. intros y [<-|[]]. lia.
  - destruct (IH (Z.min x z)) as [M L]. split.
    + destruct M as [M|M]; [|now right; right].
      rewrite <- M. destruct (Z.min_spec x z) as [[_ ->]|[_ ->]]; [now left | now right; left].
    + intros y [<-|[<-|Hy]].
      * specialize (L (Z.min x z) (or_introl eq_refl)). lia.
      * specialize (L (Z.min x z) (or_introl eq_refl)). lia.
      * apply L. now right.
Qed.

Lemma Math_max_of_spec xs : forall x,
  In (Math_max_of x xs) (x :: xs) /\ forall y, In y (x :: xs) -> y <= Math_max_of x xs.
Proof.
  unfold Math_max_of. induction xs as [|z r IH]; intros x; simpl.
  - split; [now left|]. intros y [<-|[]]. lia.
  - destruct (IH (Z.max x z)) as [M L]. split.
    + destruct M as [M|M]; [|now right; right].
      rewrite <- M. destruct (Z.max_spec x z) as [[_ ->]|[_ ->]]; [now right; left | now left].
    + intros y [<-|[<-|Hy]].
      * specialize (L (Z.max x z) (or_introl eq_refl)). lia.
      * specialize (L (Z.max x z) (or_introl eq_refl)). lia.
      * apply L. now right.
Qed.

Lemma dateRange_cases data :
  let range := dateRange (getDataSummary data) in
  ((forall x, ~ In (ValidDate x) (recordDates data))
   /\ DateRange.start range = None /\ DateRange.end_ range = None)
  \/ (exists lo hi,
        DateRange.start range = Some (ValidDate lo)
        /\ DateRange.end_ range = Some (ValidDate hi)
        /\ In (ValidDate lo) (recordDates data)
        /\ In (ValidDate hi) (recordDates data)
        /\ forall x, In (ValidDate x) (recordDates data) -> lo <= x <= hi).
Proof.
  unfold getDataSummary. cbn [dateRange]. fold (recordDates data).
  pose proof (fun x => validTimes_In x (recordDates data)) as V.
  destruct (validTimes (recordDates data)) as [|x xs].
  - left. split; [|split; reflexivity]. intros x H. now apply V in H.
  - right. destruct (Math_min_of_spec xs x) as [Mi Li].
    destruct (Math_max_of_spec xs x) as [Ma La].
    exists (Math_min_of x xs), (Math_max_of x xs).
    split; [reflexivity|]. split; [reflexivity|].
    split; [now apply V|]. split; [now apply V|].
    intros y Hy. apply V in Hy. split; [now apply Li | now apply La].
Qed.

(** X8: the date range of getDataSummary is null on both ends exactly when
    no record has a valid date; otherwise its start and end are the earliest
    and the latest valid primary date among all records of the four
    collections (records with an invalid date are passed over). *)
Theorem getDataSummary_dateRange data :
  let range := dateRange (getDataSummary data) in
  ((forall x, ~ In (ValidDate x) (recordDates data))
   <-> DateRange.start range = None)
  /\ (DateRange.start range = None <-> DateRange.end_ range = None)
  /\ (forall lo hi,
        DateRange.start range = Some lo -> DateRange.end_ range = Some hi ->
        exists a b,
          lo = ValidDate a /\ hi = ValidDate b
          /\ In lo (recordDates data) /\ In hi (recordDates data)
          /\ forall x, In (ValidDate x) (recordDates data) -> a <= x <= b).
Proof.
  intros range.
  destruct (dateRange_cases data) as [(N & S & E)|(lo & hi & S & E & Il & Ih & B)];
    fold range in S, E; rewrite S, E.
  - split; [tauto|]. split; [tauto|]. intros ? ? H. discriminate H.
  - split; [|split].
    + split; [intros N; exfalso; exact (N lo Il) | discriminate].
    + split; discriminate.
    + intros ? ? [= <-] [= <-]. exists lo, hi. tauto.
Qed.

(** X9: when the selected week ends before the start of the summary's date
    range or starts after its end, or when the range is null, every
    technician gets 0 for every KPI of that week. *)
Theorem week_outside_dateRange data technician weekStart weekEnd :
  let range := dateRange (getDataSummary data) in
  DateRange.start range = None
  \/ (exists lo hi a b,
        DateRange.start range = Some (ValidDate lo)
        /\ DateRange.end_ range = Some (ValidDate hi)
        /\ weekStart = ValidDate a /\ weekEnd = ValidDate b
        /\ (b < lo \/ hi < a)) ->
  calculateTechnicianKPIs technician
    (IntegratedData.opportunities data) (IntegratedData.lineItems data)
    (IntegratedData.jobTimes data) (IntegratedData.appointments data)
    weekStart weekEnd
  = zeroKPIs technician.
Proof.
  intros range H.
  assert (K : forall d, In d (recordDates data) -> ~ inClosedInterval d weekStart weekEnd).
  { intros d Hd (x & a & b & -> & -> & -> & Hx).
    destruct (dateRange_cases data) as [(N & _)|(lo & hi & S & E & _ & _ & B)].
    - exact (N x Hd).
    - fold range in S, E. specialize (B x Hd).
      destruct H as [H|(lo' & hi' & a' & b' & S' & E' & A' & B' & D)]; [congruence|].
      rewrite S in S'. rewrite E in E'.
      injection S' as <-. injection E' as <-. injection A' as <-. injection B' as <-.
      lia. }
  unfold recordDates in K.
  apply calculateTechnicianKPIs_empty; apply filter_nil_when; intros r Hr;
    apply not_true_is_false; intros T; apply andb_true_iff in T; destruct T as [_ T];
    apply isDateInWeekRange_iff in T; revert T; apply K; rewrite !in_app_iff.
  - left. now apply in_map.
  - right; left. now apply in_map.
  - right; right; left. now apply in_map.
  - right; right; right. now apply in_map.
Qed.

Lemma week_outside_dateRange_witness :
  let data :=
    {| IntegratedData.opportunities :=
         [Samples.opportunity "Jake Harter" "Won" Samples.dayAfterWeekEnd 1200];
       IntegratedData.lineItems := [];
       IntegratedData.jobTimes := [];
       IntegratedData.appointments := [];
       IntegratedData.technicianNames := ["Jake Harter"];
       IntegratedData.jobIds := ["J-100"] |} in
  calculateTechnicianKPIs "Jake Harter"
    (IntegratedData.opportunities data) (IntegratedData.lineItems data)
    (IntegratedData.jobTimes data) (IntegratedData.appointments data)
    Samples.weekStart Samples.weekEnd
  = zeroKPIs "Jake Harter".
Proof.
  intros data. apply (week_outside_dateRange data). right.
  exists (1748822400000 + 7 * msPerDay), (1748822400000 + 7 * msPerDay),
    1748822400000, (1748822400000 + 6 * msPerDay).
  repeat split; try reflexivity. left. unfold msPerDay. lia.
Defined.

End SummaryFacts.

(** ** The integrated data *)

Section IntegratedDataFacts.
Import KpiCalculator DataIntegrator DataSummary SpecExtra.

Lemma insertSorted_length x l : List.length (insertSorted x l) = S (List.length l).
Proof.
  induction l as [|y r IH]; simpl; [reflexivity|].
  destruct (String.leb x y); simpl; [reflexivity | now rewrite IH].
Qed.

Lemma sort_length l : List.length (JS.sort l) = List.length l.
Proof.
  unfold JS.sort. induction l as [|x r IH]; simpl; [reflexivity|].
  now rewrite insertSorted_length, IH.
Qed.

Lemma insertSorted_NoDup x l : ~ In x l -> NoDup l -> NoDup (insertSorted x l).
Proof.
  induction l as [|y r IH]; simpl; intros N D; [repeat constructor; tauto|].
  destruct (String.leb x y).
  - constructor; [simpl; tauto | exact D].
  - inversion D as [|? ? Ny Dr]; subst. constructor.
    + rewrite insertSorted_In. intros [->|H]; tauto.
    + apply IH; [tauto | exact Dr].
Qed.

Lemma sort_NoDup l : NoDup l -> NoDup (JS.sort l).
Proof.
  unfold JS.sort. induction 1 as [|x r N D IH]; simpl; [constructor|].
  apply insertSorted_NoDup; [|exact IH]. fold (JS.sort r). now rewrite sort_In.
Qed.

Lemma addAll_firstOccurrences {A B C D}
    (f1 : A -> string) (f2 : B -> string) (f3 : C -> string) (f4 : D -> string)
    l1 l2 l3 l4 :
  addAll f4 l4 (addAll f3 l3 (addAll f2 l2 (addAll f1 l1 [])))
  = firstOccurrences [] (map f1 l1 ++ map f2 l2 ++ map f3 l3 ++ map f4 l4).
Proof.
  rewrite !addAll_map, <- !fold_left_app. now rewrite fold_Set_add.
Qed.

(** X10: technicianNames and jobIds, as extractTechnicianNames and
    extractJobIds build them, are in ascending code-unit order, hold no value
    twice, and hold exactly the technicians, respectively the job ids, of the
    records of the four collections. *)
Theorem extracted_names_and_ids opportunities lineItems jobTimes appointments :
  let names := extractTechnicianNames opportunities lineItems jobTimes appointments in
  let ids := extractJobIds opportunities lineItems jobTimes appointments in
  Sorted (fun a b => String.leb a b = true) names
  /\ NoDup names
  /\ (forall t, In t names <-> In t (scanOrder opportunities lineItems jobTimes appointments))
  /\ Sorted (fun a b => String.leb a b = true) ids
  /\ NoDup ids
  /\ (forall id, In id ids <-> In id (jobIdScan opportunities lineItems jobTimes appointments)).
Proof.
  intros names ids. unfold names, ids, extractTechnicianNames, extractJobIds.
  rewrite !addAll_firstOccurrences.
  fold (scanOrder opportunities lineItems jobTimes appointments).
  fold (jobIdScan opportunities lineItems jobTimes appointments).
  split; [apply sort_Sorted|].
  split; [apply sort_NoDup, firstOccurrences_NoDup|].
  split; [intros t; rewrite sort_In, firstOccurrences_In; simpl; tauto|].
  split; [apply sort_Sorted|].
  split; [apply sort_NoDup, firstOccurrences_NoDup|].
  intros id. rewrite sort_In, firstOccurrences_In. simpl. tauto.
Qed.

Lemma cleaned_invariants lo ll lj la :
  cleanedInvariants (cleanOpportunitiesData lo) (cleanLineItemsData ll)
                    (cleanJobTimesData lj) (cleanAppointmentsData la).
Proof.
  unfold cleanedInvariants. repeat split; apply Forall_forall; intros x Hx.
  - apply cleanOpportunitiesData_In in Hx. tauto.
  - apply cleanLineItemsData_In in Hx. tauto.
  - apply cleanJobTimesData_In in Hx. tauto.
  - apply cleanAppointmentsData_In in Hx. tauto.
Qed.

Lemma withinBounds_of_invariants technician opps items jobs appts weekStart weekEnd :
  Forall (fun opp => (0 <= ProcessedOpportunity.revenue opp)%Q) opps ->
  Forall (fun job => (0 <= ProcessedJobTime.jobEfficiency job)%Q
                     /\ (ProcessedJobTime.jobEfficiency job <= 100)%Q) jobs ->
  Forall (fun appt => (0 <= ProcessedAppointment.revenue appt)%Q) appts ->
  withinBounds (calculateTechnicianKPIs technician opps items jobs appts weekStart weekEnd).
Proof.
  intros Fo Fj Fa. unfold withinBounds, metricsOf, calculateTechnicianKPIs.
  cbn [TechnicianKPIs.averageTicketValue TechnicianKPIs.jobCloseRate
       TechnicianKPIs.weeklyRevenue TechnicianKPIs.jobEfficiency
       TechnicianKPIs.membershipWinRate TechnicianKPIs.hydroJettingJobsSold
       TechnicianKPIs.descalingJobsSold TechnicianKPIs.waterHeaterJobsSold].
  assert (Fo' : Forall (fun opp => (0 <= ProcessedOpportunity.revenue opp)%Q)
                       (techOpportunities technician weekStart weekEnd opps))
    by (apply Forall_filter_keep, Fo).
  assert (Fa' : Forall (fun appt => (0 <= ProcessedAppointment.revenue appt)%Q)
                       (techAppointments technician weekStart weekEnd appts))
    by (apply Forall_filter_keep, Fa).
  assert (Fj' : Forall (fun job => (0 <= ProcessedJobTime.jobEfficiency job)%Q
                                   /\ (ProcessedJobTime.jobEfficiency job <= 100)%Q)
                       (techJobTimes technician weekStart weekEnd jobs))
    by (apply Forall_filter_keep, Fj).
  pose proof (calculateJobCloseRate_bounds
                (techOpportunities technician weekStart weekEnd opps)) as [C0 C100].
  pose proof (calculateMembershipWinRate_bounds
                (techOpportunities technician weekStart weekEnd opps)) as [M0 M100].
  pose proof (calculateJobEfficiency_bounds _ Fj') as [E0 E100].
  split; [|tauto].
  repeat constructor; try assumption.
  - now apply calculateAverageTicketValue_nonneg.
  - now apply calculateWeeklyRevenue_nonneg.
  - apply length_nonneg.
  - apply length_nonneg.
  - apply length_nonneg.
Qed.

Variable File : Type.
Variable parseOpportunitiesFile : File -> outcome (list ProcessedOpportunity.t).
Variable parseLineItemsFile : File -> outcome (list ProcessedLineItem.t).
Variable parseJobTimesFile : File -> outcome (list ProcessedJobTime.t).
Variable parseAppointmentsFile : File -> outcome (list ProcessedAppointment.t).

Lemma processAndIntegrateFiles_resolved files data :
  processAndIntegrateFiles File parseOpportunitiesFile parseLineItemsFile
    parseJobTimesFile parseAppointmentsFile files = Resolved data ->
  exists lo ll lj la,
    data = {| IntegratedData.opportunities := cleanOpportunitiesData lo;
              IntegratedData.lineItems := cleanLineItemsData ll;
              IntegratedData.jobTimes := cleanJobTimesData lj;
              IntegratedData.appointments := cleanAppointmentsData la;
              IntegratedData.technicianNames :=
                extractTechnicianNames (cleanOpportunitiesData lo) (cleanLineItemsData ll)
                  (cleanJobTimesData lj) (cleanAppointmentsData la);
              IntegratedData.jobIds :=
                extractJobIds (cleanOpportunitiesData lo) (cleanLineItemsData ll)
                  (cleanJobTimesData lj) (cleanAppointmentsData la) |}.
Proof.
  unfold processAndIntegrateFiles.
  destruct (parseIfPresent File parseOpportunitiesFile _) as [lo|]; [|discriminate].
  destruct (parseIfPresent File parseLineItemsFile _) as [ll|]; [|discriminate].
  destruct (parseIfPresent File parseJobTimesFile _) as [lj|]; [|discriminate].
  destruct (parseIfPresent File parseAppointmentsFile _) as [la|]; [|discriminate].
  simpl. intros [= <-]. now exists lo, ll, lj, la.
Qed.

(** X11: on the data that processAndIntegrateFiles resolves with, the KPIs
    of every technician and week have every metric at least 0 and
    jobCloseRate, membershipWinRate and jobEfficiency at most 100: the
    cleaning establishes what the KPI computation needs. *)
Theorem integrated_kpis_within_bounds files data technician weekStart weekEnd :
  processAndIntegrateFiles File parseOpportunitiesFile parseLineItemsFile
    parseJobTimesFile parseAppointmentsFile files = Resolved data ->
  cleanedInvariants (IntegratedData.opportunities data) (IntegratedData.lineItems data)
    (IntegratedData.jobTimes data) (IntegratedData.appointments data)
  /\ withinBounds
       (calculateTechnicianKPIs technician
          (IntegratedData.opportunities data) (IntegratedData.lineItems data)
          (IntegratedData.jobTimes data) (IntegratedData.appointments data)
          weekStart weekEnd).
Proof.
  intros H. apply processAndIntegrateFiles_resolved in H.
  destruct H as (lo & ll & lj & la & ->). simpl.
  pose proof (cleaned_invariants lo ll lj la) as I. split; [exact I|].
  destruct I as (Fo & _ & Fj & Fa). now apply withinBounds_of_invariants.
Qed.

(** X12: on the data that processAndIntegrateFiles resolves with, the
    number of technicians that getDataSummary reports equals the number of
    TechnicianKPIs that calculateAllTechnicianKPIs returns, for any week. *)
Theorem uniqueTechnicians_counts_kpis files data weekStart weekEnd :
  processAndIntegrateFiles File parseOpportunitiesFile parseLineItemsFile
    parseJobTimesFile parseAppointmentsFile files = Resolved data ->
  uniqueTechnicians (getDataSummary data)
  = JS.length (calculateAllTechnicianKPIs
                 (IntegratedData.opportunities data) (IntegratedData.lineItems data)
                 (IntegratedData.jobTimes data) (IntegratedData.appointments data)
                 weekStart weekEnd).
Proof.
  intros H. apply processAndIntegrateFiles_resolved in H.
  destruct H as (lo & ll & lj & la & ->). simpl.
  unfold JS.length, calculateAllTechnicianKPIs, extractTechnicianNames, technicianNames.
  now rewrite sort_length, length_map.
Qed.

End IntegratedDataFacts.

Lemma integrated_kpis_within_bounds_witness :
  exists data,
    DataIntegrator.processAndIntegrateFiles Samples.File
      Samples.parseOpportunitiesFile Samples.parseLineItemsFile
      Samples.parseJobTimesFile Samples.parseAppointmentsFile
      Samples.filesWithoutOpportunities = Resolved data
    /\ SpecExtra.withinBounds
         (KpiCalculator.calculateTechnicianKPIs "Milo"
            (DataIntegrator.IntegratedData.opportunities data)
            (DataIntegrator.IntegratedData.lineItems data)
            (DataIntegrator.IntegratedData.jobTimes data)
            (DataIntegrator.IntegratedData.appointments data)
            Samples.weekStart Samples.weekEnd).
Proof.
  destruct (DataIntegrator.processAndIntegrateFiles Samples.File
              Samples.parseOpportunitiesFile Samples.parseLineItemsFile
              Samples.parseJobTimesFile Samples.parseAppointmentsFile
              Samples.filesWithoutOpportunities) as [data|reason] eqn:E;
    [|discriminate E].
  exists data. split; [reflexivity|].
  exact (proj2 (integrated_kpis_within_bounds Samples.File
                  Samples.parseOpportunitiesFile Samples.parseLineItemsFile
                  Samples.parseJobTimesFile Samples.parseAppointmentsFile
                  Samples.filesWithoutOpportunities data "Milo"
                  Samples.weekStart Samples.weekEnd E)).
Defined.

Lemma uniqueTechnicians_counts_kpis_witness :
  exists data,
    DataIntegrator.processAndIntegrateFiles Samples.File
      Samples.parseOpportunitiesFile Samples.parseLineItemsFile
      Samples.parseJobTimesFile Samples.parseAppointmentsFile
      Samples.filesWithoutOpportunities = Resolved data
    /\ DataSummary.uniqueTechnicians (DataSummary.getDataSummary data)
       = JS.length (KpiCalculator.calculateAllTechnicianKPIs
                      (DataIntegrator.IntegratedData.opportunities data)
                      (DataIntegrator.IntegratedData.lineItems data)
                      (DataIntegrator.IntegratedData.jobTimes data)
                      (DataIntegrator.IntegratedData.appointments data)
                      Samples.weekStart Samples.weekEnd).
Proof.
  destruct (DataIntegrator.processAndIntegrateFiles Samples.File
              Samples.parseOpportunitiesFile Samples.parseLineItemsFile
              Samples.parseJobTimesFile Samples.parseAppointmentsFile
              Samples.filesWithoutOpportunities) as [data|reason] eqn:E;
    [|discriminate E].
  exists data. split; [reflexivity|].
  exact (uniqueTechnicians_counts_kpis Samples.File
           Samples.parseOpportunitiesFile Samples.parseLineItemsFile
           Samples.parseJobTimesFile Samples.parseAppointmentsFile
           Samples.filesWithoutOpportunities data
           Samples.weekStart Samples.weekEnd E).
Defined.

(** ** Technician names, continued *)

Section TechnicianNamesMore.
Import FileParser DataIntegrator SpecExtra.

Lemma trim_normal_form s :
  trim (replaceWsRuns false (trim s)) = replaceWsRuns false (trim s).
Proof.
  unfold trim.
  assert (H : headNotWs (replaceWsRuns false (trimEnd (trimStart s))))
    by (apply replaceWsRuns_head, trimEnd_head, trimStart_head).
  rewrite (trimStart_fixed _ H). apply trimEnd_replaceWsRuns, trimEnd_idem.
Qed.

Lemma collapse_normal_form s :
  replaceWsRuns false (replaceWsRuns false (trim s)) = replaceWsRuns false (trim s).
Proof. apply (replaceWsRuns_idem _ false). Qed.

Lemma blank_normal_form s :
  hasNonWhiteSpace s = false -> replaceWsRuns false (trim s) = "".
Proof.
  intros B. rewrite <- trim_normal_form. unfold trim at 1.
  apply trimEnd_empty_hasNonWhiteSpace.
  now rewrite trimStart_hasNonWhiteSpace, normal_form_hasNonWhiteSpace.
Qed.

(** X13: every string that normalizeTechnicianName returns is trimmed and
    has no white space other than single spaces: trimming it and collapsing
    its white space leave it unchanged. *)
Theorem normalizeTechnicianName_normal_form name r :
  normalizeTechnicianName name = VString r ->
  trim r = r /\ replaceWsRuns false r = r.
Proof.
  destruct name as [s|]; [|intros [= <-]; split; reflexivity].
  destruct s as [|c u]; [intros [= <-]; split; reflexivity|].
  rewrite normalizeTechnicianName_nonempty by reflexivity.
  set (n := replaceWsRuns false (trim (String c u))).
  unfold getOr. destruct (ownProperty nameMap n) as [v|] eqn:O.
  - apply ownProperty_In in O. simpl in O.
    repeat (destruct O as [O|O];
            [injection O as _ <-; simpl; intros [= <-]; split; reflexivity|]).
    contradiction.
  - destruct (inheritedMember n); [discriminate|]. intros [= <-]. unfold n.
    split; [apply trim_normal_form | apply collapse_normal_form].
Qed.

Lemma normalizeTechnicianName_normal_form_witness :
  normalizeTechnicianName (Some "  Dana    Scott ") = VString "Dana Scott"
  /\ trim "Dana Scott" = "Dana Scott"
  /\ replaceWsRuns false "Dana Scott" = "Dana Scott".
Proof.
  split; [reflexivity|].
  exact (normalizeTechnicianName_normal_form (Some "  Dana    Scott ") "Dana Scott" eq_refl).
Defined.

Lemma technicianField_blank s :
  s <> "" -> hasNonWhiteSpace s = false -> technicianField (Some s) = Some "".
Proof.
  intros NE B. unfold technicianField.
  rewrite normalizeTechnicianName_nonempty by (now apply truthy_string_nonempty).
  now rewrite (blank_normal_form s B).
Qed.

Lemma technicianField_missing owner :
  owner = None \/ owner = Some "" -> technicianField owner = Some "Unknown Technician".
Proof. intros [-> | ->]; reflexivity. Qed.

Variable parseDate : string -> Date.
Variable parseDateTime : string -> Date.

(** X14: in each of the four parsers, a row whose owner cell is missing or
    empty yields a record of the technician "Unknown Technician", while a row
    whose owner cell is a non-empty string of white space yields a record with
    the empty technician, which the cleaner of its source drops. *)
Theorem blank_owner_rows :
  (forall row opp, parseOpportunityRow parseDate row = Some opp ->
     (OpportunityData.Opportunity_Owner row = None
      \/ OpportunityData.Opportunity_Owner row = Some "" ->
      ProcessedOpportunity.technician opp = "Unknown Technician")
     /\ (forall s, OpportunityData.Opportunity_Owner row = Some s ->
           s <> "" -> hasNonWhiteSpace s = false ->
           ProcessedOpportunity.technician opp = "" /\ keepOpportunity opp = false))
  /\ (forall row item, parseLineItemRow parseDate row = Some item ->
     (LineItemData.Opp_Owner row = None \/ LineItemData.Opp_Owner row = Some "" ->
      ProcessedLineItem.technician item = "Unknown Technician")
     /\ (forall s, LineItemData.Opp_Owner row = Some s ->
           s <> "" -> hasNonWhiteSpace s = false ->
           ProcessedLineItem.technician item = "" /\ keepLineItem item = false))
  /\ (forall row job, parseJobTimeRow parseDate row = Some job ->
     (JobTimeData.Opportunity_Owner row = None
      \/ JobTimeData.Opportunity_Owner row = Some "" ->
      ProcessedJobTime.technician job = "Unknown Technician")
     /\ (forall s, JobTimeData.Opportunity_Owner row = Some s ->
           s <> "" -> hasNonWhiteSpace s = false ->
           ProcessedJobTime.technician job = "" /\ keepJobTime job = false))
  /\ (forall row appt, parseAppointmentRow parseDateTime row = Some appt ->
     (AppointmentData.Technician row = None \/ AppointmentData.Technician row = Some "" ->
      ProcessedAppointment.technician appt = "Unknown Technician")
     /\ (forall s, AppointmentData.Technician row = Some s ->
           s <> "" -> hasNonWhiteSpace s = false ->
           ProcessedAppointment.technician appt = "" /\ keepAppointment appt = false)).
Proof.
  split; [|split; [|split]].
  - intros row opp. unfold parseOpportunityRow.
    destruct (technicianField _) as [tech|] eqn:T; [|discriminate]. intros [= <-]. split.
    + intros M. rewrite (technicianField_missing _ M) in T. now injection T as <-.
    + intros s E NE B. rewrite E, (technicianField_blank s NE B) in T.
      injection T as <-. split; [reflexivity|].
      match goal with |- ?k = false => destruct k eqn:K end; [|reflexivity].
      apply keepOpportunity_iff in K. simpl in K. exfalso. tauto.
  - intros row item. unfold parseLineItemRow.
    destruct (technicianField _) as [tech|] eqn:T; [|discriminate]. intros [= <-]. split.
    + intros M. rewrite (technicianField_missing _ M) in T. now injection T as <-.
    + intros s E NE B. rewrite E, (technicianField_blank s NE B) in T.
      injection T as <-. split; [reflexivity|].
      match goal with |- ?k = false => destruct k eqn:K end; [|reflexivity].
      apply keepLineItem_iff in K. simpl in K. exfalso. tauto.
  - intros row job. unfold parseJobTimeRow.
    destruct (technicianField _) as [tech|] eqn:T; [|discriminate]. intros [= <-]. split.
    + intros M. rewrite (technicianField_missing _ M) in T. now injection T as <-.
    + intros s E NE B. rewrite E, (technicianField_blank s NE B) in T.
      injection T as <-. split; [reflexivity|].
      match goal with |- ?k = false => destruct k eqn:K end; [|reflexivity].
      apply keepJobTime_iff in K. simpl in K. exfalso. tauto.
  - intros row appt. unfold parseAppointmentRow.
    destruct (technicianField _) as [tech|] eqn:T; [|discriminate]. intros [= <-]. split.
    + intros M. rewrite (technicianField_missing _ M) in T. now injection T as <-.
    + intros s E NE B. rewrite E, (technicianField_blank s NE B) in T.
      injection T as <-. split; [reflexivity|].
      match goal with |- ?k = false => destruct k eqn:K end; [|reflexivity].
      apply keepAppointment_iff in K. simpl in K. exfalso. tauto.
Qed.

End TechnicianNamesMore.

(** ** Quantities, keywords and rates *)

Section QuantitiesKeywordsRates.
Import FileParser DataIntegrator KpiCalculator SpecExtra.


Lemma toLowerChar_idem c : toLowerChar (toLowerChar c) = toLowerChar c.
Proof.
  destruct c as [[] [] [] [] [] [] [] []]; reflexivity.
Qed.

Lemma toLowerCase_idem s : toLowerCase (toLowerCase s) = toLowerCase s.
Proof.
  induction s as [|c r IH]; simpl; [reflexivity|]. now rewrite toLowerChar_idem, IH.
Qed.

Lemma toLowerCase_truthy s : truthy_string (toLowerCase s) = truthy_string s.
Proof. now destruct s. Qed.

Lemma existsb_map {A B} (f : A -> B) (p : B -> bool) l :
  existsb p (map f l) = existsb (fun x => p (f x)) l.
Proof. induction l as [|x r IH]; simpl; [reflexivity | now rewrite IH]. Qed.

(** X16: containsServiceKeywords is blind to letter case, in the line item
    and in the keywords: two texts with the same lower-case form, matched
    against keyword lists with the same lower-case forms, give the same
    answer. *)
Theorem containsServiceKeywords_case_insensitive s s' keywords keywords' :
  toLowerCase s = toLowerCase s' ->
  map toLowerCase keywords = map toLowerCase keywords' ->
  containsServiceKeywords (Some s) keywords = containsServiceKeywords (Some s') keywords'.
Proof.
  intros L K. unfold containsServiceKeywords.
  rewrite <- (toLowerCase_truthy s), <- (toLowerCase_truthy s'), L.
  destruct (negb (truthy_string (toLowerCase s'))); [reflexivity|].
  rewrite <- (existsb_map toLowerCase (includes (toLowerCase s')) keywords).
  rewrite <- (existsb_map toLowerCase (includes (toLowerCase s')) keywords').
  now rewrite K.
Qed.

Lemma containsServiceKeywords_case_insensitive_witness :
  containsServiceKeywords (Some "HYDRO Jetting") getHydroJettingKeywords
  = containsServiceKeywords (Some "hydro jetting") ["Hydro"; "JETTING"; "High Pressure"; "Pressure Wash"].
Proof.
  apply containsServiceKeywords_case_insensitive; reflexivity.
Defined.

Lemma length_filter_all {A} (p : A -> bool) l :
  List.length (filter p l) = List.length l <-> forall x, In x l -> p x = true.
Proof.
  induction l as [|x r IH]; simpl; [tauto|].
  destruct (p x) eqn:E; simpl.
  - split.
    + intros H y [<-|Hy]; [exact E|]. apply IH; [lia | exact Hy].
    + intros H. f_equal. apply IH. intros y Hy. apply H. now right.
  - split.
    + intros H. pose proof (filter_length_le p r). lia.
    + intros H. specialize (H x (or_introl eq_refl)). congruence.
Qed.

Lemma rate_extremes (a b : Q) :
  (0 < b)%Q ->
  ((a / b * 100 == 100)%Q <-> (a == b)%Q) /\ ((a / b * 100 == 0)%Q <-> (a == 0)%Q).
Proof.
  intros B.
  assert (NZ : ~ (b == 0)%Q) by (intros Z; rewrite Z in B; discriminate B).
  assert (E : (a == (a / b) * b)%Q) by (field; exact NZ).
  split; split; intros H.
  - assert (R : (a / b == 1)%Q) by lra. rewrite E, R. ring.
  - rewrite H. field. exact NZ.
  - assert (R : (a / b == 0)%Q) by lra. rewrite E, R. ring.
  - rewrite H. field. exact NZ.
Qed.

Lemma length_inj {A B} (l : list A) (l' : list B) :
  (JS.length l == JS.length l')%Q <-> List.length l = List.length l'.
Proof.
  unfold JS.length. rewrite inject_Z_injective. lia.
Qed.

Lemma length_is_zero {A} (l : list A) : (JS.length l == 0)%Q <-> l = [].
Proof.
  unfold JS.length. change 0%Q with (inject_Z 0). rewrite inject_Z_injective.
  destruct l; simpl; split; intros H; try reflexivity; try discriminate; lia.
Qed.

(** X17: jobCloseRate is 100 exactly when there is at least one opportunity
    and every opportunity has status "Won"; it is 0 exactly when no
    opportunity has status "Won" (in particular when there is none). *)
Theorem calculateJobCloseRate_extremes opportunities :
  ((calculateJobCloseRate opportunities == 100)%Q <->
     opportunities <> []
     /\ forall opp, In opp opportunities -> ProcessedOpportunity.status opp = "Won")
  /\ ((calculateJobCloseRate opportunities == 0)%Q <->
     forall opp, In opp opportunities -> ProcessedOpportunity.status opp <> "Won").
Proof.
  unfold calculateJobCloseRate. destruct (num_eqb _ 0) eqn:E.
  - apply length_eq0 in E. subst. split.
    + split; [discriminate | intros [H _]; congruence].
    + split; [intros _ opp [] | reflexivity].
  - assert (NE : opportunities <> []) by (intros ->; discriminate).
    destruct (rate_extremes (JS.length (filter isWon opportunities))
                (JS.length opportunities) (length_pos _ NE)) as [R100 R0].
    rewrite R100, R0, length_inj, length_filter_all, length_is_zero, filter_nil_iff.
    unfold isWon. split; split.
    + intros H. split; [exact NE|]. intros opp Ho. now apply String.eqb_eq, H.
    + intros [_ H] opp Ho. now apply String.eqb_eq, H.
    + intros H opp Ho. now apply String.eqb_neq, H.
    + intros H opp Ho. now apply String.eqb_neq, H.
Qed.

End QuantitiesKeywordsRates.

(** ** Durations *)

Section Durations.
Import SpecExtra.

















End Durations.

(** ** The application state *)

Section AppStateFacts.
Import AppState.

Variable File : Type.
Variable currentWeek : Week.t.

(** X20: dispatching the same action twice in a row leaves the state that
    dispatching it once gives. *)
Theorem appReducer_idempotent (state : State File) (action : AppAction File) :
  appReducer File currentWeek (appReducer File currentWeek state action) action
  = appReducer File currentWeek state action.
Proof. destruct action; reflexivity. Qed.

(** X21: the uploaded files change only on SET_FILES and RESET_STATE, the
    selected week only on SET_WEEK and RESET_STATE; and whenever either
    changes through SET_FILES or SET_WEEK, the technicians are emptied and the
    data is marked as not loaded. *)
Theorem appReducer_frame (state : State File) (action : AppAction File) :
  ((forall payload, action <> SET_FILES File payload) -> action <> RESET_STATE File ->
     uploadedFiles (appReducer File currentWeek state action) = uploadedFiles state)
  /\ ((forall payload, action <> SET_WEEK File payload) -> action <> RESET_STATE File ->
     selectedWeek (appReducer File currentWeek state action) = selectedWeek state)
  /\ ((exists payload, action = SET_FILES File payload)
      \/ (exists payload, action = SET_WEEK File payload) ->
     technicians (appReducer File currentWeek state action) = []
     /\ isDataLoaded (appReducer File currentWeek state action) = false
     /\ error (appReducer File currentWeek state action) = None).
Proof.
  split; [|split].
  - intros NF NR. destruct action; try reflexivity.
    + exfalso. exact (NF _ eq_refl).
    + exfalso. exact (NR eq_refl).
  - intros NW NR. destruct action; try reflexivity.
    + exfalso. exact (NW _ eq_refl).
    + exfalso. exact (NR eq_refl).
  - intros [[p ->]|[p ->]]; repeat split.
Qed.

(** X22: after the dispatches of a run of processFiles, isProcessing is
    false, and the files and the week are as before; when the run succeeds
    the technicians are the computed KPIs, the data is marked loaded and the
    error is cleared; when it fails the error is the message, the data is
    marked not loaded and the technicians are as before. *)
Theorem processFiles_dispatches (state : State File) technicianKPIs message :
  let ok := dispatchAll File currentWeek state (processFilesSucceeds File technicianKPIs) in
  let ko := dispatchAll File currentWeek state (processFilesFails File message) in
  isProcessing ok = false
  /\ technicians ok = technicianKPIs
  /\ isDataLoaded ok = true
  /\ error ok = None
  /\ uploadedFiles ok = uploadedFiles state
  /\ selectedWeek ok = selectedWeek state
  /\ isProcessing ko = false
  /\ technicians ko = technicians state
  /\ isDataLoaded ko = false
  /\ error ko = Some message
  /\ uploadedFiles ko = uploadedFiles state
  /\ selectedWeek ko = selectedWeek state.
Proof. repeat split. Qed.

End AppStateFacts.

(** ** Dates with a time of day *)

Section DateParsingFacts.
Import DateParsing SpecExtra.

Variable Number_ : string -> option number.
Variable newDate : option number -> option number -> option number -> Date.
Variable setHours : Date -> option number -> option number -> Date.

Lemma split_nonempty sep s : split sep s <> [].
Proof.
  destruct s as [|c r]; simpl; [discriminate|].
  destruct (Ascii.eqb c sep); [discriminate|]. destruct (split sep r); discriminate.
Qed.

Lemma split_free sep s : free sep s = true -> split sep s = [s].
Proof.
  induction s as [|c r IH]; simpl; [reflexivity|]. intros H.
  apply andb_true_iff in H. destruct H as [H1 H2].
  apply negb_true_iff in H1. rewrite H1. now rewrite (IH H2).
Qed.

Lemma split_app sep s rest :
  free sep s = true ->
  split sep (String.append s (String sep rest)) = s :: split sep rest.
Proof.
  induction s as [|c r IH]; simpl.
  - intros _. now rewrite Ascii.eqb_refl.
  - intros H. apply andb_true_iff in H. destruct H as [H1 H2].
    apply negb_true_iff in H1. rewrite H1. now rewrite (IH H2).
Qed.

(** X23: what follows the time of day in the text given to parseDateTime
    has no effect; in particular the markers AM and PM are ignored, and a time
    written with PM gives the date that the same time written with AM gives.
    (The time part is the second piece of the text split at spaces, so
    splitting it again at spaces never yields a period.) *)
Theorem parseDateTime_ignores_period (datePart timePart rest : string) :
  free " " datePart = true ->
  free " " timePart = true ->
  parseDateTime Number_ newDate setHours
    (String.append datePart (String " " (String.append timePart (String " " rest))))
  = parseDateTime Number_ newDate setHours
      (String.append datePart (String " " timePart)).
Proof.
  intros D T. unfold parseDateTime.
  rewrite (split_app " " datePart _ D), (split_app " " timePart rest T).
  rewrite (split_app " " datePart timePart D), (split_free " " timePart T).
  reflexivity.
Qed.

End DateParsingFacts.

Lemma parseDateTime_ignores_period_witness :
  DateParsing.parseDateTime SpecExtra.sampleNumber SpecExtra.sampleNewDate
    SpecExtra.sampleSetHours "06/01/2025 10:00 PM"
  = DateParsing.parseDateTime SpecExtra.sampleNumber SpecExtra.sampleNewDate
      SpecExtra.sampleSetHours "06/01/2025 10:00".
Proof.
  exact (parseDateTime_ignores_period SpecExtra.sampleNumber SpecExtra.sampleNewDate
           SpecExtra.sampleSetHours "06/01/2025" "10:00" "PM" eq_refl eq_refl).
Defined.

(** Ten in the evening is read as ten in the morning. *)
Example parseDateTime_ten_PM :
  DateParsing.parseDateTime SpecExtra.sampleNumber SpecExtra.sampleNewDate
    SpecExtra.sampleSetHours "06/01/2025 10:00 PM"
  = ValidDate (10 * 3600000).
Proof. reflexivity. Qed.

(** ** Week navigation *)

Section WeekNavigationFacts.
Import AppState WeekNavigation SpecExtra.

Variable shiftDays : Date -> Z -> Date.

Lemma six_day_range start x :
  isDateInWeekRange (ValidDate x) (ValidDate start)
    (plusMilliseconds (ValidDate start) (6 * 24 * 60 * 60 * 1000)) = true
  <-> start <= x <= start + 6 * msPerDay.
Proof.
  unfold isDateInWeekRange, date_geb, date_leb, plusMilliseconds, msPerDay.
  rewrite andb_true_iff, !Z.leb_le. lia.
Qed.

(** X24: the week that getNextWeek or getPreviousWeek returns ends exactly
    six times 24 hours after it starts; so a date is within that week, for
    the KPI computation, exactly when it is at most six days after the start,
    and a date later on the seventh day is outside. *)
Theorem navigated_week_spans_six_days currentStart :
  forall week, week = getNextWeek shiftDays currentStart
               \/ week = getPreviousWeek shiftDays currentStart ->
  forall start, Week.start week = ValidDate start ->
    Week.end_ week = ValidDate (start + 6 * msPerDay)
    /\ (forall x, isDateInWeekRange (ValidDate x) (Week.start week) (Week.end_ week) = true
                  <-> start <= x <= start + 6 * msPerDay)
    /\ (forall x, start + 6 * msPerDay < x ->
                  isDateInWeekRange (ValidDate x) (Week.start week) (Week.end_ week) = false).
Proof.
  intros week W start S.
  assert (E : Week.end_ week
              = plusMilliseconds (Week.start week) (6 * 24 * 60 * 60 * 1000))
    by (destruct W as [-> | ->]; reflexivity).
  rewrite E, S. split; [reflexivity|]. split.
  - intros x. apply six_day_range.
  - intros x H. apply not_true_is_false. intros T. apply six_day_range in T. lia.
Qed.

End WeekNavigationFacts.

Lemma navigated_week_spans_six_days_witness :
  let week :=
    WeekNavigation.getNextWeek
      (fun d days => WeekNavigation.plusMilliseconds d (days * msPerDay))
      Samples.weekStart in
  AppState.Week.end_ week = ValidDate (1748822400000 + 7 * msPerDay + 6 * msPerDay).
Proof.
  intros week.
  exact (proj1 (navigated_week_spans_six_days
                  (fun d days => WeekNavigation.plusMilliseconds d (days * msPerDay))
                  Samples.weekStart week (or_introl eq_refl)
                  (1748822400000 + 7 * msPerDay) eq_refl)).
Defined.

(** ** Rejection of the integration *)

Lemma processAndIntegrateFiles_rejected_witness :
  DataIntegrator.processAndIntegrateFiles Samples.File
    Samples.parseOpportunitiesFile Samples.parseLineItemsFile
    Samples.parseJobTimesFile Samples.parseAppointmentsFile
    SpecExtra.filesWithBrokenLineItems = Rejected "Failed to parse Excel file"
  /\ ((exists f, UploadedFiles.opportunities SpecExtra.filesWithBrokenLineItems = Some f
                 /\ Samples.parseOpportunitiesFile f = Rejected "Failed to parse Excel file")
      \/ (exists f, UploadedFiles.lineItems SpecExtra.filesWithBrokenLineItems = Some f
                    /\ Samples.parseLineItemsFile f = Rejected "Failed to parse Excel file")
      \/ (exists f, UploadedFiles.jobTimes SpecExtra.filesWithBrokenLineItems = Some f
                    /\ Samples.parseJobTimesFile f = Rejected "Failed to parse Excel file")
      \/ (exists f, UploadedFiles.appointments SpecExtra.filesWithBrokenLineItems = Some f
                    /\ Samples.parseAppointmentsFile f = Rejected "Failed to parse Excel file")).
Proof.
  split; [reflexivity|].
  exact (processAndIntegrateFiles_rejected Samples.File
           Samples.parseOpportunitiesFile Samples.parseLineItemsFile
           Samples.parseJobTimesFile Samples.parseAppointmentsFile
           SpecExtra.filesWithBrokenLineItems "Failed to parse Excel file" eq_refl).
Defined.

(** ** Currency texts *)

Section Currency.
Import SpecExtra.

Lemma removeChars_idem cls s : removeChars cls (removeChars cls s) = removeChars cls s.
Proof.
  induction s as [|c r IH]; simpl; [reflexivity|].
  destruct (cls c) eqn:E; simpl; [exact IH | now rewrite E, IH].
Qed.

(** X26: parseCurrency ignores the characters $ and , wherever they stand
    in the text: removing them beforehand does not change the result. *)
Theorem parseCurrency_ignores_symbols s :
  parseCurrency (Some (removeChars isDollarOrComma s)) = parseCurrency (Some s).
Proof.
  unfold parseCurrency. rewrite removeChars_idem.
  destruct s as [|c r]; [reflexivity|]. simpl truthy_string at 2. simpl negb at 2.
  cbv iota. destruct (removeChars isDollarOrComma (String c r)) eqn:E; reflexivity.
Qed.

End Currency.

Section CurrencyNumerals.
Import SpecExtra.









End CurrencyNumerals.
